(** * EBP data ingestion: tables, transformers, filter stage, exporter

    A shallow embedding of [ingest_ebp_data.py].  A pandas frame is a list of
    column labels together with its rows; a Python call that may raise
    returns a [result]; the client, the network and the file system are
    threaded explicitly as a [World]. *)

From Stdlib Require Import ZArith Ascii String List Bool Lia.
From stdpp Require Import base decidable option list strings gmap.

Local Open Scope string_scope.
Local Open Scope list_scope.

(** ** Python values held in table cells and JSON payloads *)

(** A calendar date, the payload of a pandas [Timestamp] produced by
    [pd.to_datetime(..., format="%Y-%m-%d")]. *)
Record date := Date { year : Z; month : Z; day : Z }.

(** Cell values.  [VNull] stands for every missing-value marker pandas
    treats alike under [isna]/[fillna] ([None], [NaN], [NaT]); [VObj] is a
    JSON object (a Python [dict], keys in insertion order), [VArr] a JSON
    array. *)
Inductive value :=
| VNull
| VBool (b : bool)
| VNum (z : Z)
| VStr (s : string)
| VTime (d : date)
| VObj (o : fields)
| VArr (a : items)
with fields :=
| FNil
| FCons (k : string) (v : value) (rest : fields)
with items :=
| INil
| ICons (v : value) (rest : items).

Definition date_eq_dec (a b : date) : {a = b} + {a <> b}.
Proof. decide equality; apply Z.eq_dec. Defined.

Fixpoint value_eq_dec (a b : value) : {a = b} + {a <> b}
with fields_eq_dec (a b : fields) : {a = b} + {a <> b}
with items_eq_dec (a b : items) : {a = b} + {a <> b}.
Proof.
  - decide equality.
    + apply Bool.bool_dec.
    + apply Z.eq_dec.
    + apply String.string_dec.
    + apply date_eq_dec.
  - decide equality. apply String.string_dec.
  - decide equality.
Defined.

#[global] Instance value_eq_decision : EqDecision value := value_eq_dec.

(** [isinstance(x, dict)] followed by [x.get(key)]. *)
Fixpoint fields_get (key : string) (o : fields) : option value :=
  match o with
  | FNil => None
  | FCons k v rest => if String.eqb k key then Some v else fields_get key rest
  end.

Fixpoint items_to_list (a : items) : list value :=
  match a with
  | INil => []
  | ICons v rest => v :: items_to_list rest
  end.

Fixpoint fields_to_list (o : fields) : list (string * value) :=
  match o with
  | FNil => []
  | FCons k v rest => (k, v) :: fields_to_list rest
  end.

(** [pd.isna] on one cell. *)
Definition is_null (v : value) : bool :=
  match v with VNull => true | _ => false end.

(** Python truthiness, as used by [if token:] and [if manager_data:]. *)
Definition truthy (v : value) : bool :=
  match v with
  | VNull => false
  | VBool b => b
  | VNum z => negb (Z.eqb z 0)
  | VStr s => negb (String.eqb s "")
  | VTime _ => true
  | VObj FNil => false
  | VObj _ => true
  | VArr INil => false
  | VArr _ => true
  end.

(** ** Exceptions and results *)

Inductive exn :=
| KeyError (key : string)
| AttributeError (what : string)
| ValueError (what : string)
| ConnectionError (what : string)
| HTTPError (status : nat)
| JSONDecodeError
| OSError (path : string).

(** Outcome of a call: a value, a raised exception, or [Unmodelled] when the
    call reaches library behaviour outside this development (a regular
    expression with metacharacters, the [.str] accessor on a column without
    strings, a payload that is not a list of records). *)
Inductive result (A : Type) :=
| Ok (a : A)
| Raise (e : exn)
| Unmodelled.
Arguments Ok {A} a.
Arguments Raise {A} e.
Arguments Unmodelled {A}.

#[global] Instance result_ret : MRet result := @Ok.
#[global] Instance result_bind : MBind result := fun A B k r =>
  match r with
  | Ok a => k a
  | Raise e => Raise e
  | Unmodelled => Unmodelled
  end.
#[global] Instance result_fmap : FMap result := fun A B f r =>
  match r with
  | Ok a => Ok (f a)
  | Raise e => Raise e
  | Unmodelled => Unmodelled
  end.

(** ** Data frames *)

(** Row-major frame: [columns] are the labels in order, every row holds one
    cell per label.  Frames built from JSON records have pairwise distinct
    labels; selection by label takes the first column carrying it. *)
Record DataFrame := mkDF { columns : list string; rows : list (list value) }.

(** [df.empty]: no columns or no rows. *)
Definition empty (df : DataFrame) : bool :=
  match columns df, rows df with
  | [], _ => true
  | _, [] => true
  | _, _ => false
  end.

(** [pd.DataFrame()] *)
Definition empty_frame : DataFrame := mkDF [] [].

(** [col in df.columns] *)
Definition has_column (df : DataFrame) (col : string) : bool :=
  bool_decide (col ∈ columns df).

(** Position of the first column labelled [col]. *)
Fixpoint col_index (col : string) (cols : list string) : option nat :=
  match cols with
  | [] => None
  | c :: cs => if String.eqb c col then Some 0
               else S <$> col_index col cs
  end.

Definition cell (i : nat) (row : list value) : value := nth i row VNull.

(** [df[col]] as a series; [KeyError] when the label is absent. *)
Definition get_column (df : DataFrame) (col : string) : result (list value) :=
  match col_index col (columns df) with
  | Some i => Ok (map (cell i) (rows df))
  | None => Raise (KeyError col)
  end.

(** Overwrite position [i] of a row; a row too short is padded with
    nulls, which is how [cell] reads it already. *)
Fixpoint set_nth (i : nat) (x : value) (row : list value) : list value :=
  match i, row with
  | 0, [] => [x]
  | 0, _ :: row' => x :: row'
  | S i', [] => VNull :: set_nth i' x []
  | S i', y :: row' => y :: set_nth i' x row'
  end.

(** Pair every row with the series element of the same position.  The
    series has one element per row at every call site. *)
Fixpoint zip_rows (f : list value -> value -> list value)
    (rs : list (list value)) (vs : list value) : list (list value) :=
  match rs, vs with
  | r :: rs', v :: vs' => f r v :: zip_rows f rs' vs'
  | r :: rs', [] => f r VNull :: zip_rows f rs' []
  | [], _ => []
  end.

(** [df[col] = series]: overwrite the column when it exists, append it as
    the last column otherwise. *)
Definition set_column (df : DataFrame) (col : string) (vs : list value)
    : DataFrame :=
  match col_index col (columns df) with
  | Some i =>
      mkDF (columns df) (zip_rows (fun r v => set_nth i v r) (rows df) vs)
  | None =>
      mkDF (columns df ++ [col])
           (zip_rows (fun r v => set_nth (length (columns df)) v r) (rows df) vs)
  end.

(** [df[col] = scalar] *)
Definition set_column_scalar (df : DataFrame) (col : string) (v : value)
    : DataFrame :=
  set_column df col (map (fun _ => v) (rows df)).

(** Keep the cells of a row whose label satisfies [p]. *)
Fixpoint select_cells (p : string -> bool) (cols : list string)
    (row : list value) : list value :=
  match cols with
  | [] => []
  | c :: cs =>
      let rest := select_cells p cs (tl row) in
      if p c then cell 0 row :: rest else rest
  end.

(** [[col for col in wanted if col in df.columns]] *)
Definition available_columns (df : DataFrame) (wanted : list string)
    : list string :=
  List.filter (fun c => bool_decide (c ∈ columns df)) wanted.

(** [df[labels]]: project to the listed labels, in the listed order;
    [KeyError] on the first label that is absent. *)
Fixpoint col_indices (labels cols : list string) : result (list nat) :=
  match labels with
  | [] => Ok []
  | l :: ls =>
      match col_index l cols with
      | Some i => tail ← col_indices ls cols; Ok (i :: tail)
      | None => Raise (KeyError l)
      end
  end.

Definition project (df : DataFrame) (labels : list string) : result DataFrame :=
  idx ← col_indices labels (columns df);
  Ok (mkDF labels (map (fun r => map (fun i => cell i r) idx) (rows df))).

(** ** Defensive column helpers *)

(** [safe_rename_columns]: [existing_columns] restricts the mapping to the
    labels present; [df.rename(columns=...)] then relabels every column
    found in the mapping and leaves the others and all cells untouched. *)
Definition existing_mapping (df : DataFrame) (column_mapping : gmap string string)
    : gmap string string :=
  filter (fun kv => kv.1 ∈ columns df) column_mapping.

Definition rename (df : DataFrame) (m : gmap string string) : DataFrame :=
  mkDF (map (fun c => default c (m !! c)) (columns df)) (rows df).

Definition safe_rename_columns (df : DataFrame)
    (column_mapping : gmap string string) : DataFrame :=
  let existing_columns := existing_mapping df column_mapping in
  if bool_decide (existing_columns = ∅) then df
  else rename df existing_columns.

(** [safe_drop_columns]: [df.drop(columns=existing)] removes every column
    whose label is listed, cells included. *)
Definition drop (df : DataFrame) (labels : list string) : DataFrame :=
  let keep c := negb (bool_decide (c ∈ labels)) in
  mkDF (List.filter keep (columns df))
       (map (select_cells keep (columns df)) (rows df)).

Definition safe_drop_columns (df : DataFrame) (columns_to_drop : list string)
    : DataFrame :=
  let existing_columns :=
    List.filter (fun c => bool_decide (c ∈ columns df)) columns_to_drop in
  match existing_columns with
  | [] => df
  | _ => drop df existing_columns
  end.

(** ** Dates *)

Definition digit_of (c : ascii) : option Z :=
  let n := nat_of_ascii c in
  if (48 <=? n)%nat && (n <=? 57)%nat then Some (Z.of_nat (n - 48)) else None.

Definition is_leap (y : Z) : bool :=
  ((y mod 4 =? 0) && negb (y mod 100 =? 0) || (y mod 400 =? 0))%Z.

Definition days_in_month (y m : Z) : Z :=
  if (m =? 2)%Z then (if is_leap y then 29 else 28)%Z
  else if ((m =? 4) || (m =? 6) || (m =? 9) || (m =? 11))%Z then 30%Z
  else 31%Z.

(** The directive [%m]: [1[0-2]|0[1-9]|[1-9]]. *)
Definition month_token (s : string) : option Z :=
  match s with
  | String a EmptyString =>
      d ← digit_of a; if (1 <=? d)%Z then Some d else None
  | String a (String b EmptyString) =>
      x ← digit_of a; y ← digit_of b;
      let m := (10 * x + y)%Z in
      if ((1 <=? m) && (m <=? 12))%Z then Some m else None
  | _ => None
  end.

(** The directive [%d]: [3[0-1]|[1-2]\d|0[1-9]|[1-9]| [1-9]]. *)
Definition day_token (s : string) : option Z :=
  match s with
  | String a EmptyString =>
      d ← digit_of a; if (1 <=? d)%Z then Some d else None
  | String a (String b EmptyString) =>
      y ← digit_of b;
      if Ascii.eqb a " " then (if (1 <=? y)%Z then Some y else None)
      else
        x ← digit_of a;
        let d := (10 * x + y)%Z in
        if ((1 <=? d) && (d <=? 31))%Z then Some d else None
  | _ => None
  end.

(** Split at the first occurrence of [sep]. *)
Fixpoint split_first (sep : ascii) (s : string) : option (string * string) :=
  match s with
  | EmptyString => None
  | String c s' =>
      if Ascii.eqb c sep then Some (EmptyString, s')
      else '(l, r) ← split_first sep s'; Some (String c l, r)
  end.

Definition date_leb (a b : date) : bool :=
  ((year a <? year b)
   || ((year a =? year b)
       && ((month a <? month b)
           || ((month a =? month b) && (day a <=? day b)))))%Z.

(** Range of a nanosecond-resolution [Timestamp] at midnight. *)
Definition timestamp_min : date := Date 1677 9 22.
Definition timestamp_max : date := Date 2262 4 11.

(** Parsing one string against the format [%Y-%m-%d], whole string
    consumed: four digits, a month and a day token, a day that exists in
    that month, a date a [Timestamp] can hold. *)
Definition strptime_ymd (s : string) : option date :=
  match s with
  | String a (String b (String c (String d (String dash rest)))) =>
      if Ascii.eqb dash "-" then
        y1 ← digit_of a; y2 ← digit_of b; y3 ← digit_of c; y4 ← digit_of d;
        '(ms, ds) ← split_first "-" rest;
        m ← month_token ms;
        dd ← day_token ds;
        let y := (1000 * y1 + 100 * y2 + 10 * y3 + y4)%Z in
        let dt := Date y m dd in
        if (dd <=? days_in_month y m)%Z
           && date_leb timestamp_min dt && date_leb dt timestamp_max
        then Some dt else None
      else None
  | _ => None
  end.

(** One element of [pd.to_datetime(series, format="%Y-%m-%d",
    errors='coerce')]: strings are parsed, timestamps kept, everything that
    does not parse becomes [NaT]. *)
Definition to_datetime (v : value) : value :=
  match v with
  | VStr s => match strptime_ymd s with Some d => VTime d | None => VNull end
  | VTime d => VTime d
  | _ => VNull
  end.

(** One element of [series.fillna(x)]. *)
Definition fillna (x v : value) : value := if is_null v then x else v.

Definition sentinel : string := "2099-12-31".

(** ** Per-entity transformers *)

(** [df[col] = f(df[col])] elementwise; [KeyError] when [col] is absent. *)
Definition map_column (f : value -> value) (col : string) (df : DataFrame)
    : result DataFrame :=
  vs ← get_column df col;
  Ok (set_column df col (map f vs)).

(** The loop [for date_col in [...]: if date_col in df.columns: ...]. *)
Fixpoint parse_date_columns (date_cols : list string) (df : DataFrame)
    : result DataFrame :=
  match date_cols with
  | [] => Ok df
  | date_col :: more =>
      df' ← (if has_column df date_col
             then map_column to_datetime date_col df
             else Ok df);
      parse_date_columns more df'
  end.

Definition transform_buildings (df : DataFrame) : DataFrame :=
  if empty df then df
  else safe_rename_columns df
         {[ "id" := "buildingId"; "name" := "buildingName";
            "activeState" := "buildingActiveState" ]}.

Definition transform_utility_units (df : DataFrame) : DataFrame :=
  if empty df then df
  else
    let df := safe_drop_columns df ["participations"; "participationObjects"] in
    safe_rename_columns df
      {[ "id" := "utilityUnitId"; "name" := "utilityUnitName";
         "usageType" := "utilityUnitUsageType";
         "activeState" := "utilityUnitActiveState" ]}.

Definition transform_meters (df : DataFrame) : result DataFrame :=
  if empty df then Ok df
  else
    let df := safe_rename_columns df
                {[ "id" := "meterId"; "activeState" := "meterActiveState" ]} in
    df ← map_column (fillna (VStr sentinel)) "billableTo" df;
    parse_date_columns ["billableFrom"; "billableTo"] df.

(** [lambda x: x.get('name') if isinstance(x, dict) else None] *)
Definition product_name (x : value) : value :=
  match x with
  | VObj o => default VNull (fields_get "name" o)
  | _ => VNull
  end.

(** [df['productName'] = df['product'].apply(...)] *)
Definition map_product (df : DataFrame) : result DataFrame :=
  vs ← get_column df "product";
  Ok (set_column df "productName" (map product_name vs)).

Definition required_columns : list string :=
  [ "contractId"; "contractName"; "contractActiveState"; "startDate";
    "endDate"; "productId"; "productName"; "areaId"; "areaName"; "loadDate" ].

Definition transform_contracts (df : DataFrame) : result DataFrame :=
  if empty df then Ok df
  else
    df ← (if has_column df "product"
          then map_product df
          else Ok (set_column_scalar df "productName" VNull));
    let df := safe_rename_columns df
                {[ "id" := "contractId"; "name" := "contractName";
                   "activeState" := "contractActiveState" ]} in
    df ← project df (available_columns df required_columns);
    df ← map_column (fillna (VStr sentinel)) "endDate" df;
    parse_date_columns ["startDate"; "endDate"] df.

Definition transform_areas (df : DataFrame) : DataFrame :=
  if empty df then df
  else safe_rename_columns df {[ "id" := "areaId"; "name" := "areaName" ]}.

Definition transform_profiles (df : DataFrame) : DataFrame :=
  if empty df then df
  else safe_rename_columns df {[ "id" := "profileId" ]}.

(** ** Strings and the regular-expression fragment *)

(** Case folding of [re.IGNORECASE] on ASCII letters.  Python folds other
    letters too ([Ö] with [ö]; [ſ], [İ], [ı] and the Kelvin sign with ASCII
    [s], [i], [k]): this is the folding of [re] on ASCII text only, and on
    other text [re] finds every match found here and possibly more. *)
Definition lower_ascii (c : ascii) : ascii :=
  let n := nat_of_ascii c in
  if (65 <=? n)%nat && (n <=? 90)%nat then ascii_of_nat (n + 32) else c.

Fixpoint lower (s : string) : string :=
  match s with
  | EmptyString => EmptyString
  | String c s' => String (lower_ascii c) (lower s')
  end.

(** [needle in hay] *)
Fixpoint contains (needle hay : string) : bool :=
  String.prefix needle hay
  || match hay with
     | EmptyString => false
     | String _ hay' => contains needle hay'
     end.

(** [sep.join(words)] *)
Definition join (sep : string) (words : list string) : string :=
  String.concat sep words.

(** [s.split(sep)] for a one-character separator. *)
Fixpoint split_on (sep : ascii) (s : string) : list string :=
  match s with
  | EmptyString => [EmptyString]
  | String c s' =>
      if Ascii.eqb c sep then EmptyString :: split_on sep s'
      else match split_on sep s' with
           | [] => [String c EmptyString]
           | w :: ws => String c w :: ws
           end
  end.

Fixpoint string_exists (p : ascii -> bool) (s : string) : bool :=
  match s with
  | EmptyString => false
  | String c s' => p c || string_exists p s'
  end.

(** Characters with a special meaning in a Python regular expression,
    alternation apart. *)
Definition regex_meta (c : ascii) : bool :=
  existsb (Ascii.eqb c)
    [ "."; "^"; "$"; "*"; "+"; "?"; "{"; "}"; "["; "]"; "\"; "("; ")" ]%char.

(** The fragment of [re] that is modelled: an alternation [b1|b2|...] of
    literal branches.  [None] for a pattern with other metacharacters. *)
Definition re_compile (pattern : string) : option (list string) :=
  if string_exists regex_meta pattern then None
  else Some (split_on "|" pattern).

(** [re.search] with [re.IGNORECASE] for a compiled alternation: some
    branch occurs in the subject, letter case ignored as [lower] does, which
    is what [re] does when the branches and the subject are ASCII. *)
Definition re_search_ignorecase (branches : list string) (s : string) : bool :=
  existsb (fun b => contains (lower b) (lower s)) branches.

Definition is_str_or_null (v : value) : bool :=
  match v with VStr _ | VNull => true | _ => false end.

(** One element of [series.str.contains(pattern, case=False, na=False)]. *)
Definition contains_cell (branches : list string) (v : value) : bool :=
  match v with
  | VStr s => re_search_ignorecase branches s
  | _ => false
  end.

(** [series.str.contains(pattern, case=False, na=False)].  The [.str]
    accessor is modelled on series of strings and nulls. *)
Definition str_contains (pattern : string) (series : list value)
    : result (list bool) :=
  match re_compile pattern with
  | None => Unmodelled
  | Some branches =>
      if forallb is_str_or_null series
      then Ok (map (contains_cell branches) series)
      else Unmodelled
  end.

(** [df[mask].reset_index(drop=True)] with a boolean series as mask. *)
Fixpoint select_mask {A} (mask : list bool) (xs : list A) : list A :=
  match mask, xs with
  | b :: mask', x :: xs' =>
      if b then x :: select_mask mask' xs' else select_mask mask' xs'
  | _, _ => []
  end.

(** ** Filter stage *)

Definition apply_data_filters (df : DataFrame) (filter_words : list string)
    (column_name : string) : result DataFrame :=
  if empty df || negb (has_column df column_name) then Ok df
  else
    let pattern := join "|" filter_words in
    names ← get_column df column_name;
    mask ← str_contains pattern names;
    Ok (mkDF (columns df) (select_mask (map negb mask) (rows df))).

(** [series.isin(ids)] for one element; the Python set is kept as the list
    of its members. *)
Definition isin (ids : list value) (v : value) : bool := bool_decide (v ∈ ids).

(** Body of the loop over contracts, utility units and buildings. *)
Definition filter_by_area (valid_area_ids : list value) (df : DataFrame)
    : result DataFrame :=
  if negb (empty df) && has_column df "areaId" then
    ids ← get_column df "areaId";
    Ok (mkDF (columns df) (select_mask (map (isin valid_area_ids) ids) (rows df)))
  else Ok df.

Record Tables := mkTables {
  areas : DataFrame;
  contracts : DataFrame;
  utility_units : DataFrame;
  buildings : DataFrame
}.

(** The filtering block of [main]: areas by denylist first, then the other
    tables by membership of [areaId], the latter only under
    [if not dfa.empty]. *)
Definition filter_stage (filter_words : list string) (t : Tables)
    : result Tables :=
  dfa ← apply_data_filters (areas t) filter_words "areaName";
  if negb (empty dfa) then
    valid_area_ids ← get_column dfa "areaId";
    dfc ← filter_by_area valid_area_ids (contracts t);
    dfu ← filter_by_area valid_area_ids (utility_units t);
    dfb ← filter_by_area valid_area_ids (buildings t);
    Ok (mkTables dfa dfc dfu dfb)
  else Ok (mkTables dfa (contracts t) (utility_units t) (buildings t)).

(** ** Cross-linker *)

(** A Python [dict] as its items in insertion order. *)
Fixpoint dict_set {K V} `{EqDecision K} (k : K) (v : V) (d : list (K * V))
    : list (K * V) :=
  match d with
  | [] => [(k, v)]
  | (k', v') :: d' =>
      if decide (k' = k) then (k', v) :: d' else (k', v') :: dict_set k v d'
  end.

Fixpoint dict_get {K V} `{EqDecision K} (k : K) (d : list (K * V)) : option V :=
  match d with
  | [] => None
  | (k', v') :: d' => if decide (k' = k) then Some v' else dict_get k d'
  end.

(** [series.to_dict()] of a series indexed by [keys]: assignments in row
    order, a later row overriding an earlier one with the same key. *)
Definition to_dict (keys vals : list value) : list (value * value) :=
  fold_left (fun d kv => dict_set kv.1 kv.2 d) (combine keys vals) [].

(** One element of [series.map(d)]. *)
Definition map_dict (d : list (value * value)) (v : value) : value :=
  default VNull (dict_get v d).

(** The linking block of [main]; [set_index('buildingId')] is the access
    that is not guarded. *)
Definition cross_link (dfu dfb : DataFrame) : result DataFrame :=
  if negb (empty dfu) && negb (empty dfb)
     && has_column dfu "buildingId" && has_column dfb "areaId" then
    keys ← get_column dfb "buildingId";
    vals ← get_column dfb "areaId";
    let building_area_map := to_dict keys vals in
    unit_buildings ← get_column dfu "buildingId";
    Ok (set_column dfu "areaId" (map (map_dict building_area_map) unit_buildings))
  else Ok dfu.

(** ** The process state: client, network, file system, log *)

(** The header stored by a successful login, [Bearer <token>]. *)
Inductive header := Bearer (token : value).

(** What one HTTP request yields: a transport failure (a
    [RequestException] raised by [requests]) or a response with its status
    code and, when the body is JSON, the decoded body. *)
Inductive http_outcome :=
| Fails (what : string)
| Responds (status : nat) (body : option value).

Inductive log_event :=
| LogAuthAttempt
| LogAuthOk
| LogTokenNotFound
| LogAuthFailed (e : exn)
| LogRetry (func : string) (attempt : nat) (e : exn) (delay : nat)
| LogGaveUp (func : string) (max_retries : nat) (e : exn)
| LogNoData (table_name : string)
| LogExported (table_name : string) (records : nat) (file_path : string)
| LogExportFailed (table_name : string) (file_path : string) (e : exn)
| LogNotConfigured (table_name : string)
| LogExportCompleted (successful_exports total_exports : nat)
| LogFailedExports (failed_exports : list string)
| LogExportError (e : exn)
| LogNoContracts
| LogManagersSkipped (contract : value) (e : exn)
| LogNoManagers
| LogManagersProcessed (records : nat).

Record World := mkWorld {
  env : gmap string string;          (* os.getenv *)
  today : string;                    (* datetime.today() as %Y%m%d *)
  auth_header : option header;       (* self.auth_header *)
  responses : nat -> http_outcome;   (* outcome of the n-th request *)
  sent : nat;                        (* requests issued so far *)
  slept : list nat;                  (* time.sleep calls, in seconds *)
  io_fails : string -> bool;         (* paths on which a write raises *)
  dirs : list string;                (* directories created *)
  disk : gmap string DataFrame;      (* CSV files written, by path *)
  log : list log_event               (* log records, oldest first *)
}.

Definition M (A : Type) : Type := World -> result A * World.

Definition emit (ev : log_event) (w : World) : World :=
  mkWorld (env w) (today w) (auth_header w) (responses w) (sent w) (slept w)
          (io_fails w) (dirs w) (disk w) (log w ++ [ev]).

Definition sleep (seconds : nat) (w : World) : World :=
  mkWorld (env w) (today w) (auth_header w) (responses w) (sent w)
          (slept w ++ [seconds]) (io_fails w) (dirs w) (disk w) (log w).

Definition set_auth_header (h : header) (w : World) : World :=
  mkWorld (env w) (today w) (Some h) (responses w) (sent w) (slept w)
          (io_fails w) (dirs w) (disk w) (log w).

(** Issue one request: take the next scripted outcome. *)
Definition http_request (w : World) : http_outcome * World :=
  (responses w (sent w),
   mkWorld (env w) (today w) (auth_header w) (responses w) (S (sent w))
           (slept w) (io_fails w) (dirs w) (disk w) (log w)).

Definition mkdir (path : string) (w : World) : World :=
  mkWorld (env w) (today w) (auth_header w) (responses w) (sent w) (slept w)
          (io_fails w) (dirs w ++ [path]) (disk w) (log w).

Definition write_file (path : string) (df : DataFrame) (w : World) : World :=
  mkWorld (env w) (today w) (auth_header w) (responses w) (sent w) (slept w)
          (io_fails w) (dirs w) (<[path := df]> (disk w)) (log w).

(** ** API client *)

(** [retry_on_failure(max_retries, delay)(func)]: the loop
    [for attempt in range(max_retries)], [remaining] iterations left. *)
Fixpoint retry_loop {A} (name : string) (max_retries delay : nat)
    (func : M A) (remaining : nat) : M (option A) :=
  fun w =>
    match remaining with
    | 0 => (Ok None, w)
    | S remaining' =>
        let attempt := max_retries - remaining in
        match func w with
        | (Ok a, w) => (Ok (Some a), w)
        | (Raise e, w) =>
            if Nat.eqb attempt (max_retries - 1)
            then (Raise e, emit (LogGaveUp name max_retries e) w)
            else retry_loop name max_retries delay func remaining'
                   (sleep delay (emit (LogRetry name (attempt + 1) e delay) w))
        | (Unmodelled, w) => (Unmodelled, w)
        end
    end.

Definition retry_on_failure {A} (name : string) (max_retries delay : nat)
    (func : M A) : M (option A) :=
  retry_loop name max_retries delay func max_retries.

(** [response.raise_for_status()] *)
Definition raise_for_status (status : nat) : result unit :=
  if (400 <=? status)%nat && (status <? 600)%nat
  then Raise (HTTPError status) else Ok tt.

(** [response.json().get("token")] *)
Definition response_token (body : option value) : result value :=
  match body with
  | None => Raise JSONDecodeError
  | Some (VObj o) => Ok (default VNull (fields_get "token" o))
  | Some _ => Raise (AttributeError "get")
  end.

(** The request of [EBP.login] up to the token: [requests.post],
    [raise_for_status], [response.json().get("token")]. *)
Definition request_token (outcome : http_outcome) : result value :=
  match outcome with
  | Fails what => Raise (ConnectionError what)
  | Responds status body =>
      _ ← raise_for_status status;
      response_token body
  end.

(** The exceptions [except requests.exceptions.RequestException] catches. *)
Definition is_request_exception (e : exn) : bool :=
  match e with
  | ConnectionError _ | HTTPError _ | JSONDecodeError => true
  | _ => false
  end.

(** Body of [EBP.login], before decoration.  A [RequestException] is logged
    and re-raised; other exceptions pass through. *)
Definition login_body : M bool := fun w =>
  let w := emit LogAuthAttempt w in
  let '(outcome, w) := http_request w in
  match request_token outcome with
  | Ok token =>
      if truthy token
      then (Ok true, emit LogAuthOk (set_auth_header (Bearer token) w))
      else (Ok false, emit LogTokenNotFound w)
  | Raise e =>
      (Raise e, if is_request_exception e then emit (LogAuthFailed e) w else w)
  | Unmodelled => (Unmodelled, w)
  end.

(** [EBP.login]: [@retry_on_failure(max_retries=3, delay=2.0)]. *)
Definition login : M (option bool) :=
  retry_on_failure "login" 3 2 login_body.

(** ** Exporter *)

Definition export_dataframe_to_csv (df : DataFrame) (file_path : string)
    (table_name : string) : World -> bool * World := fun w =>
  if empty df then (false, emit (LogNoData table_name) w)
  else if io_fails w file_path
  then (false, emit (LogExportFailed table_name file_path (OSError file_path)) w)
  else (true, emit (LogExported table_name (length (rows df)) file_path)
                (write_file file_path df w)).

(** [Path(base_path) / subdir] *)
Definition path_join (base sub : string) : string := base +:+ "/" +:+ sub.

Fixpoint create_export_directories (base_path : string)
    (subdirectories : list string) : M unit := fun w =>
  match subdirectories with
  | [] => (Ok tt, w)
  | subdir :: more =>
      let dir_path := path_join base_path subdir in
      if io_fails w dir_path then (Raise (OSError dir_path), w)
      else create_export_directories base_path more (mkdir dir_path w)
  end.

Definition default_subdirectories : string :=
  "areas,contracts,buildings,utility_units,meters,managers,profiles".

Definition csv_path (base_path today table_name : string) : string :=
  path_join (path_join base_path table_name)
            (today +:+ "_" +:+ table_name +:+ ".csv").

(** The loop [for table_name, df in dataframes.items()], threading
    [export_results]. *)
Fixpoint export_each (base_path : string) (subdirectories : list string)
    (dataframes : list (string * DataFrame))
    (export_results : list (string * bool)) (w : World)
    : list (string * bool) * World :=
  match dataframes with
  | [] => (export_results, w)
  | (table_name, df) :: more =>
      if bool_decide (table_name ∈ subdirectories) then
        let file_path := csv_path base_path (today w) table_name in
        let '(success, w) := export_dataframe_to_csv df file_path table_name w in
        export_each base_path subdirectories more
          (dict_set table_name success export_results) w
      else
        export_each base_path subdirectories more export_results
          (emit (LogNotConfigured table_name) w)
  end.

(** [[name for name, success in export_results.items() if not success]] *)
Definition failed_exports (export_results : list (string * bool)) : list string :=
  map fst (List.filter (fun r => negb r.2) export_results).

(** [sum(export_results.values())] *)
Definition successful_exports (export_results : list (string * bool)) : nat :=
  length (List.filter (fun r => r.2) export_results).

(** [os.getenv('EXPORT_SUBDIRECTORIES', default).split(',')] *)
Definition configured_subdirectories (w : World) : list string :=
  split_on "," (default default_subdirectories
                  (env w !! "EXPORT_SUBDIRECTORIES")).

Definition export_all_data (dataframes : list (string * DataFrame)) : M unit :=
  fun w =>
    let base_path := env w !! "EXPORT_BASE_PATH" in
    let subdirectories := configured_subdirectories w in
    match base_path with
    | None | Some EmptyString =>
        let e := ValueError "EXPORT_BASE_PATH not set in environment variables" in
        (Raise e, emit (LogExportError e) w)
    | Some base_path =>
        match create_export_directories base_path subdirectories w with
        | (Ok _, w) =>
            let '(export_results, w) :=
              export_each base_path subdirectories dataframes [] w in
            let w := emit (LogExportCompleted (successful_exports export_results)
                             (length export_results)) w in
            let failed := failed_exports export_results in
            (Ok tt, match failed with
                    | [] => w
                    | _ => emit (LogFailedExports failed) w
                    end)
        | (Raise e, w) => (Raise e, emit (LogExportError e) w)
        | (Unmodelled, w) => (Unmodelled, w)
        end
    end.

(** ** Manager fetcher *)

(** A record as a Python [dict]: later occurrences of a key override. *)
Definition as_dict (items : list (string * value)) : list (string * value) :=
  fold_left (fun d kv => dict_set kv.1 kv.2 d) items [].

(** Column labels of [pd.DataFrame(records)]: the keys of the records in
    order of first appearance. *)
Definition record_columns (records : list (list (string * value)))
    : list string :=
  fold_left
    (fun cols rec =>
       fold_left (fun cols k => if bool_decide (k ∈ cols) then cols else cols ++ [k])
                 (map fst rec) cols)
    records [].

(** [pd.DataFrame(records)] for a list of dicts; a key a record lacks
    gives a null cell. *)
Definition frame_of_records (records : list (list (string * value)))
    : DataFrame :=
  let cols := record_columns records in
  mkDF cols (map (fun rec => map (fun c => default VNull (dict_get c rec)) cols)
                 records).

(** Flattening of nested objects by [pd.json_normalize]: a nested key is
    [parent.key]. *)
Fixpoint normalise_json (key_string : string) (o : fields)
    : list (string * value) :=
  match o with
  | FNil => []
  | FCons key v rest =>
      let new_key :=
        if String.eqb key_string "" then key else key_string +:+ "." +:+ key in
      match v with
      | VObj o' => normalise_json new_key o'
      | _ => [(new_key, v)]
      end ++ normalise_json key_string rest
  end.

Definition is_obj (v : value) : bool :=
  match v with VObj _ => true | _ => false end.

(** One record of [pd.json_normalize(series)]: the scalar entries first,
    then the flattened nested ones; an element that is not a dict gives an
    empty record. *)
Definition normalise_record (v : value) : result (list (string * value)) :=
  match v with
  | VObj o =>
      let entries := fields_to_list o in
      let top := List.filter (fun kv => negb (is_obj kv.2)) entries in
      let nested :=
        flat_map (fun kv => match kv.2 with
                            | VObj o' => normalise_json kv.1 o'
                            | _ => []
                            end) entries in
      Ok (as_dict (top ++ nested))
  | VArr _ => Unmodelled
  | _ => Ok []
  end.

Fixpoint mapM {A B} (f : A -> result B) (l : list A) : result (list B) :=
  match l with
  | [] => Ok []
  | x :: l' => y ← f x; ys ← mapM f l'; Ok (y :: ys)
  end.

Definition json_normalize (series : list value) : result DataFrame :=
  records ← mapM normalise_record series;
  Ok (frame_of_records records).

(** [pd.concat(frames, axis=1)] of frames with the same number of rows. *)
Definition concat_columns (a b : DataFrame) : DataFrame :=
  mkDF (columns a ++ columns b)
       (zip_with (fun ra rb => ra ++ rb) (rows a) (rows b)).

Definition excluded_email : string := "zev@ckw.ch".

(** [df[~df['email'].isin(['zev@ckw.ch'])].reset_index(drop=True)] *)
Definition exclude_email (df : DataFrame) : result DataFrame :=
  emails ← get_column df "email";
  Ok (mkDF (columns df)
           (select_mask (map (fun v => negb (isin [VStr excluded_email] v)) emails)
                        (rows df))).

Definition manager_drop_columns : list string :=
  [ "profileId"; "isBlocked"; "party"; "externalUserId";
    "externalUserParties"; "activeState" ].

Definition contract_columns : list string :=
  [ "contractId"; "contractName"; "contractActiveState"; "productName";
    "areaName" ].

(** [row[col]] for a row of [contracts_df.iterrows()]. *)
Definition row_get (cols : list string) (row : list value) (col : string)
    : result value :=
  match col_index col cols with
  | Some i => Ok (cell i row)
  | None => Raise (KeyError col)
  end.

(** The five assignments [df[col] = row[col]]. *)
Fixpoint stamp_contract (cols : list string) (row : list value)
    (labels : list string) (df : DataFrame) : result DataFrame :=
  match labels with
  | [] => Ok df
  | l :: more =>
      v ← row_get cols row l;
      stamp_contract cols row more (set_column_scalar df l v)
  end.

(** [pd.DataFrame(manager_data)] for a JSON array of objects. *)
Definition frame_of_payload (manager_data : value) : result DataFrame :=
  match manager_data with
  | VArr a =>
      let elems := items_to_list a in
      if forallb is_obj elems
      then Ok (frame_of_records
                 (map (fun v => match v with
                                | VObj o => as_dict (fields_to_list o)
                                | _ => []
                                end) elems))
      else Unmodelled
  | _ => Unmodelled
  end.

(** The [pd.concat([...], axis=1)] that flattens the three nested
    objects. *)
Definition flatten_managers (df : DataFrame) : result DataFrame :=
  contact ← get_column df "contact";
  contact ← json_normalize contact;
  address ← get_column df "address";
  address ← json_normalize address;
  personal ← get_column df "personal";
  personal ← json_normalize personal;
  Ok (concat_columns contact
        (concat_columns address
           (concat_columns personal
              (drop df ["contact"; "address"; "personal"])))).

Definition manager_mapping : gmap string string := {[ "id" := "profileId" ]}.

(** Exclusion of the placeholder account, clean-up of the technical
    columns, and the contract stamp. *)
Definition clean_managers (cols : list string) (row : list value)
    (df : DataFrame) : result DataFrame :=
  df ← exclude_email df;
  let df := rename df manager_mapping in
  let df := drop df manager_drop_columns in
  stamp_contract cols row contract_columns df.

(** What the [try] block does with a non-empty payload.  Frames whose
    labels repeat after flattening are outside the model. *)
Definition manager_frame (cols : list string) (row : list value)
    (manager_data : value) : result DataFrame :=
  df ← frame_of_payload manager_data;
  df ← flatten_managers df;
  if bool_decide (NoDup (columns df)) then clean_managers cols row df
  else Unmodelled.

(** What the [try] block does with the response for one contract: [None]
    when the response contributes no frame. *)
Definition fetch_managers (cols : list string) (row : list value)
    (outcome : http_outcome) : result (option DataFrame) :=
  match outcome with
  | Fails what => Raise (ConnectionError what)
  | Responds status body =>
      if Nat.eqb status 200 then
        match body with
        | None => Raise JSONDecodeError
        | Some manager_data =>
            if truthy manager_data
            then Some <$> manager_frame cols row manager_data
            else Ok None
        end
      else Ok None
  end.

(** The loop over [contracts_df.iterrows()].  The URL reads
    [row['contractId']] before the request is sent and the handler of the
    [try] reads it again, so a contracts table without that column raises
    [KeyError] out of the loop, no request sent. *)
Fixpoint managers_loop (cols : list string) (contract_rows : list (list value))
    (managers : list DataFrame) : M (list DataFrame) := fun w =>
  match contract_rows with
  | [] => (Ok managers, w)
  | row :: more =>
      match row_get cols row "contractId" with
      | Ok id =>
          let '(outcome, w) := http_request w in
          match fetch_managers cols row outcome with
          | Ok (Some df) => managers_loop cols more (managers ++ [df]) w
          | Ok None => managers_loop cols more managers w
          | Raise e =>
              managers_loop cols more managers (emit (LogManagersSkipped id e) w)
          | Unmodelled => (Unmodelled, w)
          end
      | Raise e => (Raise e, w)
      | Unmodelled => (Unmodelled, w)
      end
  end.

(** [pd.concat(frames, ignore_index=True)]: the labels of all frames in
    order of first appearance, every row re-read by label, null where its
    frame lacks the label. *)
Definition concat_rows (frames : list DataFrame) : DataFrame :=
  let cols :=
    fold_left
      (fun cols df =>
         fold_left (fun cols k => if bool_decide (k ∈ cols) then cols else cols ++ [k])
                   (columns df) cols)
      frames [] in
  mkDF cols
       (flat_map
          (fun df =>
             map (fun r =>
                    map (fun c => match col_index c (columns df) with
                                  | Some i => cell i r
                                  | None => VNull
                                  end) cols)
                 (rows df))
          frames).

Definition expected_columns : list string :=
  [ "contractId"; "contractName"; "contractActiveState"; "productName";
    "areaName"; "salutation"; "firstName"; "lastName"; "userType";
    "username"; "mobile"; "email"; "telephone"; "street"; "houseNumber";
    "postalCode"; "city" ].

Definition get_managers (contracts_df : DataFrame) : M DataFrame := fun w =>
  if empty contracts_df then (Ok empty_frame, emit LogNoContracts w)
  else
    match managers_loop (columns contracts_df) (rows contracts_df) [] w with
    | (Ok [], w) => (Ok empty_frame, emit LogNoManagers w)
    | (Ok managers, w) =>
        let output := concat_rows managers in
        match project output (available_columns output expected_columns) with
        | Ok output =>
            (Ok output, emit (LogManagersProcessed (length (rows output))) w)
        | Raise e => (Raise e, w)
        | Unmodelled => (Unmodelled, w)
        end
    | (Raise e, w) => (Raise e, w)
    | (Unmodelled, w) => (Unmodelled, w)
    end.

(** ** Bulk fetch *)

(** [response.json().get('elements', [])] after [raise_for_status]; the
    [len(elements)] of the log line needs a sized value, and the elements
    the pipeline goes on with are a JSON array. *)
Definition response_elements (outcome : http_outcome) : result value :=
  match outcome with
  | Fails what => Raise (ConnectionError what)
  | Responds status body =>
      _ ← raise_for_status status;
      match body with
      | None => Raise JSONDecodeError
      | Some (VObj o) =>
          match default (VArr INil) (fields_get "elements" o) with
          | VArr a => Ok (VArr a)
          | _ => Unmodelled
          end
      | Some _ => Raise (AttributeError "get")
      end
  end.

(** Body of [EBP.fetch_data], before decoration: without a stored header
    nothing is requested and [None] is returned.  [limit] only shapes the
    query string, which the scripted network does not read; the log lines
    of this method are left out. *)
Definition fetch_data_body : M (option value) := fun w =>
  match auth_header w with
  | None => (Ok None, w)
  | Some _ =>
      let '(outcome, w) := http_request w in
      (Some <$> response_elements outcome, w)
  end.

(** [EBP.fetch_data]: [@retry_on_failure(max_retries=3, delay=1.0)].  The
    outer [option] is the wrapper's own [return None]. *)
Definition fetch_data : M (option (option value)) :=
  retry_on_failure "fetch_data" 3 1 fetch_data_body.

(** ** The orchestrator *)

(** [os.getenv(key)] is set and not empty. *)
Definition env_truthy (w : World) (key : string) : bool :=
  match env w !! key with
  | Some s => negb (String.eqb s "")
  | None => false
  end.

Definition is_digit (c : ascii) : bool :=
  match digit_of c with Some _ => true | None => false end.

(** [int(os.getenv('DEFAULT_LIMIT', '20000'))] is modelled for a value of
    decimal digits. *)
Definition default_limit_parses (w : World) : bool :=
  match env w !! "DEFAULT_LIMIT" with
  | None => true
  | Some s =>
      negb (String.eqb s "")
      && negb (string_exists (fun c => negb (is_digit c)) s)
  end.

Definition clear_auth_header (w : World) : World :=
  mkWorld (env w) (today w) None (responses w) (sent w) (slept w)
          (io_fails w) (dirs w) (disk w) (log w).

(** [EBP.__init__]: the client starts without a header, refuses to start
    without credentials, and calls [login], whose return value it drops. *)
Definition ebp_init : M unit := fun w =>
  if default_limit_parses w then
    let w := clear_auth_header w in
    if env_truthy w "EBP_USERNAME" && env_truthy w "EBP_PASSWORD"
       && env_truthy w "EBP_BASE_URL"
    then
      match login w with
      | (Ok _, w) => (Ok tt, w)
      | (Raise e, w) => (Raise e, w)
      | (Unmodelled, w) => (Unmodelled, w)
      end
    else (Raise (ValueError
             "Missing required environment variables: EBP_USERNAME, EBP_PASSWORD, EBP_BASE_URL"),
          w)
  else (Unmodelled, w).

(** One turn of the fetch-and-transform loop of [main], [now] being
    [datetime.today()].  [None]: the fetch returned [None] and the loop went
    on ([continue]) without storing a table.  Every exception ends in the
    empty frame. *)
Definition load_table (transformation : DataFrame -> result DataFrame)
    (now : value) : M (option DataFrame) := fun w =>
  match fetch_data w with
  | (Ok (Some (Some data)), w) =>
      match (frame_of_payload data
               ≫= fun df => transformation (set_column_scalar df "loadDate" now))
      with
      | Ok transformed_df => (Ok (Some transformed_df), w)
      | Raise e => (Ok (Some empty_frame), w)
      | Unmodelled => (Unmodelled, w)
      end
  | (Ok _, w) => (Ok None, w)
  | (Raise e, w) => (Ok (Some empty_frame), w)
  | (Unmodelled, w) => (Unmodelled, w)
  end.

(** [ebp_data]: the tables in the order they are fetched, with their
    transformations. *)
Definition ebp_data : list (string * (DataFrame -> result DataFrame)) :=
  [ ("contracts", transform_contracts);
    ("areas", fun df => Ok (transform_areas df));
    ("buildings", fun df => Ok (transform_buildings df));
    ("utility_units", fun df => Ok (transform_utility_units df));
    ("meters", transform_meters);
    ("profiles", fun df => Ok (transform_profiles df)) ].

Fixpoint load_tables (specs : list (string * (DataFrame -> result DataFrame)))
    (now : string -> value) : M (list (string * option DataFrame)) := fun w =>
  match specs with
  | [] => (Ok [], w)
  | (table_name, transformation) :: more =>
      match load_table transformation (now table_name) w with
      | (Ok loaded, w) =>
          match load_tables more now w with
          | (Ok rest, w) => (Ok ((table_name, loaded) :: rest), w)
          | (Raise e, w) => (Raise e, w)
          | (Unmodelled, w) => (Unmodelled, w)
          end
      | (Raise e, w) => (Raise e, w)
      | (Unmodelled, w) => (Unmodelled, w)
      end
  end.

(** [ebp_data[table_name]['data']] *)
Definition table_data (loaded : list (string * option DataFrame))
    (table_name : string) : result DataFrame :=
  match dict_get table_name loaded with
  | Some (Some df) => Ok df
  | Some None => Raise (KeyError "data")
  | None => Raise (KeyError table_name)
  end.

Definition default_filter_words : string :=
  "delete,geloescht,loeschen,lÃ¶sch,ZEV EMD".

(** [os.getenv('FILTER_WORDS', default).split(',')] *)
Definition configured_filter_words (w : World) : list string :=
  split_on "," (default default_filter_words (env w !! "FILTER_WORDS")).

(** Extraction of the six tables, cross-linking and filtering. *)
Definition link_and_filter (filter_words : list string)
    (loaded : list (string * option DataFrame))
    : result (Tables * DataFrame * DataFrame) :=
  dfa ← table_data loaded "areas";
  dfb ← table_data loaded "buildings";
  dfc ← table_data loaded "contracts";
  dfu ← table_data loaded "utility_units";
  dfm ← table_data loaded "meters";
  dfp ← table_data loaded "profiles";
  dfu ← cross_link dfu dfb;
  t ← filter_stage filter_words (mkTables dfa dfc dfu dfb);
  Ok (t, dfm, dfp).

(** [main], [now table_name] being the [datetime.today()] read while that
    table is stamped; an exception is logged and re-raised, the log line
    left out. *)
Definition main (now : string -> value) : M unit := fun w =>
  match ebp_init w with
  | (Ok _, w) =>
      match load_tables ebp_data now w with
      | (Ok loaded, w) =>
          match link_and_filter (configured_filter_words w) loaded with
          | Ok (t, dfm, dfp) =>
              match get_managers (contracts t) w with
              | (Ok dfam, w) =>
                  let dfam :=
                    set_column_scalar dfam "loadDate" (now "managers") in
                  export_all_data
                    [ ("areas", areas t); ("contracts", contracts t);
                      ("buildings", buildings t);
                      ("utility_units", utility_units t);
                      ("meters", dfm); ("managers", dfam);
                      ("profiles", dfp) ] w
              | (Raise e, w) => (Raise e, w)
              | (Unmodelled, w) => (Unmodelled, w)
              end
          | Raise e => (Raise e, w)
          | Unmodelled => (Unmodelled, w)
          end
      | (Raise e, w) => (Raise e, w)
      | (Unmodelled, w) => (Unmodelled, w)
      end
  | (Raise e, w) => (Raise e, w)
  | (Unmodelled, w) => (Unmodelled, w)
  end.

(** * Properties *)

(** ** Column lookup *)

Lemma col_index_elem (col : string) (cols : list string) :
  col ∈ cols <-> is_Some (col_index col cols).
Proof.
  induction cols as [|c cs IH]; simpl.
  - split; [inversion 1 | intros [? [=]]].
  - destruct (String.eqb_spec c col) as [->|Hne].
    + split; [eauto | intros _; apply list_elem_of_here].
    + rewrite elem_of_cons, IH, fmap_is_Some.
      split; [intros [E|H]; [congruence | exact H] | auto].
Qed.

Lemma col_index_None (col : string) (cols : list string) :
  col ∉ cols <-> col_index col cols = None.
Proof. rewrite col_index_elem, eq_None_not_Some. tauto. Qed.

Lemma col_index_lookup (col : string) (cols : list string) (i : nat) :
  col_index col cols = Some i -> cols !! i = Some col.
Proof.
  revert i. induction cols as [|c cs IH]; simpl; intros i; [discriminate|].
  destruct (String.eqb_spec c col) as [->|Hne].
  - intros [= <-]. reflexivity.
  - destruct (col_index col cs) as [j|]; simpl; [|discriminate].
    intros [= <-]. simpl. apply IH. reflexivity.
Qed.

Lemma has_column_true (df : DataFrame) (col : string) :
  has_column df col = true <-> col ∈ columns df.
Proof. unfold has_column. apply bool_decide_eq_true. Qed.

Lemma has_column_false (df : DataFrame) (col : string) :
  has_column df col = false <-> col ∉ columns df.
Proof. unfold has_column. apply bool_decide_eq_false. Qed.

Lemma get_column_absent (df : DataFrame) (col : string) :
  col ∉ columns df -> get_column df col = Raise (KeyError col).
Proof.
  intros H. unfold get_column.
  apply col_index_None in H. rewrite H. reflexivity.
Qed.

Lemma get_column_present (df : DataFrame) (col : string) :
  col ∈ columns df ->
  exists i, col_index col (columns df) = Some i
            /\ get_column df col = Ok (map (cell i) (rows df)).
Proof.
  intros H. apply col_index_elem in H as [i Hi].
  exists i. unfold get_column. rewrite Hi. auto.
Qed.

Lemma empty_false (df : DataFrame) :
  empty df = false <-> columns df <> [] /\ rows df <> [].
Proof.
  unfold empty. destruct (columns df), (rows df); split;
    try discriminate; try (intros [? ?]; congruence); auto.
  all: intros _; split; discriminate.
Qed.

(** ** Renaming and dropping *)

Lemma existing_mapping_lookup (df : DataFrame) (m : gmap string string)
    (c : string) :
  c ∈ columns df -> existing_mapping df m !! c = m !! c.
Proof.
  intros Hc. unfold existing_mapping.
  destruct (m !! c) as [n|] eqn:Hm.
  - apply map_lookup_filter_Some. auto.
  - apply map_lookup_filter_None. left. exact Hm.
Qed.

Lemma safe_rename_columns_columns (df : DataFrame) (m : gmap string string) :
  columns (safe_rename_columns df m)
  = map (fun c => default c (m !! c)) (columns df).
Proof.
  unfold safe_rename_columns. case_bool_decide as He; simpl.
  - rewrite <- (map_id (columns df)) at 1.
    apply map_ext_in. intros c Hc. apply list_elem_of_In in Hc.
    rewrite <- (existing_mapping_lookup df m c Hc), He, lookup_empty.
    reflexivity.
  - apply map_ext_in. intros c Hc. apply list_elem_of_In in Hc.
    rewrite (existing_mapping_lookup df m c Hc). reflexivity.
Qed.

Lemma safe_rename_columns_rows (df : DataFrame) (m : gmap string string) :
  rows (safe_rename_columns df m) = rows df.
Proof. unfold safe_rename_columns. case_bool_decide; reflexivity. Qed.

Lemma existing_mapping_delete (df : DataFrame) (m : gmap string string)
    (old : string) :
  old ∉ columns df -> existing_mapping df (delete old m) = existing_mapping df m.
Proof.
  intros Habs. unfold existing_mapping. rewrite map_filter_delete.
  apply delete_id. apply map_lookup_filter_None. right.
  intros x _. simpl. exact Habs.
Qed.

Lemma select_cells_cell (p : string -> bool) (cols : list string)
    (row : list value) (c : string) (i : nat) :
  p c = true -> col_index c cols = Some i ->
  exists j, col_index c (List.filter p cols) = Some j
            /\ cell j (select_cells p cols row) = cell i row.
Proof.
  intros Hp. revert row i.
  induction cols as [|c' cs IH]; simpl; intros row i; [discriminate|].
  destruct (String.eqb_spec c' c) as [->|Hne].
  - intros [= <-]. rewrite Hp. simpl. rewrite String.eqb_refl.
    exists 0. split; reflexivity.
  - destruct (col_index c cs) as [k|] eqn:Hk; simpl; [|discriminate].
    intros [= <-].
    destruct (IH (tl row) k eq_refl) as (j & Hj & Hcell).
    assert (Htl : cell k (tl row) = cell (S k) row).
    { unfold cell. destruct row; simpl; [destruct k|]; reflexivity. }
    destruct (p c'); simpl.
    + apply String.eqb_neq in Hne. rewrite Hne, Hj. simpl.
      exists (S j). split; [reflexivity|].
      unfold cell in *. simpl. rewrite Hcell. exact Htl.
    + exists j. split; [exact Hj|]. rewrite Hcell. exact Htl.
Qed.

Lemma drop_columns (df : DataFrame) (labels : list string) :
  columns (drop df labels)
  = List.filter (fun c => negb (bool_decide (c ∈ labels))) (columns df).
Proof. reflexivity. Qed.

Lemma filter_all_true {A} (p : A -> bool) (l : list A) :
  (forall x, In x l -> p x = true) -> List.filter p l = l.
Proof.
  induction l as [|x l IH]; simpl; intros H; [reflexivity|].
  rewrite (H x (or_introl eq_refl)). f_equal. apply IH. auto.
Qed.

Lemma select_cells_ext (p q : string -> bool) (cols : list string)
    (row : list value) :
  (forall c, In c cols -> p c = q c) ->
  select_cells p cols row = select_cells q cols row.
Proof.
  revert row. induction cols as [|c cs IH]; simpl; intros row H; [reflexivity|].
  rewrite (H c (or_introl eq_refl)), (IH (tl row)); auto.
Qed.

(** Dropping through the guard equals dropping every listed label. *)
Lemma safe_drop_columns_columns (df : DataFrame) (l : list string) :
  columns (safe_drop_columns df l)
  = List.filter (fun c => negb (bool_decide (c ∈ l))) (columns df).
Proof.
  unfold safe_drop_columns.
  destruct (List.filter _ l) as [|x xs] eqn:Hex.
  - symmetry. apply filter_all_true. intros c Hc.
    apply negb_true_iff, bool_decide_eq_false. intros Hin.
    assert (Hx : In c (List.filter (fun c => bool_decide (c ∈ columns df)) l)).
    { apply filter_In. split; [apply list_elem_of_In; exact Hin|].
      apply bool_decide_eq_true, list_elem_of_In. exact Hc. }
    rewrite Hex in Hx. destruct Hx.
  - rewrite <- Hex. simpl. apply filter_ext_in. intros c Hc.
    f_equal. apply bool_decide_ext.
    rewrite !list_elem_of_In, filter_In, bool_decide_eq_true, list_elem_of_In.
    tauto.
Qed.

Lemma safe_drop_columns_get (df : DataFrame) (l : list string) (c : string) :
  c ∉ l -> get_column (safe_drop_columns df l) c = get_column df c.
Proof.
  intros Hc. unfold safe_drop_columns.
  destruct (List.filter _ l) as [|x xs] eqn:Hex; [reflexivity|].
  rewrite <- Hex. clear x xs Hex.
  set (l' := List.filter _ l).
  set (p := fun c0 : string => negb (bool_decide (c0 ∈ l'))).
  assert (Hp : p c = true).
  { apply negb_true_iff, bool_decide_eq_false. intros Hin. apply Hc.
    apply list_elem_of_In, filter_In in Hin as [Hin _].
    apply list_elem_of_In. exact Hin. }
  unfold get_column, drop. simpl. fold p.
  destruct (col_index c (columns df)) as [i|] eqn:Hi.
  - destruct (select_cells_cell p (columns df) [] c i Hp Hi) as (j & Hj & _).
    rewrite Hj. f_equal. rewrite map_map. apply map_ext. intros r.
    destruct (select_cells_cell p (columns df) r c i Hp Hi) as (j' & Hj' & E).
    rewrite Hj in Hj'. injection Hj' as <-. exact E.
  - apply col_index_None in Hi.
    assert (Hn : col_index c (List.filter p (columns df)) = None).
    { apply col_index_None. intros Hin. apply Hi.
      apply list_elem_of_In, filter_In in Hin as [Hin _].
      apply list_elem_of_In. exact Hin. }
    rewrite Hn. reflexivity.
Qed.

(** C9: [safe_rename_columns] and [safe_drop_columns] are total functions
    (they cannot raise); a label of the mapping or of the drop list that the
    table lacks changes nothing, and a label the table has is renamed,
    respectively removed, while the rows and the other columns are kept. *)
Theorem safe_helpers_exact (df : DataFrame)
    (column_mapping : gmap string string) (columns_to_drop : list string) :
  (forall i c, columns df !! i = Some c ->
     columns (safe_rename_columns df column_mapping) !! i
     = Some (default c (column_mapping !! c)))
  /\ rows (safe_rename_columns df column_mapping) = rows df
  /\ (forall old, old ∉ columns df ->
        safe_rename_columns df (delete old column_mapping)
        = safe_rename_columns df column_mapping)
  /\ (forall c, c ∈ columns_to_drop ->
        c ∉ columns (safe_drop_columns df columns_to_drop))
  /\ (forall c, c ∉ columns_to_drop ->
        get_column (safe_drop_columns df columns_to_drop) c = get_column df c)
  /\ (forall c, c ∉ columns df ->
        safe_drop_columns df (c :: columns_to_drop)
        = safe_drop_columns df columns_to_drop).
Proof.
  repeat split.
  - intros i c Hi. rewrite safe_rename_columns_columns.
    change (map ?f ?l) with (f <$> l).
    rewrite list_lookup_fmap, Hi. reflexivity.
  - apply safe_rename_columns_rows.
  - intros old Hold. unfold safe_rename_columns.
    rewrite existing_mapping_delete by exact Hold. reflexivity.
  - intros c Hc. rewrite safe_drop_columns_columns. intros Hin.
    apply list_elem_of_In, filter_In in Hin as [_ Hn].
    apply negb_true_iff, bool_decide_eq_false in Hn. exact (Hn Hc).
  - intros c Hc. apply safe_drop_columns_get. exact Hc.
  - intros c Hc. unfold safe_drop_columns. simpl.
    rewrite bool_decide_eq_false_2 by exact Hc. reflexivity.
Qed.

(** ** Reading a column back after an assignment *)

Lemma cell_set_nth_same (i : nat) (x : value) (row : list value) :
  cell i (set_nth i x row) = x.
Proof.
  unfold cell. revert row. induction i as [|i IH]; intros [|y row]; simpl; auto.
Qed.

Lemma cell_set_nth_other (i j : nat) (x : value) (row : list value) :
  i <> j -> cell j (set_nth i x row) = cell j row.
Proof.
  unfold cell. revert j row.
  induction i as [|i IH]; intros [|j] [|y row] Hne; simpl; try congruence.
  - destruct j; reflexivity.
  - rewrite IH by congruence. destruct j; reflexivity.
  - apply IH. congruence.
Qed.

Lemma zip_rows_map_same (i : nat) (rs : list (list value)) (vs : list value) :
  length vs = length rs ->
  map (cell i) (zip_rows (fun r v => set_nth i v r) rs vs) = vs.
Proof.
  revert vs. induction rs as [|r rs IH]; intros [|v vs]; simpl; try discriminate.
  - reflexivity.
  - intros [= Hlen]. rewrite cell_set_nth_same, IH by exact Hlen. reflexivity.
Qed.

Lemma zip_rows_map_other (i j : nat) (rs : list (list value)) (vs : list value) :
  i <> j ->
  map (cell j) (zip_rows (fun r v => set_nth i v r) rs vs) = map (cell j) rs.
Proof.
  intros Hne. revert vs.
  induction rs as [|r rs IH]; intros [|v vs]; simpl; try reflexivity;
    rewrite cell_set_nth_other, IH by exact Hne; reflexivity.
Qed.

Lemma zip_rows_length (f : list value -> value -> list value)
    (rs : list (list value)) (vs : list value) :
  length (zip_rows f rs vs) = length rs.
Proof.
  revert vs. induction rs as [|r rs IH]; intros [|v vs]; simpl;
    try rewrite IH; reflexivity.
Qed.

Lemma col_index_app_absent (col : string) (cols : list string) :
  col ∉ cols -> col_index col (cols ++ [col]) = Some (length cols).
Proof.
  induction cols as [|c cs IH]; simpl; intros H.
  - rewrite String.eqb_refl. reflexivity.
  - apply not_elem_of_cons in H as [Hne H].
    destruct (String.eqb_spec c col) as [->|_]; [congruence|].
    rewrite IH by exact H. reflexivity.
Qed.

Lemma col_index_app_other (col c : string) (cols : list string) :
  c <> col -> col_index c (cols ++ [col]) = col_index c cols.
Proof.
  intros Hne. induction cols as [|c' cs IH]; simpl.
  - destruct (String.eqb_spec col c); [congruence | reflexivity].
  - rewrite IH. reflexivity.
Qed.

Lemma col_index_lt (col : string) (cols : list string) (i : nat) :
  col_index col cols = Some i -> i < length cols.
Proof.
  intros H. apply col_index_lookup in H. eapply lookup_lt_Some. exact H.
Qed.

Lemma col_index_inj (a b : string) (cols : list string) (i : nat) :
  col_index a cols = Some i -> col_index b cols = Some i -> a = b.
Proof.
  intros Ha Hb. apply col_index_lookup in Ha, Hb. congruence.
Qed.

Lemma get_set_column_same (df : DataFrame) (col : string) (vs : list value) :
  length vs = length (rows df) ->
  get_column (set_column df col vs) col = Ok vs.
Proof.
  intros Hlen. unfold set_column, get_column.
  destruct (col_index col (columns df)) as [i|] eqn:Hi; simpl.
  - rewrite Hi, zip_rows_map_same by exact Hlen. reflexivity.
  - apply col_index_None in Hi.
    rewrite col_index_app_absent, zip_rows_map_same by assumption. reflexivity.
Qed.

Lemma get_set_column_other (df : DataFrame) (col c : string) (vs : list value) :
  c <> col -> get_column (set_column df col vs) c = get_column df c.
Proof.
  intros Hne. unfold set_column, get_column.
  destruct (col_index col (columns df)) as [i|] eqn:Hi; simpl.
  - destruct (col_index c (columns df)) as [j|] eqn:Hj; [|reflexivity].
    rewrite zip_rows_map_other; [reflexivity|].
    intros ->. apply Hne. eapply col_index_inj; eassumption.
  - rewrite col_index_app_other by exact Hne.
    destruct (col_index c (columns df)) as [j|] eqn:Hj; [|reflexivity].
    rewrite zip_rows_map_other; [reflexivity|].
    apply col_index_lt in Hj. lia.
Qed.

Lemma set_column_columns (df : DataFrame) (col c : string) (vs : list value) :
  c ∈ columns (set_column df col vs) <-> c = col \/ c ∈ columns df.
Proof.
  unfold set_column.
  destruct (col_index col (columns df)) as [i|] eqn:Hi; simpl.
  - split; [auto|]. intros [->|H]; [|exact H].
    apply col_index_elem. eauto.
  - rewrite elem_of_app, list_elem_of_singleton. tauto.
Qed.

Lemma set_column_rows_length (df : DataFrame) (col : string) (vs : list value) :
  length (rows (set_column df col vs)) = length (rows df).
Proof.
  unfold set_column.
  destruct (col_index col (columns df)); simpl; apply zip_rows_length.
Qed.

Lemma map_column_present (f : value -> value) (col : string) (df : DataFrame)
    (vs : list value) :
  get_column df col = Ok vs ->
  map_column f col df = Ok (set_column df col (map f vs))
  /\ get_column (set_column df col (map f vs)) col = Ok (map f vs).
Proof.
  intros H. unfold map_column. rewrite H. split; [reflexivity|].
  apply get_set_column_same.
  unfold get_column in H. destruct (col_index col (columns df)); [|discriminate].
  injection H as <-. rewrite !length_map. reflexivity.
Qed.

(** ** Columns a renaming leaves alone *)

(** [target] is neither renamed by [m] nor the new name of another label. *)
Definition untouched (m : gmap string string) (target : string) : Prop :=
  m !! target = None /\ forall k v, m !! k = Some v -> v <> target.

Lemma col_index_map_stable (f : string -> string) (target : string)
    (cols : list string) :
  (forall c, f c = target <-> c = target) ->
  col_index target (map f cols) = col_index target cols.
Proof.
  intros Hf. induction cols as [|c cs IH]; simpl; [reflexivity|].
  rewrite IH.
  destruct (String.eqb_spec (f c) target) as [E|E],
           (String.eqb_spec c target) as [E'|E']; try reflexivity.
  - apply (proj1 (Hf c)) in E. contradiction.
  - apply (proj2 (Hf c)) in E'. contradiction.
Qed.

Lemma safe_rename_columns_index (df : DataFrame) (m : gmap string string)
    (target : string) :
  untouched m target ->
  col_index target (columns (safe_rename_columns df m))
  = col_index target (columns df).
Proof.
  intros [Hk Hv]. rewrite safe_rename_columns_columns.
  apply col_index_map_stable. intros c.
  destruct (m !! c) as [n|] eqn:Hc; simpl.
  - split; [intros ->; exfalso; eapply Hv; eauto | intros ->; congruence].
  - tauto.
Qed.

Lemma safe_rename_columns_get (df : DataFrame) (m : gmap string string)
    (target : string) :
  untouched m target ->
  get_column (safe_rename_columns df m) target = get_column df target.
Proof.
  intros H. unfold get_column.
  rewrite safe_rename_columns_index, safe_rename_columns_rows by exact H.
  reflexivity.
Qed.

Lemma safe_rename_columns_elem (df : DataFrame) (m : gmap string string)
    (target : string) :
  untouched m target ->
  target ∈ columns (safe_rename_columns df m) <-> target ∈ columns df.
Proof.
  intros H. rewrite !col_index_elem, safe_rename_columns_index by exact H.
  reflexivity.
Qed.

Lemma safe_rename_columns_empty (df : DataFrame) (m : gmap string string) :
  empty (safe_rename_columns df m) = empty df.
Proof.
  unfold empty.
  rewrite safe_rename_columns_columns, safe_rename_columns_rows.
  destruct (columns df); reflexivity.
Qed.

Ltac solve_untouched m :=
  split;
  [ vm_compute; reflexivity
  | let k := fresh "k" in let v := fresh "v" in let H := fresh "H" in
    intros k v H; unfold m in H;
    repeat (apply lookup_insert_Some in H as [[_ <-]|[_ H]]; [discriminate|]);
    first [ apply lookup_singleton_Some in H as [_ <-]; discriminate
          | rewrite lookup_empty in H; discriminate ] ].

(** ** Projection *)

Lemma col_indices_present (labels cols : list string) :
  (forall l, l ∈ labels -> l ∈ cols) ->
  exists idx, col_indices labels cols = Ok idx.
Proof.
  induction labels as [|l ls IH]; simpl; intros H; [eauto|].
  destruct (proj1 (col_index_elem l cols) (H l (list_elem_of_here _ _)))
    as [i ->].
  destruct IH as [idx ->].
  { intros l' Hl'. apply H. apply list_elem_of_further. exact Hl'. }
  simpl. eauto.
Qed.

Lemma col_indices_cell (labels cols : list string) (idx : list nat)
    (c : string) (j : nat) :
  col_indices labels cols = Ok idx -> col_index c labels = Some j ->
  exists i, col_index c cols = Some i
            /\ forall r, cell j (map (fun i => cell i r) idx) = cell i r.
Proof.
  revert idx j. induction labels as [|l ls IH]; simpl; intros idx j;
    [discriminate|].
  destruct (col_index l cols) as [i|] eqn:Hi; [|discriminate].
  destruct (col_indices ls cols) as [tail| |] eqn:Ht; simpl; try discriminate.
  intros [= <-].
  destruct (String.eqb_spec l c) as [->|Hne].
  - intros [= <-]. exists i. split; [exact Hi | reflexivity].
  - destruct (col_index c ls) as [j'|] eqn:Hj; simpl; [|discriminate].
    intros [= <-].
    destruct (IH tail j' eq_refl eq_refl) as (i' & Hi' & Hcell).
    exists i'. split; [exact Hi' | exact Hcell].
Qed.

Lemma available_columns_elem (df : DataFrame) (wanted : list string)
    (c : string) :
  c ∈ available_columns df wanted <-> c ∈ wanted /\ c ∈ columns df.
Proof.
  unfold available_columns.
  rewrite !list_elem_of_In, filter_In, bool_decide_eq_true, list_elem_of_In.
  reflexivity.
Qed.

(** Projecting to the labels that exist cannot raise, and keeps each of
    these columns as it was. *)
Lemma project_available (df : DataFrame) (wanted : list string) :
  exists out,
    project df (available_columns df wanted) = Ok out
    /\ columns out = available_columns df wanted
    /\ length (rows out) = length (rows df)
    /\ forall c, c ∈ wanted -> get_column out c = get_column df c.
Proof.
  destruct (col_indices_present (available_columns df wanted) (columns df))
    as [idx Hidx].
  { intros l Hl. apply available_columns_elem in Hl. tauto. }
  unfold project. rewrite Hidx. simpl.
  eexists. split; [reflexivity|]. simpl.
  split; [reflexivity|]. split; [apply length_map|].
  intros c Hc. unfold get_column. simpl.
  destruct (col_index c (available_columns df wanted)) as [j|] eqn:Hj.
  - destruct (col_indices_cell _ _ _ _ _ Hidx Hj) as (i & Hi & Hcell).
    rewrite Hi. f_equal. rewrite map_map. apply map_ext. exact Hcell.
  - apply col_index_None in Hj.
    rewrite available_columns_elem in Hj.
    assert (Hn : c ∉ columns df) by tauto.
    apply col_index_None in Hn. rewrite Hn. reflexivity.
Qed.

(** ** The date loop *)

Lemma get_column_length (df : DataFrame) (col : string) (vs : list value) :
  get_column df col = Ok vs -> length vs = length (rows df).
Proof.
  unfold get_column. destruct (col_index col (columns df)); [|discriminate].
  intros [= <-]. apply length_map.
Qed.

Lemma get_column_Ok_elem (df : DataFrame) (col : string) (vs : list value) :
  get_column df col = Ok vs -> col ∈ columns df.
Proof.
  unfold get_column.
  destruct (col_index col (columns df)) eqn:H; [|discriminate].
  intros _. apply col_index_elem. eauto.
Qed.

Lemma parse_date_columns_get (date_cols : list string) (df : DataFrame) :
  NoDup date_cols ->
  exists out,
    parse_date_columns date_cols df = Ok out
    /\ forall c, get_column out c
                 = if bool_decide (c ∈ date_cols)
                   then map to_datetime <$> get_column df c
                   else get_column df c.
Proof.
  intros Hnd. revert df.
  induction Hnd as [|d more Hd Hnd IH]; intros df; simpl.
  - exists df. split; [reflexivity|]. intros c. reflexivity.
  - destruct (has_column df d) eqn:Hhas.
    + apply has_column_true, get_column_present in Hhas as (i & Hi & Hget).
      destruct (map_column_present to_datetime d df _ Hget) as [Hmap Hback].
      rewrite Hmap. simpl.
      destruct (IH (set_column df d (map to_datetime (map (cell i) (rows df)))))
        as (out & Hout & Hcols).
      exists out. split; [exact Hout|]. intros c. rewrite Hcols.
      destruct (decide (c = d)) as [->|Hne].
      * rewrite bool_decide_eq_false_2 by exact Hd.
        rewrite bool_decide_eq_true_2 by apply list_elem_of_here.
        rewrite Hback, Hget. reflexivity.
      * rewrite get_set_column_other by exact Hne.
        rewrite (bool_decide_ext (c ∈ d :: more) (c ∈ more)); [reflexivity|].
        rewrite elem_of_cons. tauto.
    + simpl. destruct (IH df) as (out & Hout & Hcols).
      exists out. split; [exact Hout|]. intros c. rewrite Hcols.
      apply has_column_false in Hhas.
      destruct (decide (c = d)) as [->|Hne].
      * rewrite bool_decide_eq_false_2 by exact Hd.
        rewrite bool_decide_eq_true_2 by apply list_elem_of_here.
        rewrite get_column_absent by exact Hhas. reflexivity.
      * rewrite (bool_decide_ext (c ∈ d :: more) (c ∈ more)); [reflexivity|].
        rewrite elem_of_cons. tauto.
Qed.

(** ** Sentinel default followed by date parsing *)

Definition default_and_parse (v : value) : value :=
  to_datetime (fillna (VStr sentinel) v).

Lemma default_then_parse (df : DataFrame) (dcol other : string)
    (vs : list value) :
  other <> dcol ->
  get_column df dcol = Ok vs ->
  exists out,
    (map_column (fillna (VStr sentinel)) dcol df
       ≫= parse_date_columns [other; dcol]) = Ok out
    /\ get_column out dcol = Ok (map default_and_parse vs)
    /\ get_column out other = (map to_datetime <$> get_column df other).
Proof.
  intros Hne Hget.
  destruct (map_column_present (fillna (VStr sentinel)) dcol df vs Hget)
    as [Hmap Hback].
  rewrite Hmap. simpl.
  destruct (parse_date_columns_get [other; dcol]
              (set_column df dcol (map (fillna (VStr sentinel)) vs)))
    as (out & Hout & Hcols).
  { apply NoDup_cons. split; [|apply NoDup_singleton].
    rewrite list_elem_of_singleton. exact Hne. }
  simpl in Hout. exists out. split; [exact Hout|]. split.
  - rewrite Hcols, bool_decide_eq_true_2, Hback.
    + simpl. rewrite map_map. reflexivity.
    + rewrite !elem_of_cons. auto.
  - rewrite Hcols, bool_decide_eq_true_2, get_set_column_other.
    + reflexivity.
    + exact Hne.
    + rewrite !elem_of_cons. auto.
Qed.

Lemma default_raises (df : DataFrame) (dcol other : string) :
  dcol ∉ columns df ->
  (map_column (fillna (VStr sentinel)) dcol df
     ≫= parse_date_columns [other; dcol]) = Raise (KeyError dcol).
Proof.
  intros H. unfold map_column. rewrite get_column_absent by exact H.
  reflexivity.
Qed.

Definition meters_mapping : gmap string string :=
  {[ "id" := "meterId"; "activeState" := "meterActiveState" ]}.

Definition contracts_mapping : gmap string string :=
  {[ "id" := "contractId"; "name" := "contractName";
     "activeState" := "contractActiveState" ]}.

Lemma transform_meters_unfold (df : DataFrame) :
  empty df = false ->
  transform_meters df
  = (map_column (fillna (VStr sentinel)) "billableTo"
       (safe_rename_columns df meters_mapping)
       ≫= parse_date_columns ["billableFrom"; "billableTo"]).
Proof. intros H. unfold transform_meters. rewrite H. reflexivity. Qed.

Lemma meters_untouched_to : untouched meters_mapping "billableTo".
Proof. solve_untouched meters_mapping. Qed.

Lemma meters_untouched_from : untouched meters_mapping "billableFrom".
Proof. solve_untouched meters_mapping. Qed.

Lemma contracts_untouched_end : untouched contracts_mapping "endDate".
Proof. solve_untouched contracts_mapping. Qed.

Lemma contracts_untouched_start : untouched contracts_mapping "startDate".
Proof. solve_untouched contracts_mapping. Qed.

Lemma transform_meters_dates (df : DataFrame) (tos : list value) :
  empty df = false ->
  get_column df "billableTo" = Ok tos ->
  exists out,
    transform_meters df = Ok out
    /\ get_column out "billableTo" = Ok (map default_and_parse tos)
    /\ get_column out "billableFrom"
       = (map to_datetime <$> get_column df "billableFrom").
Proof.
  intros Hne Hget. rewrite transform_meters_unfold by exact Hne.
  rewrite <- (safe_rename_columns_get df meters_mapping "billableFrom")
    by exact meters_untouched_from.
  apply default_then_parse; [discriminate|].
  rewrite safe_rename_columns_get by exact meters_untouched_to. exact Hget.
Qed.

Lemma transform_meters_raises (df : DataFrame) :
  empty df = false ->
  "billableTo" ∉ columns df ->
  transform_meters df = Raise (KeyError "billableTo").
Proof.
  intros Hne Habs. rewrite transform_meters_unfold by exact Hne.
  apply default_raises.
  rewrite safe_rename_columns_elem by exact meters_untouched_to. exact Habs.
Qed.

(** The steps of [transform_contracts] before the date handling: they cannot
    raise, and keep every required column the input has. *)
Lemma contracts_prefix (df : DataFrame) :
  exists df3,
    ((if has_column df "product" then map_product df
      else Ok (set_column_scalar df "productName" VNull))
       ≫= fun df1 =>
            let df2 := safe_rename_columns df1 contracts_mapping in
            project df2 (available_columns df2 required_columns)) = Ok df3
    /\ get_column df3 "endDate" = get_column df "endDate"
    /\ get_column df3 "startDate" = get_column df "startDate".
Proof.
  assert (H1 : exists xs,
             (if has_column df "product" then map_product df
              else Ok (set_column_scalar df "productName" VNull))
             = Ok (set_column df "productName" xs)).
  { destruct (has_column df "product") eqn:Hp.
    - apply has_column_true, get_column_present in Hp as (i & _ & Hget).
      unfold map_product. rewrite Hget. simpl. eauto.
    - unfold set_column_scalar. eauto. }
  destruct H1 as [xs ->]. simpl.
  set (df1 := set_column df "productName" xs).
  destruct (project_available (safe_rename_columns df1 contracts_mapping)
              required_columns) as (df3 & Hproj & _ & _ & Hcols).
  exists df3. split; [exact Hproj|].
  split.
  - rewrite Hcols by (unfold required_columns; rewrite !elem_of_cons; auto 10).
    rewrite safe_rename_columns_get by exact contracts_untouched_end.
    apply get_set_column_other. discriminate.
  - rewrite Hcols by (unfold required_columns; rewrite !elem_of_cons; auto 10).
    rewrite safe_rename_columns_get by exact contracts_untouched_start.
    apply get_set_column_other. discriminate.
Qed.

Lemma transform_contracts_unfold (df : DataFrame) :
  empty df = false ->
  transform_contracts df
  = (((if has_column df "product" then map_product df
       else Ok (set_column_scalar df "productName" VNull))
        ≫= fun df1 =>
             let df2 := safe_rename_columns df1 contracts_mapping in
             project df2 (available_columns df2 required_columns))
       ≫= fun df3 =>
            map_column (fillna (VStr sentinel)) "endDate" df3
              ≫= parse_date_columns ["startDate"; "endDate"]).
Proof.
  intros H. unfold transform_contracts. rewrite H.
  destruct (if has_column df "product" then map_product df
            else Ok (set_column_scalar df "productName" VNull));
    reflexivity.
Qed.

Lemma transform_contracts_dates (df : DataFrame) (ends : list value) :
  empty df = false ->
  get_column df "endDate" = Ok ends ->
  exists out,
    transform_contracts df = Ok out
    /\ get_column out "endDate" = Ok (map default_and_parse ends)
    /\ get_column out "startDate"
       = (map to_datetime <$> get_column df "startDate").
Proof.
  intros Hne Hget. rewrite transform_contracts_unfold by exact Hne.
  destruct (contracts_prefix df) as (df3 & -> & Hend & Hstart). simpl.
  rewrite <- Hstart. apply default_then_parse; [discriminate|].
  rewrite Hend. exact Hget.
Qed.

Lemma transform_contracts_raises (df : DataFrame) :
  empty df = false ->
  "endDate" ∉ columns df ->
  transform_contracts df = Raise (KeyError "endDate").
Proof.
  intros Hne Habs. rewrite transform_contracts_unfold by exact Hne.
  destruct (contracts_prefix df) as (df3 & -> & Hend & _). simpl.
  apply default_raises. intros Hin.
  apply get_column_present in Hin as (i & _ & Hget).
  rewrite Hend, get_column_absent in Hget by exact Habs. discriminate.
Qed.

(** ** Transformers: dates, missing columns, empty tables *)

(** A contracts and meters fixture: one row without an end date, one with an
    unparseable start date. *)
Definition dated_frame : DataFrame :=
  mkDF [ "id"; "startDate"; "endDate"; "billableFrom"; "billableTo" ]
       [ [ VNum 1; VStr "2024-01-15"; VNull; VStr "2024-01-15"; VNull ];
         [ VNum 2; VStr "not-a-date"; VStr "2025-06-30"; VStr "not-a-date";
           VStr "2025-06-30" ] ].

(** C6: on a non-empty contracts (meters) table that has an [endDate]
    ([billableTo]) column the transformer returns normally; in its output
    that column holds, row by row, the input value with the sentinel
    [2099-12-31] put in place of a null and then parsed, and [startDate]
    ([billableFrom]) holds the parsed input value.  A defaulted null parses
    to the date 2099-12-31, and a string the format does not accept, such as
    ["not-a-date"], becomes null instead of raising. *)
Theorem dates_defaulted_and_coerced (df : DataFrame) :
  empty df = false ->
  (forall ends, get_column df "endDate" = Ok ends ->
     exists out,
       transform_contracts df = Ok out
       /\ get_column out "endDate"
          = Ok (map (fun v => to_datetime (fillna (VStr sentinel) v)) ends)
       /\ get_column out "startDate"
          = (map to_datetime <$> get_column df "startDate"))
  /\ (forall tos, get_column df "billableTo" = Ok tos ->
        exists out,
          transform_meters df = Ok out
          /\ get_column out "billableTo"
             = Ok (map (fun v => to_datetime (fillna (VStr sentinel) v)) tos)
          /\ get_column out "billableFrom"
             = (map to_datetime <$> get_column df "billableFrom"))
  /\ to_datetime (fillna (VStr sentinel) VNull) = VTime (Date 2099 12 31)
  /\ (forall s, strptime_ymd s = None ->
        to_datetime (VStr s) = VNull
        /\ to_datetime (fillna (VStr sentinel) (VStr s)) = VNull)
  /\ strptime_ymd "not-a-date" = None.
Proof.
  intros Hne. repeat split.
  - intros ends Hget. apply transform_contracts_dates; assumption.
  - intros tos Hget. apply transform_meters_dates; assumption.
  - simpl. rewrite H. reflexivity.
  - simpl. rewrite H. reflexivity.
Qed.

Lemma dates_defaulted_and_coerced_witness :
  exists contracts_out meters_out,
    transform_contracts dated_frame = Ok contracts_out
    /\ get_column contracts_out "endDate"
       = Ok [ VTime (Date 2099 12 31); VTime (Date 2025 6 30) ]
    /\ get_column contracts_out "startDate"
       = Ok [ VTime (Date 2024 1 15); VNull ]
    /\ transform_meters dated_frame = Ok meters_out
    /\ get_column meters_out "billableTo"
       = Ok [ VTime (Date 2099 12 31); VTime (Date 2025 6 30) ]
    /\ get_column meters_out "billableFrom"
       = Ok [ VTime (Date 2024 1 15); VNull ].
Proof.
  destruct (dates_defaulted_and_coerced dated_frame eq_refl)
    as (Hc & Hm & _).
  destruct (Hc _ eq_refl) as (c & Hc1 & Hc2 & Hc3).
  destruct (Hm _ eq_refl) as (m & Hm1 & Hm2 & Hm3).
  exists c, m. repeat split; assumption.
Defined.

(** A table with rows but neither [billableTo] nor [endDate]. *)
Definition undated_frame : DataFrame :=
  mkDF [ "id"; "name" ] [ [ VNum 1; VStr "first" ] ].

(** C7: on every non-empty table without a [billableTo] column
    [transform_meters] raises [KeyError], and without an [endDate] column
    [transform_contracts] raises [KeyError]: the sentinel assignment reads
    the column unconditionally.  The guarded steps never raise: with the
    defaulted column present both transformers return, whatever else is
    missing. *)
Theorem sentinel_default_unguarded (df : DataFrame) :
  empty df = false ->
  ("billableTo" ∉ columns df ->
     transform_meters df = Raise (KeyError "billableTo"))
  /\ ("endDate" ∉ columns df ->
        transform_contracts df = Raise (KeyError "endDate"))
  /\ ("billableTo" ∈ columns df -> exists out, transform_meters df = Ok out)
  /\ ("endDate" ∈ columns df -> exists out, transform_contracts df = Ok out).
Proof.
  intros Hne. repeat split.
  - apply transform_meters_raises. exact Hne.
  - apply transform_contracts_raises. exact Hne.
  - intros Hin. apply get_column_present in Hin as (i & _ & Hget).
    destruct (transform_meters_dates df _ Hne Hget) as (out & H & _). eauto.
  - intros Hin. apply get_column_present in Hin as (i & _ & Hget).
    destruct (transform_contracts_dates df _ Hne Hget) as (out & H & _). eauto.
Qed.

Lemma sentinel_default_unguarded_witness :
  empty undated_frame = false
  /\ transform_meters undated_frame = Raise (KeyError "billableTo")
  /\ transform_contracts undated_frame = Raise (KeyError "endDate").
Proof.
  destruct (sentinel_default_unguarded undated_frame eq_refl)
    as (Hm & Hc & _).
  split; [reflexivity|]. split.
  - apply Hm. apply col_index_None. reflexivity.
  - apply Hc. apply col_index_None. reflexivity.
Defined.

(** C10: each of the six transformers, applied to an empty table, returns
    that same (empty) table and does not raise. *)
Theorem transformers_keep_empty (df : DataFrame) :
  empty df = true ->
  transform_contracts df = Ok df
  /\ transform_meters df = Ok df
  /\ transform_areas df = df
  /\ transform_buildings df = df
  /\ transform_utility_units df = df
  /\ transform_profiles df = df.
Proof.
  intros He.
  unfold transform_contracts, transform_meters, transform_areas,
    transform_buildings, transform_utility_units, transform_profiles.
  rewrite He. repeat split.
Qed.

Lemma transformers_keep_empty_witness :
  empty (mkDF ["loadDate"] []) = true
  /\ transform_contracts (mkDF ["loadDate"] []) = Ok (mkDF ["loadDate"] [])
  /\ transform_meters (mkDF ["loadDate"] []) = Ok (mkDF ["loadDate"] []).
Proof.
  destruct (transformers_keep_empty (mkDF ["loadDate"] []) eq_refl)
    as (Hc & Hm & _).
  split; [reflexivity|]. split; assumption.
Defined.

(** ** Denylist filter *)

(** A filter word without regular-expression syntax. *)
Definition literal_word (w : string) : Prop :=
  string_exists (fun c => regex_meta c || Ascii.eqb c "|") w = false.

Lemma string_exists_app (p : ascii -> bool) (a b : string) :
  string_exists p (a +:+ b) = string_exists p a || string_exists p b.
Proof.
  induction a as [|c a IH]; simpl; [reflexivity|].
  rewrite IH, orb_assoc. reflexivity.
Qed.

Lemma string_exists_or (p q : ascii -> bool) (s : string) :
  string_exists (fun c => p c || q c) s = false <->
  string_exists p s = false /\ string_exists q s = false.
Proof.
  induction s as [|c s IH]; simpl; [tauto|].
  rewrite !orb_false_iff, IH. tauto.
Qed.

Lemma split_on_nonempty (sep : ascii) (s : string) : split_on sep s <> [].
Proof.
  destruct s as [|c s]; simpl; [discriminate|].
  destruct (Ascii.eqb c sep); [discriminate|].
  destruct (split_on sep s); discriminate.
Qed.

Lemma split_on_free (sep : ascii) (w : string) :
  string_exists (fun c => Ascii.eqb c sep) w = false -> split_on sep w = [w].
Proof.
  induction w as [|c w IH]; simpl; [reflexivity|].
  intros H. apply orb_false_iff in H as [Hc Hw].
  rewrite Hc, (IH Hw). reflexivity.
Qed.

Lemma split_on_app (sep : ascii) (w s : string) :
  string_exists (fun c => Ascii.eqb c sep) w = false ->
  split_on sep (w +:+ String sep s) = w :: split_on sep s.
Proof.
  induction w as [|c w IH]; simpl.
  - intros _. rewrite Ascii.eqb_refl. reflexivity.
  - intros H. apply orb_false_iff in H as [Hc Hw].
    rewrite Hc, (IH Hw). reflexivity.
Qed.

Lemma split_on_join (sep : ascii) (words : list string) :
  words <> [] ->
  Forall (fun w => string_exists (fun c => Ascii.eqb c sep) w = false) words ->
  split_on sep (join (String sep EmptyString) words) = words.
Proof.
  intros Hne Hall. unfold join.
  induction Hall as [|w ws Hw Hws IH]; [congruence|].
  destruct ws as [|w' ws].
  - simpl. apply split_on_free. exact Hw.
  - change (String.concat (String sep "") (w :: w' :: ws))
      with (w +:+ String sep (String.concat (String sep "") (w' :: ws))).
    rewrite split_on_app by exact Hw. f_equal. apply IH. discriminate.
Qed.

Lemma join_no_meta (words : list string) :
  Forall literal_word words ->
  string_exists regex_meta (join "|" words) = false.
Proof.
  unfold join. induction 1 as [|w ws Hw Hws IH]; [reflexivity|].
  apply string_exists_or in Hw as [Hw _].
  destruct ws as [|w' ws]; [exact Hw|].
  change (String.concat "|" (w :: w' :: ws))
    with (w +:+ String "|" (String.concat "|" (w' :: ws))).
  rewrite string_exists_app. simpl. simpl in IH. rewrite Hw, IH. reflexivity.
Qed.

(** Literal words compile to themselves as the branches of the pattern. *)
Lemma re_compile_literal (words : list string) :
  words <> [] -> Forall literal_word words ->
  re_compile (join "|" words) = Some words.
Proof.
  intros Hne Hall. unfold re_compile.
  rewrite join_no_meta by exact Hall.
  f_equal. apply split_on_join; [exact Hne|].
  eapply Forall_impl; [exact Hall|].
  intros w Hw. apply string_exists_or in Hw as [_ Hw]. exact Hw.
Qed.

Lemma select_mask_filter {A} (p : A -> bool) (xs : list A) :
  select_mask (map p xs) xs = List.filter p xs.
Proof.
  induction xs as [|x xs IH]; simpl; [reflexivity|].
  rewrite IH. reflexivity.
Qed.

Lemma forallb_Forall_cells (p : value -> bool) (vs : list value) :
  Forall (fun v => p v = true) vs -> forallb p vs = true.
Proof. induction 1; simpl; [reflexivity|]. rewrite H, IHForall. reflexivity. Qed.

(** What [apply_data_filters] computes once the pattern compiles. *)
Lemma apply_data_filters_compiled (df : DataFrame) (filter_words : list string)
    (column_name : string) (branches : list string) (i : nat) :
  re_compile (join "|" filter_words) = Some branches ->
  col_index column_name (columns df) = Some i ->
  Forall (fun r => is_str_or_null (cell i r) = true) (rows df) ->
  apply_data_filters df filter_words column_name
  = Ok (mkDF (columns df)
          (List.filter (fun r => negb (contains_cell branches (cell i r)))
                       (rows df))).
Proof.
  intros Hre Hi Hcells. unfold apply_data_filters.
  destruct (empty df) eqn:He; simpl.
  - unfold empty in He. destruct df as [cols rs]. simpl in *.
    destruct cols as [|c cols]; [discriminate|].
    destruct rs; [reflexivity | discriminate].
  - assert (Hhas : has_column df column_name = true).
    { apply has_column_true, col_index_elem. eauto. }
    rewrite Hhas. simpl. unfold get_column. rewrite Hi. simpl.
    unfold str_contains. rewrite Hre.
    rewrite forallb_Forall_cells.
    + simpl. rewrite !map_map. rewrite select_mask_filter. reflexivity.
    + apply Forall_map. exact Hcells.
Qed.

Definition areas_fixture : DataFrame :=
  mkDF [ "areaId"; "areaName" ]
       [ [ VStr "A1"; VStr "Main" ]; [ VStr "A2"; VStr "To Delete" ] ].







(** ** Cascade of the area filter *)



Definition contracts_fixture : DataFrame :=
  mkDF [ "contractId"; "areaId" ]
       [ [ VStr "C1"; VStr "A1" ]; [ VStr "C2"; VStr "A2" ] ].




(** ** Cross-linker *)

Section Dict.
Context {K V : Type} `{EqDecision K}.

Lemma dict_get_set (k k' : K) (v : V) (d : list (K * V)) :
  dict_get k (dict_set k' v d)
  = if decide (k' = k) then Some v else dict_get k d.
Proof.
  induction d as [|[k0 v0] d IH]; simpl.
  - reflexivity.
  - destruct (decide (k0 = k')) as [->|Hne]; simpl.
    + destruct (decide (k' = k)); reflexivity.
    + rewrite IH. destruct (decide (k0 = k)) as [->|]; [|reflexivity].
      destruct (decide (k' = k)); [congruence | reflexivity].
Qed.



Lemma dict_get_Some_In (k : K) (v : V) (d : list (K * V)) :
  dict_get k d = Some v -> In (k, v) d.
Proof.
  induction d as [|[k0 v0] d IH]; simpl; [discriminate|].
  destruct (decide (k0 = k)) as [->|].
  - intros [= ->]. auto.
  - auto.
Qed.

End Dict.





Definition units_fixture : DataFrame :=
  mkDF [ "utilityUnitId"; "buildingId" ]
       [ [ VStr "U1"; VStr "B1" ]; [ VStr "U2"; VStr "B3" ] ].



(** ** Exporter *)

Lemma string_app_cons (x : ascii) (a b : string) :
  String x a +:+ b = String x (a +:+ b).
Proof. reflexivity. Qed.

Lemma string_app_nil_l (a : string) : "" +:+ a = a.
Proof. reflexivity. Qed.

Lemma string_app_length (a b : string) :
  String.length (a +:+ b) = String.length a + String.length b.
Proof.
  induction a as [|c a IH]; [reflexivity|].
  rewrite string_app_cons. simpl. rewrite IH. reflexivity.
Qed.

Lemma string_app_assoc (a b c : string) : (a +:+ b) +:+ c = a +:+ (b +:+ c).
Proof.
  induction a as [|x a IH]; [reflexivity|].
  rewrite !string_app_cons, IH. reflexivity.
Qed.

Lemma string_app_inv_head (a b c : string) : a +:+ b = a +:+ c -> b = c.
Proof.
  induction a as [|x a IH]; [auto|].
  rewrite !string_app_cons. intros [= H]. auto.
Qed.

Lemma string_app_inj_length (a b c d : string) :
  String.length a = String.length c -> a +:+ b = c +:+ d -> a = c.
Proof.
  revert c. induction a as [|x a IH]; intros [|y c]; simpl; try discriminate.
  - reflexivity.
  - rewrite !string_app_cons. intros [= Hlen] [= -> Happ].
    f_equal. eapply IH; eassumption.
Qed.

(** Distinct table names are written to distinct files. *)
Lemma csv_path_inj (base_path today n n' : string) :
  csv_path base_path today n = csv_path base_path today n' -> n = n'.
Proof.
  unfold csv_path, path_join. intros H.
  rewrite !string_app_assoc in H.
  apply string_app_inv_head in H.
  rewrite !string_app_cons in H. injection H as H.
  eapply string_app_inj_length; [|exact H].
  apply (f_equal String.length) in H.
  repeat (rewrite ?string_app_nil_l, ?string_app_length in H; simpl in H).
  lia.
Qed.

Lemma create_export_directories_ok (base_path : string)
    (subdirectories : list string) (w : World) :
  (forall s, s ∈ subdirectories -> io_fails w (path_join base_path s) = false) ->
  exists w',
    create_export_directories base_path subdirectories w = (Ok tt, w')
    /\ env w' = env w /\ today w' = today w /\ io_fails w' = io_fails w
    /\ disk w' = disk w /\ log w' = log w.
Proof.
  revert w. induction subdirectories as [|s more IH]; intros w Hio; simpl.
  - exists w. auto 10.
  - rewrite (Hio s) by apply list_elem_of_here.
    destruct (IH (mkdir (path_join base_path s) w)) as (w' & -> & H).
    { intros s' Hs'. simpl. apply Hio. apply list_elem_of_further. exact Hs'. }
    exists w'. split; [reflexivity | exact H].
Qed.

Lemma export_dataframe_to_csv_frame (df : DataFrame) (file_path table_name : string)
    (w : World) :
  let w' := (export_dataframe_to_csv df file_path table_name w).2 in
  today w' = today w /\ io_fails w' = io_fails w
  /\ forall p, (empty df = false -> p <> file_path) -> disk w' !! p = disk w !! p.
Proof.
  unfold export_dataframe_to_csv.
  destruct (empty df) eqn:He; simpl; [auto|].
  destruct (io_fails w file_path); simpl; [auto|].
  split; [reflexivity|]. split; [reflexivity|].
  intros p Hp. apply lookup_insert_ne. intros ->. exact (Hp eq_refl eq_refl).
Qed.

(** The loop writes only the files of the non-empty tables it is given. *)
Lemma export_each_disk (base_path : string) (subdirectories : list string)
    (dataframes : list (string * DataFrame)) (results : list (string * bool))
    (w : World) (p : string) :
  (forall n d, In (n, d) dataframes -> empty d = false ->
               p <> csv_path base_path (today w) n) ->
  disk (export_each base_path subdirectories dataframes results w).2 !! p
  = disk w !! p.
Proof.
  revert results w.
  induction dataframes as [|[n d] more IH]; intros results w Hp; simpl;
    [reflexivity|].
  case_bool_decide as Hcfg.
  - destruct (export_dataframe_to_csv d (csv_path base_path (today w) n) n w)
      as [success w1] eqn:Hex.
    pose proof (export_dataframe_to_csv_frame d
                  (csv_path base_path (today w) n) n w) as Hfr.
    rewrite Hex in Hfr. simpl in Hfr. destruct Hfr as (Ht & _ & Hd).
    rewrite IH.
    + apply Hd. intros Hne. apply (Hp n d); [left; reflexivity | exact Hne].
    + intros n' d' Hin Hne. rewrite Ht. apply (Hp n' d'); [right|]; assumption.
  - rewrite IH; [reflexivity|].
    intros n' d' Hin Hne. simpl. apply (Hp n' d'); [right|]; assumption.
Qed.

Lemma export_each_other (base_path : string) (subdirectories : list string)
    (dataframes : list (string * DataFrame)) (results : list (string * bool))
    (w : World) (table_name : string) :
  ~ In table_name (map fst dataframes) ->
  dict_get table_name
    (export_each base_path subdirectories dataframes results w).1
  = dict_get table_name results.
Proof.
  revert results w.
  induction dataframes as [|[n d] more IH]; intros results w Hn; simpl;
    [reflexivity|].
  simpl in Hn.
  case_bool_decide as Hcfg.
  - destruct (export_dataframe_to_csv d (csv_path base_path (today w) n) n w)
      as [success w1].
    rewrite IH by tauto. rewrite dict_get_set.
    destruct (decide (n = table_name)); [tauto | reflexivity].
  - apply IH. tauto.
Qed.

(** An empty table that is exported ends with [False] in [export_results]. *)
Lemma export_each_empty (base_path : string) (subdirectories : list string)
    (dataframes : list (string * DataFrame)) (results : list (string * bool))
    (w : World) (table_name : string) (df : DataFrame) :
  List.NoDup (map fst dataframes) ->
  In (table_name, df) dataframes ->
  empty df = true ->
  table_name ∈ subdirectories ->
  dict_get table_name
    (export_each base_path subdirectories dataframes results w).1
  = Some false.
Proof.
  intros Hnd Hin He Hcfg. revert results w.
  induction dataframes as [|[n d] more IH]; intros results w; simpl;
    [destruct Hin|].
  simpl in Hnd. apply List.NoDup_cons_iff in Hnd as [Hn Hnd].
  destruct Hin as [[= -> ->]|Hin].
  - rewrite bool_decide_eq_true_2 by exact Hcfg.
    unfold export_dataframe_to_csv. rewrite He.
    rewrite export_each_other by exact Hn.
    rewrite dict_get_set. rewrite decide_True by reflexivity. reflexivity.
  - case_bool_decide.
    + destruct (export_dataframe_to_csv d (csv_path base_path (today w) n) n w)
        as [success w1].
      apply IH; assumption.
    + apply IH; assumption.
Qed.

Lemma failed_exports_elem (results : list (string * bool)) (name : string) :
  dict_get name results = Some false ->
  name ∈ failed_exports results
  /\ successful_exports results < length results.
Proof.
  intros H. apply dict_get_Some_In in H. split.
  - unfold failed_exports. apply list_elem_of_In, in_map_iff.
    exists (name, false). split; [reflexivity|].
    apply filter_In. auto.
  - unfold successful_exports. clear -H.
    induction results as [|[n b] rs IH]; simpl; [destruct H|].
    destruct H as [[= -> ->]|H]; simpl.
    + pose proof (filter_length_le (fun r : string * bool => r.2) rs). lia.
    + specialize (IH H). destruct b; simpl; lia.
Qed.

(** A process configured to export under [/data], nothing written yet. *)
Definition export_world (failing : string -> bool) : World :=
  mkWorld {[ "EXPORT_BASE_PATH" := "/data" ]} "20250101" None
          (fun _ => Fails "offline") 0 [] failing [] ∅ [].

(** C2, as amended: exporting an empty table writes no file and returns
    [False], the value an I/O error returns too; when all directories can be
    created the run completes, the file of that table is not on disk, the
    summary counts the table as not exported and lists it under
    "Failed exports". *)
Theorem empty_export_counted_failed (dataframes : list (string * DataFrame))
    (w : World) (base_path table_name : string) (df : DataFrame) :
  env w !! "EXPORT_BASE_PATH" = Some base_path ->
  base_path <> "" ->
  (forall s, s ∈ configured_subdirectories w ->
             io_fails w (path_join base_path s) = false) ->
  List.NoDup (map fst dataframes) ->
  In (table_name, df) dataframes ->
  empty df = true ->
  table_name ∈ configured_subdirectories w ->
  (forall file_path w0,
     export_dataframe_to_csv df file_path table_name w0
     = (false, emit (LogNoData table_name) w0))
  /\ (forall df' file_path w0,
        io_fails w0 file_path = true ->
        (export_dataframe_to_csv df' file_path table_name w0).1 = false)
  /\ exists w' earlier n_ok n_total failed,
       export_all_data dataframes w = (Ok tt, w')
       /\ log w' = earlier ++ [ LogExportCompleted n_ok n_total;
                                LogFailedExports failed ]
       /\ n_ok < n_total
       /\ table_name ∈ failed
       /\ disk w' !! csv_path base_path (today w) table_name
          = disk w !! csv_path base_path (today w) table_name.
Proof.
  intros Henv Hbase Hio Hnd Hin He Hcfg. split; [|split].
  - intros file_path w0. unfold export_dataframe_to_csv. rewrite He.
    reflexivity.
  - intros df' file_path w0 Hfail. unfold export_dataframe_to_csv.
    destruct (empty df'); [reflexivity|]. rewrite Hfail. reflexivity.
  - unfold export_all_data. rewrite Henv.
    destruct base_path as [|c base_path]; [congruence|].
    set (base := String c base_path) in *.
    destruct (create_export_directories_ok base
                (configured_subdirectories w) w Hio)
      as (w1 & -> & Henv1 & Ht1 & Hio1 & Hd1 & Hl1).
    destruct (export_each base (configured_subdirectories w) dataframes [] w1)
      as [results w2] eqn:Hloop.
    pose proof (export_each_empty base (configured_subdirectories w)
                  dataframes [] w1 table_name df Hnd Hin He Hcfg) as Hres.
    rewrite Hloop in Hres. simpl in Hres.
    destruct (failed_exports_elem results table_name Hres) as [Hfailed Hlt].
    pose proof (export_each_disk base (configured_subdirectories w)
                  dataframes [] w1 (csv_path base (today w) table_name))
      as Hdisk.
    rewrite Hloop in Hdisk. simpl in Hdisk.
    destruct (failed_exports results) as [|f fs] eqn:Hf.
    { apply elem_of_nil in Hfailed. destruct Hfailed. }
    eexists _, (log w2), _, _, (f :: fs).
    split; [reflexivity|]. simpl.
    split; [rewrite <- app_assoc; reflexivity|].
    split; [exact Hlt|]. split; [exact Hfailed|].
    rewrite Hdisk, Hd1; [reflexivity|].
    intros n d Hn Hne Heq. rewrite Ht1 in Heq.
    apply csv_path_inj in Heq. subst n.
    assert (d = df); [|congruence].
    clear -Hnd Hin Hn.
    induction dataframes as [|[n0 d0] more IH]; [destruct Hin|].
    simpl in Hnd. apply List.NoDup_cons_iff in Hnd as [Hn0 Hnd].
    destruct Hin as [[= -> ->]|Hin], Hn as [[= <-]|Hn]; auto.
    + exfalso. apply Hn0. apply (in_map fst) in Hn. exact Hn.
    + exfalso. apply Hn0. apply (in_map fst) in Hin. simpl in Hin.
      congruence.
Qed.

Lemma empty_export_counted_failed_witness :
  exists w',
    export_all_data [ ("areas", mkDF ["areaId"] []) ] (export_world (fun _ => false))
    = (Ok tt, w')
    /\ disk w' !! "/data/areas/20250101_areas.csv" = None.
Proof.
  destruct (empty_export_counted_failed
              [ ("areas", mkDF ["areaId"] []) ] (export_world (fun _ => false))
              "/data" "areas" (mkDF ["areaId"] []))
    as (_ & _ & w' & earlier & n_ok & n_total & failed & Hrun & _ & _ & _ & Hd).
  - reflexivity.
  - discriminate.
  - reflexivity.
  - repeat constructor. simpl. tauto.
  - left. reflexivity.
  - reflexivity.
  - apply (bool_decide_unpack _). vm_compute. exact I.
  - exists w'. split; [exact Hrun | exact Hd].
Defined.

(** C2 as stated fails: the run that exports one empty table reports it
    under "Failed exports", with the same summary as the run in which the
    write of a non-empty table raises. *)
Lemma empty_export_listed_as_failed :
  log (export_all_data [ ("areas", mkDF ["areaId"] []) ]
         (export_world (fun _ => false))).2
  = [ LogNoData "areas"; LogExportCompleted 0 1; LogFailedExports ["areas"] ]
  /\ log (export_all_data [ ("areas", mkDF ["areaId"] [[VStr "A1"]]) ]
            (export_world (String.eqb "/data/areas/20250101_areas.csv"))).2
     = [ LogExportFailed "areas" "/data/areas/20250101_areas.csv"
           (OSError "/data/areas/20250101_areas.csv");
         LogExportCompleted 0 1; LogFailedExports ["areas"] ].
Proof. split; vm_compute; reflexivity. Qed.

(** ** Authentication *)




Definition token_body (token : value) : option value :=
  Some (VObj (FCons "token" token FNil)).




(** ** Manager fetcher: the excluded account *)

(** No cell of the [email] column, if there is one, is the excluded
    address. *)
Definition email_clean (df : DataFrame) : Prop :=
  forall i r, col_index "email" (columns df) = Some i -> In r (rows df) ->
              cell i r <> VStr excluded_email.

Lemma email_clean_get (df df' : DataFrame) :
  get_column df' "email" = get_column df "email" ->
  length (rows df') = length (rows df) ->
  email_clean df -> email_clean df'.
Proof.
  unfold email_clean, get_column. intros Hget Hlen Hc i r Hi Hr.
  rewrite Hi in Hget.
  destruct (col_index "email" (columns df)) as [j|]; [|discriminate].
  injection Hget as Hget.
  apply In_nth with (d := []) in Hr as (k & Hk & <-).
  apply (f_equal (fun l => nth k l VNull)) in Hget.
  rewrite (nth_indep _ VNull (cell i [])) in Hget
    by (rewrite length_map; exact Hk).
  rewrite (nth_indep _ VNull (cell j [])) in Hget
    by (rewrite length_map, <- Hlen; exact Hk).
  rewrite !map_nth in Hget. rewrite Hget.
  apply (Hc j); [reflexivity|]. apply nth_In. rewrite <- Hlen. exact Hk.
Qed.

Lemma exclude_email_exact (df : DataFrame) (i : nat) :
  col_index "email" (columns df) = Some i ->
  exclude_email df
  = Ok (mkDF (columns df)
          (List.filter
             (fun r => negb (bool_decide (cell i r = VStr excluded_email)))
             (rows df))).
Proof.
  intros Hi. unfold exclude_email, get_column. rewrite Hi. simpl.
  rewrite map_map, select_mask_filter. do 2 f_equal.
  apply filter_ext. intros r. unfold isin. f_equal.
  apply bool_decide_ext. apply list_elem_of_singleton.
Qed.

Lemma exclude_email_clean (df df' : DataFrame) :
  exclude_email df = Ok df' -> email_clean df'.
Proof.
  intros H. destruct (col_index "email" (columns df)) as [i|] eqn:Hi.
  - rewrite (exclude_email_exact df i Hi) in H. injection H as <-.
    intros j r Hj Hr. simpl in *. rewrite Hi in Hj. injection Hj as <-.
    apply filter_In in Hr as [_ Hr].
    apply negb_true_iff, bool_decide_eq_false in Hr. exact Hr.
  - unfold exclude_email, get_column in H. rewrite Hi in H. discriminate.
Qed.

Lemma drop_get (df : DataFrame) (l : list string) (c : string) :
  c ∉ l -> get_column (drop df l) c = get_column df c.
Proof.
  intros Hc.
  set (p := fun c0 : string => negb (bool_decide (c0 ∈ l))).
  assert (Hp : p c = true)
    by (apply negb_true_iff, bool_decide_eq_false; exact Hc).
  unfold get_column, drop. simpl. fold p.
  destruct (col_index c (columns df)) as [i|] eqn:Hi.
  - destruct (select_cells_cell p (columns df) [] c i Hp Hi) as (j & Hj & _).
    rewrite Hj. f_equal. rewrite map_map. apply map_ext. intros r.
    destruct (select_cells_cell p (columns df) r c i Hp Hi) as (j' & Hj' & E).
    rewrite Hj in Hj'. injection Hj' as <-. exact E.
  - apply col_index_None in Hi.
    assert (Hn : col_index c (List.filter p (columns df)) = None).
    { apply col_index_None. intros Hin. apply Hi.
      apply list_elem_of_In, filter_In in Hin as [Hin _].
      apply list_elem_of_In. exact Hin. }
    rewrite Hn. reflexivity.
Qed.

Lemma rename_get (df : DataFrame) (m : gmap string string) (target : string) :
  untouched m target ->
  get_column (rename df m) target = get_column df target.
Proof.
  intros [Hk Hv]. unfold get_column, rename. simpl.
  rewrite col_index_map_stable; [reflexivity|].
  intros c. destruct (m !! c) as [n|] eqn:Hc; simpl; [|tauto].
  split; [intros ->; exfalso; eapply Hv; eauto | intros ->; congruence].
Qed.

Lemma stamp_contract_get (cols : list string) (row : list value)
    (labels : list string) (df df' : DataFrame) (c : string) :
  c ∉ labels ->
  stamp_contract cols row labels df = Ok df' ->
  get_column df' c = get_column df c
  /\ length (rows df') = length (rows df).
Proof.
  revert df. induction labels as [|l more IH]; intros df Hc; simpl.
  - intros [= <-]. auto.
  - apply not_elem_of_cons in Hc as [Hne Hc].
    destruct (row_get cols row l) as [v| |]; simpl; try discriminate.
    intros H. destruct (IH _ Hc H) as [Hg Hl]. split.
    + rewrite Hg. apply get_set_column_other. exact Hne.
    + rewrite Hl. apply set_column_rows_length.
Qed.

Lemma manager_untouched_email : untouched manager_mapping "email".
Proof.
  split; [vm_compute; reflexivity|].
  intros k v H. unfold manager_mapping in H.
  apply lookup_singleton_Some in H as [_ <-]. discriminate.
Qed.

Lemma bind_Ok {A B} (r : result A) (k : A -> result B) (b : B) :
  (r ≫= k) = Ok b -> exists a, r = Ok a /\ k a = Ok b.
Proof. destruct r as [a| |]; [eauto | discriminate | discriminate]. Qed.

Lemma email_not_stamped : "email" ∉ contract_columns.
Proof.
  unfold contract_columns. rewrite !not_elem_of_cons.
  repeat split; try discriminate. apply not_elem_of_nil.
Qed.

Lemma email_not_dropped : "email" ∉ manager_drop_columns.
Proof.
  unfold manager_drop_columns. rewrite !not_elem_of_cons.
  repeat split; try discriminate. apply not_elem_of_nil.
Qed.

Lemma clean_managers_clean (cols : list string) (row : list value)
    (df out : DataFrame) :
  clean_managers cols row df = Ok out -> email_clean out.
Proof.
  unfold clean_managers. intros H.
  apply bind_Ok in H as (dfx & Hex & H).
  apply exclude_email_clean in Hex.
  destruct (stamp_contract_get _ _ _ _ _ "email" email_not_stamped H)
    as [Hg Hl].
  eapply email_clean_get; [| |exact Hex].
  - rewrite Hg, drop_get by exact email_not_dropped.
    apply rename_get. exact manager_untouched_email.
  - rewrite Hl. apply length_map.
Qed.

Lemma manager_frame_clean (cols : list string) (row : list value)
    (manager_data : value) (df : DataFrame) :
  manager_frame cols row manager_data = Ok df -> email_clean df.
Proof.
  unfold manager_frame. intros H.
  apply bind_Ok in H as (df0 & _ & H).
  apply bind_Ok in H as (df1 & _ & H).
  destruct (bool_decide (NoDup (columns df1))); [|discriminate].
  eapply clean_managers_clean. exact H.
Qed.

Lemma fetch_managers_clean (cols : list string) (row : list value)
    (outcome : http_outcome) (df : DataFrame) :
  fetch_managers cols row outcome = Ok (Some df) -> email_clean df.
Proof.
  unfold fetch_managers. intros H.
  destruct outcome as [what|status body]; [discriminate|].
  destruct (Nat.eqb status 200); [|discriminate].
  destruct body as [manager_data|]; [|discriminate].
  destruct (truthy manager_data); [|discriminate].
  destruct (manager_frame cols row manager_data) as [df'| |] eqn:Hf;
    try discriminate.
  injection H as <-. eapply manager_frame_clean. exact Hf.
Qed.

(** Every frame the loop collects is free of the excluded address. *)
Lemma managers_loop_clean (cols : list string)
    (contract_rows : list (list value)) (managers out : list DataFrame)
    (w w' : World) :
  Forall email_clean managers ->
  managers_loop cols contract_rows managers w = (Ok out, w') ->
  Forall email_clean out.
Proof.
  revert managers w.
  induction contract_rows as [|row more IH]; intros managers w Hm; simpl.
  - intros [= <- _]. exact Hm.
  - destruct (row_get cols row "contractId") as [id| |]; try discriminate.
    destruct (fetch_managers cols row (responses w (sent w)))
      as [[df|]| |] eqn:Hf.
    + apply IH. apply Forall_app. split; [exact Hm|].
      apply Forall_singleton. eapply fetch_managers_clean. exact Hf.
    + apply IH. exact Hm.
    + apply IH. exact Hm.
    + discriminate.
Qed.

Lemma cell_map_index (f : string -> value) (cols : list string) (c : string)
    (j : nat) :
  col_index c cols = Some j -> cell j (map f cols) = f c.
Proof.
  intros H. apply col_index_lookup in H. unfold cell.
  revert j H. induction cols as [|c' cs IH]; intros [|j]; simpl;
    try discriminate.
  - intros [= ->]. reflexivity.
  - apply IH.
Qed.

Lemma concat_rows_clean (frames : list DataFrame) :
  Forall email_clean frames -> email_clean (concat_rows frames).
Proof.
  intros Hall j r Hj Hr. unfold concat_rows in *. simpl in *.
  apply in_flat_map in Hr as (df & Hdf & Hr).
  apply in_map_iff in Hr as (r0 & <- & Hr0).
  rewrite (cell_map_index _ _ "email" j Hj).
  destruct (col_index "email" (columns df)) as [i|] eqn:Hi; [|discriminate].
  rewrite Forall_forall in Hall.
  apply (Hall df); [apply list_elem_of_In; exact Hdf | exact Hi | exact Hr0].
Qed.

Lemma get_managers_clean (contracts_df out : DataFrame) (w w' : World) :
  get_managers contracts_df w = (Ok out, w') -> email_clean out.
Proof.
  unfold get_managers.
  destruct (empty contracts_df).
  { intros [= <- _] i r Hi. discriminate. }
  destruct (managers_loop (columns contracts_df) (rows contracts_df) [] w)
    as [[managers| |] w1] eqn:Hloop; try discriminate.
  destruct managers as [|m ms].
  { intros [= <- _] i r Hi. discriminate. }
  pose proof (managers_loop_clean _ _ [] _ _ _ ltac:(constructor) Hloop) as Hall.
  apply concat_rows_clean in Hall.
  destruct (project_available (concat_rows (m :: ms)) expected_columns)
    as (p & Hp & _ & Hlen & Hget).
  rewrite Hp. intros [= <- _].
  eapply email_clean_get; [|exact Hlen|exact Hall].
  apply Hget. unfold expected_columns. rewrite !elem_of_cons. auto 20.
Qed.

(** A manager table as it stands before the exclusion step, with the
    placeholder account twice, under different names. *)
Definition managers_fixture : DataFrame :=
  mkDF [ "email"; "firstName"; "id" ]
       [ [ VStr "zev@ckw.ch"; VStr "Zed"; VNum 1 ];
         [ VStr "anna@example.org"; VStr "Anna"; VNum 2 ];
         [ VStr "zev@ckw.ch"; VStr "Other"; VNum 3 ];
         [ VNull; VStr "Nobody"; VNum 4 ];
         [ VStr "ZEV@ckw.ch"; VStr "Upper"; VNum 5 ] ].

(** C8: the exclusion step of the manager fetcher keeps the labels and
    keeps, in order, exactly the rows whose [email] is not the string
    ["zev@ckw.ch"]: a row with that address is removed whatever its other
    cells hold, and a row with any other address, or none, stays as it is.
    No table the manager fetcher returns has a row with that address. *)
Theorem manager_exclusion_by_email (df : DataFrame) (i : nat) :
  col_index "email" (columns df) = Some i ->
  (exists out,
     exclude_email df = Ok out
     /\ columns out = columns df
     /\ rows out
        = List.filter
            (fun r => negb (bool_decide (cell i r = VStr excluded_email)))
            (rows df)
     /\ (forall r, cell i r = VStr excluded_email -> ~ In r (rows out))
     /\ (forall r, In r (rows df) -> cell i r <> VStr excluded_email ->
                   In r (rows out)))
  /\ (forall contracts_df w out w',
        get_managers contracts_df w = (Ok out, w') ->
        forall j r, col_index "email" (columns out) = Some j ->
                    In r (rows out) -> cell j r <> VStr excluded_email).
Proof.
  intros Hi. split.
  - rewrite (exclude_email_exact df i Hi).
    eexists. split; [reflexivity|]. cbn [columns rows].
    split; [reflexivity|]. split; [reflexivity|]. split.
    + intros r Hr Hin. apply filter_In in Hin as [_ Hk].
      apply negb_true_iff, bool_decide_eq_false in Hk. exact (Hk Hr).
    + intros r Hin Hr. apply filter_In. split; [exact Hin|].
      apply negb_true_iff, bool_decide_eq_false. exact Hr.
  - intros contracts_df w out w' H j r Hj Hr.
    exact (get_managers_clean contracts_df out w w' H j r Hj Hr).
Qed.

Lemma manager_exclusion_by_email_witness :
  exclude_email managers_fixture
  = Ok (mkDF [ "email"; "firstName"; "id" ]
             [ [ VStr "anna@example.org"; VStr "Anna"; VNum 2 ];
               [ VNull; VStr "Nobody"; VNum 4 ];
               [ VStr "ZEV@ckw.ch"; VStr "Upper"; VNum 5 ] ]).
Proof.
  destruct (manager_exclusion_by_email managers_fixture 0 eq_refl)
    as [(out & Hout & Hcols & Hrows & _) _].
  rewrite Hout. destruct out as [cols rs]. cbn [columns rows] in Hcols, Hrows.
  rewrite Hcols, Hrows. reflexivity.
Defined.

(** ** The retry policy *)

Section Retry.
Context {A : Type}.
Variable name : string.
Variables max_retries delay : nat.
Variable func : M A.
(** What one call of [func] returns as a function of the response it
    consumes. *)
Variable answer : http_outcome -> result A.
(** Worlds in which [func] behaves so, e.g. those with a token stored. *)
Variable ready : World -> Prop.

Hypothesis ready_after_retry :
  forall w ev, ready w -> ready (sleep delay (emit ev w)).
Hypothesis func_step :
  forall w, ready w ->
    (func w).1 = answer (responses w (sent w))
    /\ responses (func w).2 = responses w
    /\ sent (func w).2 = S (sent w)
    /\ slept (func w).2 = slept w
    /\ ready (func w).2.

Lemma retry_loop_success (k remaining : nat) (w : World) (a : A) :
  ready w ->
  k < remaining -> remaining <= max_retries ->
  (forall j, j < k -> exists e, answer (responses w (sent w + j)) = Raise e) ->
  answer (responses w (sent w + k)) = Ok a ->
  let r := retry_loop name max_retries delay func remaining w in
  r.1 = Ok (Some a)
  /\ sent r.2 = sent w + S k
  /\ slept r.2 = slept w ++ repeat delay k.
Proof.
  revert remaining w.
  induction k as [|k IH]; intros remaining w Hready Hk Hle Hfail Hok.
  - destruct remaining as [|remaining']; [lia|].
    cbn [retry_loop].
    destruct (func_step w Hready) as (Hr & _ & Hs & Hz & _).
    rewrite Nat.add_0_r in Hok. rewrite Hok in Hr.
    destruct (func w) as [r0 w0]. cbn [fst snd] in *. subst r0.
    cbn [fst snd]. rewrite Hs, Hz, app_nil_r. repeat split; lia.
  - destruct remaining as [|remaining']; [lia|].
    cbn [retry_loop].
    destruct (func_step w Hready) as (Hr & Hresp & Hs & Hz & Hready').
    destruct (Hfail 0 ltac:(lia)) as [e He].
    rewrite Nat.add_0_r in He. rewrite He in Hr.
    destruct (func w) as [r0 w0]. cbn [fst snd] in *. subst r0.
    replace (Nat.eqb (max_retries - S remaining') (max_retries - 1))
      with false by (symmetry; apply Nat.eqb_neq; lia).
    set (w1 := sleep delay (emit _ w0)).
    assert (Hw1 : responses w1 = responses w /\ sent w1 = S (sent w)
                  /\ slept w1 = slept w ++ [delay]).
    { unfold w1. simpl. rewrite Hresp, Hs, Hz. auto. }
    destruct Hw1 as (Hresp1 & Hs1 & Hz1).
    destruct (IH remaining' w1) as (H1 & H2 & H3).
    + apply ready_after_retry. exact Hready'.
    + lia.
    + lia.
    + intros j Hj. rewrite Hresp1, Hs1.
      replace (S (sent w) + j) with (sent w + S j) by lia.
      apply Hfail. lia.
    + rewrite Hresp1, Hs1.
      replace (S (sent w) + k) with (sent w + S k) by lia. exact Hok.
    + rewrite H1, H2, H3, Hs1, Hz1, <- app_assoc.
      repeat split. lia.
Qed.

Lemma retry_loop_exhausted (remaining : nat) (w : World) :
  ready w ->
  0 < remaining -> remaining <= max_retries ->
  (forall j, j < remaining ->
             exists e, answer (responses w (sent w + j)) = Raise e) ->
  let r := retry_loop name max_retries delay func remaining w in
  r.1 = (answer (responses w (sent w + (remaining - 1))) ≫= fun _ => Ok None)
  /\ (exists e, r.1 = Raise e)
  /\ sent r.2 = sent w + remaining
  /\ slept r.2 = slept w ++ repeat delay (remaining - 1).
Proof.
  revert w.
  induction remaining as [|remaining' IH]; intros w Hready Hpos Hle Hfail;
    [lia|].
  cbn [retry_loop].
  destruct (func_step w Hready) as (Hr & Hresp & Hs & Hz & Hready').
  destruct (Hfail 0 ltac:(lia)) as [e He].
  pose proof He as He0. rewrite Nat.add_0_r in He. rewrite He in Hr.
  destruct (func w) as [r0 w0]. cbn [fst snd] in *. subst r0.
  destruct remaining' as [|remaining''].
  - replace (Nat.eqb (max_retries - 1) (max_retries - 1)) with true
      by (symmetry; apply Nat.eqb_refl).
    cbn [fst snd]. simpl (1 - 1). rewrite He0. simpl.
    rewrite Hs, Hz, app_nil_r. repeat split; eauto; lia.
  - replace (Nat.eqb (max_retries - S (S remaining'')) (max_retries - 1))
      with false by (symmetry; apply Nat.eqb_neq; lia).
    set (w1 := sleep delay (emit _ w0)).
    assert (Hw1 : responses w1 = responses w /\ sent w1 = S (sent w)
                  /\ slept w1 = slept w ++ [delay]).
    { unfold w1. simpl. rewrite Hresp, Hs, Hz. auto. }
    destruct Hw1 as (Hresp1 & Hs1 & Hz1).
    destruct (IH w1) as (H1 & H2 & H3 & H4).
    + apply ready_after_retry. exact Hready'.
    + lia.
    + lia.
    + intros j Hj. rewrite Hresp1, Hs1.
      replace (S (sent w) + j) with (sent w + S j) by lia.
      apply Hfail. lia.
    + cbv zeta. split; [|split; [|split]].
      * rewrite H1, Hresp1, Hs1.
        replace (S (sent w) + (S remaining'' - 1))
          with (sent w + (S (S remaining'') - 1)) by lia.
        reflexivity.
      * exact H2.
      * rewrite H3, Hs1. lia.
      * rewrite H4, Hz1, <- app_assoc. simpl. rewrite Nat.sub_0_r.
        reflexivity.
Qed.

(** X1: [retry_on_failure]: the first call that does not raise ends the loop
    with its result, after one sleep of [delay] per failed call before
    it; when all [max_retries] calls raise, the exception of the last
    call is re-raised, with no sleep after it; and with [max_retries = 0]
    the function is not called at all and [None] is returned. *)
Theorem retry_on_failure_policy (w : World) :
  ready w ->
  (forall k a,
     k < max_retries ->
     (forall j, j < k ->
                exists e, answer (responses w (sent w + j)) = Raise e) ->
     answer (responses w (sent w + k)) = Ok a ->
     let r := retry_on_failure name max_retries delay func w in
     r.1 = Ok (Some a)
     /\ sent r.2 = sent w + S k
     /\ slept r.2 = slept w ++ repeat delay k)
  /\ (0 < max_retries ->
      (forall j, j < max_retries ->
                 exists e, answer (responses w (sent w + j)) = Raise e) ->
      let r := retry_on_failure name max_retries delay func w in
      (exists e, answer (responses w (sent w + (max_retries - 1))) = Raise e
                 /\ r.1 = Raise e)
      /\ sent r.2 = sent w + max_retries
      /\ slept r.2 = slept w ++ repeat delay (max_retries - 1))
  /\ (max_retries = 0 ->
      retry_on_failure name max_retries delay func w = (Ok None, w)).
Proof.
  intros Hready. split; [|split].
  - intros k a Hk Hfail Hok. unfold retry_on_failure.
    apply retry_loop_success; auto.
  - intros Hpos Hfail. unfold retry_on_failure.
    destruct (retry_loop_exhausted max_retries w Hready Hpos (le_n _) Hfail)
      as (H1 & [e He] & H3 & H4).
    split; [|split; assumption].
    exists e. split; [|exact He].
    rewrite He in H1.
    destruct (answer (responses w (sent w + (max_retries - 1))));
      simpl in H1; congruence.
  - intros ->. reflexivity.
Qed.
End Retry.

(** ** [fetch_data] *)

Definition has_token (w : World) : Prop := auth_header w <> None.

Lemma fetch_data_body_step (w : World) :
  has_token w ->
  (fetch_data_body w).1 = (Some <$> response_elements (responses w (sent w)))
  /\ responses (fetch_data_body w).2 = responses w
  /\ sent (fetch_data_body w).2 = S (sent w)
  /\ slept (fetch_data_body w).2 = slept w
  /\ has_token (fetch_data_body w).2.
Proof.
  unfold has_token, fetch_data_body. intros H.
  destruct (auth_header w) as [h|] eqn:Hh; [|congruence].
  simpl. rewrite Hh. repeat split. discriminate.
Qed.

Lemma has_token_after_retry (w : World) (ev : log_event) (delay : nat) :
  has_token w -> has_token (sleep delay (emit ev w)).
Proof. exact id. Qed.

Lemma fmap_Some_Raise {A} (r : result A) (e : exn) :
  (Some <$> r) = Raise e <-> r = Raise e.
Proof. destruct r; simpl; split; congruence. Qed.

Definition elements_body (elements : value) : option value :=
  Some (VObj (FCons "elements" elements FNil)).

(** An authenticated client whose first request gets [first] and every
    later one [later]. *)
Definition fetch_world (first later : http_outcome) : World :=
  mkWorld ∅ "20250101" (Some (Bearer (VStr "abc")))
          (fun n => match n with 0 => first | _ => later end)
          0 [] (fun _ => false) [] ∅ [].

Lemma retry_on_failure_policy_witness :
  (retry_on_failure "fetch_data" 3 1 fetch_data_body
     (fetch_world (Fails "timeout")
                  (Responds 200 (elements_body (VArr INil))))).1
  = Ok (Some (Some (VArr INil)))
  /\ slept (retry_on_failure "fetch_data" 3 1 fetch_data_body
              (fetch_world (Fails "timeout")
                           (Responds 200 (elements_body (VArr INil))))).2
     = [1].
Proof.
  destruct (retry_on_failure_policy "fetch_data" 3 1 fetch_data_body
              (fun o => Some <$> response_elements o) has_token
              (fun w ev => has_token_after_retry w ev 1)
              fetch_data_body_step
              (fetch_world (Fails "timeout")
                           (Responds 200 (elements_body (VArr INil)))))
    as (Hok & _).
  - discriminate.
  - destruct (Hok 1 (Some (VArr INil))) as (H1 & _ & H3).
    + lia.
    + intros j Hj. assert (j = 0) as -> by lia.
      exists (ConnectionError "timeout"). reflexivity.
    + reflexivity.
    + split; [exact H1 | exact H3].
Defined.

(** X2: [fetch_data]: before a successful login it returns [None] at once,
    with no request, retry or sleep.  With a token stored, the first of at
    most three requests that does not raise gives the returned elements,
    after one second of sleep per failed request; when all three raise,
    the third exception is re-raised after three requests and two sleeps.
    A body without an [elements] key gives the empty list. *)
Theorem fetch_data_outcomes (w : World) :
  (auth_header w = None -> fetch_data w = (Ok (Some None), w))
  /\ (auth_header w <> None ->
      (forall k elements,
         k < 3 ->
         (forall j, j < k ->
            exists e, response_elements (responses w (sent w + j)) = Raise e) ->
         response_elements (responses w (sent w + k)) = Ok elements ->
         (fetch_data w).1 = Ok (Some (Some elements))
         /\ sent (fetch_data w).2 = sent w + S k
         /\ slept (fetch_data w).2 = slept w ++ repeat 1 k)
      /\ ((forall j, j < 3 ->
             exists e, response_elements (responses w (sent w + j)) = Raise e) ->
          (exists e, response_elements (responses w (sent w + 2)) = Raise e
                     /\ (fetch_data w).1 = Raise e)
          /\ sent (fetch_data w).2 = sent w + 3
          /\ slept (fetch_data w).2 = slept w ++ [1; 1]))
  /\ (forall status o,
        raise_for_status status = Ok tt ->
        fields_get "elements" o = None ->
        response_elements (Responds status (Some (VObj o))) = Ok (VArr INil)).
Proof.
  split; [|split].
  - intros H. unfold fetch_data, retry_on_failure, retry_loop, fetch_data_body.
    rewrite H. reflexivity.
  - intros Hh. split.
    + intros k elements Hk Hbefore Hnow.
      apply (retry_loop_success "fetch_data" 3 1 fetch_data_body
               (fun o => Some <$> response_elements o) has_token
               (fun w ev => has_token_after_retry w ev 1)
               fetch_data_body_step k 3 w (Some elements) Hh Hk (le_n _)).
      * intros j Hj. destruct (Hbefore j Hj) as [e He]. exists e.
        apply (proj2 (fmap_Some_Raise _ _)). exact He.
      * rewrite Hnow. reflexivity.
    + intros Hall.
      destruct (retry_loop_exhausted "fetch_data" 3 1 fetch_data_body
                  (fun o => Some <$> response_elements o) has_token
                  (fun w ev => has_token_after_retry w ev 1)
                  fetch_data_body_step 3 w Hh ltac:(lia) (le_n _))
        as (H1 & [e He] & Hs & Hz).
      * intros j Hj. destruct (Hall j Hj) as [e He]. exists e.
        apply (proj2 (fmap_Some_Raise _ _)). exact He.
      * split; [|split; assumption].
        exists e. split; [|exact He].
        unfold fetch_data, retry_on_failure. cbv zeta in H1.
        rewrite He in H1. simpl (3 - 1) in H1.
        destruct (response_elements (responses w (sent w + 2)));
          simpl in H1; congruence.
  - intros status o Hst Hno. simpl. rewrite Hst, Hno. reflexivity.
Qed.

Lemma fetch_data_outcomes_witness :
  (fetch_data (fetch_world (Fails "timeout") (Responds 503 None))).1
  = Raise (HTTPError 503)
  /\ sent (fetch_data (fetch_world (Fails "timeout") (Responds 503 None))).2
     = 3.
Proof.
  destruct (fetch_data_outcomes
              (fetch_world (Fails "timeout") (Responds 503 None)))
    as (_ & Hauth & _).
  destruct Hauth as (_ & Hfail); [discriminate|].
  destruct Hfail as ([e [He Hr]] & Hs & _).
  - intros j Hj. destruct j as [|j].
    + exists (ConnectionError "timeout"). reflexivity.
    + exists (HTTPError 503). destruct j; reflexivity.
  - cbv in He. injection He as <-. split; [exact Hr | exact Hs].
Defined.

(** ** Orchestrator: what a failed stage leads to *)




Definition configured_world (first : http_outcome) : World :=
  mkWorld {[ "EBP_USERNAME" := "svc"; "EBP_PASSWORD" := "secret";
             "EBP_BASE_URL" := "https://ebp.example";
             "EXPORT_BASE_PATH" := "/data" ]}
          "20250101" None (fun _ => first) 0 [] (fun _ => false) [] ∅ [].



Lemma set_loadDate_not_empty (df : DataFrame) (now : value) :
  rows df <> [] -> empty (set_column_scalar df "loadDate" now) = false.
Proof.
  intros Hrows. apply empty_false. split.
  - intros Hc.
    assert (Hin : "loadDate" ∈ columns (set_column_scalar df "loadDate" now))
      by (apply set_column_columns; auto).
    rewrite Hc in Hin. apply elem_of_nil in Hin. exact Hin.
  - intros Hr. apply (f_equal (@length _)) in Hr.
    unfold set_column_scalar in Hr.
    rewrite set_column_rows_length in Hr.
    destruct (rows df); [congruence | discriminate].
Qed.

(** X4: One turn of the fetch loop absorbs every exception: it never raises; a
    fetch that fails after its retries and a transformation that raises
    both leave the empty table.  So a meters payload whose records have no
    [billableTo] gives an empty meters table, not an error. *)
Theorem load_table_absorbs_errors
    (transformation : DataFrame -> result DataFrame) (now : value)
    (w : World) :
  (forall e, (load_table transformation now w).1 <> Raise e)
  /\ (forall e, (fetch_data w).1 = Raise e ->
        (load_table transformation now w).1 = Ok (Some empty_frame))
  /\ (forall data df e,
        (fetch_data w).1 = Ok (Some (Some data)) ->
        frame_of_payload data = Ok df ->
        transformation (set_column_scalar df "loadDate" now) = Raise e ->
        (load_table transformation now w).1 = Ok (Some empty_frame))
  /\ (forall data df,
        (fetch_data w).1 = Ok (Some (Some data)) ->
        frame_of_payload data = Ok df ->
        rows df <> [] ->
        "billableTo" ∉ columns df ->
        (load_table transform_meters now w).1 = Ok (Some empty_frame)).
Proof.
  assert (Htr : forall tr data df e,
             (fetch_data w).1 = Ok (Some (Some data)) ->
             frame_of_payload data = Ok df ->
             tr (set_column_scalar df "loadDate" now) = Raise e ->
             (load_table tr now w).1 = Ok (Some empty_frame)).
  { intros tr data df e Hf Hdf He. unfold load_table.
    destruct (fetch_data w) as [r w1]. cbn [fst] in Hf. subst r.
    rewrite Hdf. cbn [mbind result_bind]. rewrite He. reflexivity. }
  split; [|split; [|split]].
  - intros e. unfold load_table.
    destruct (fetch_data w) as [[[[data|]|]| |] w1]; try discriminate.
    destruct (frame_of_payload data ≫= _); discriminate.
  - intros e He. unfold load_table.
    destruct (fetch_data w) as [r w1]. cbn [fst] in He. subst r. reflexivity.
  - apply Htr.
  - intros data df Hf Hdf Hrows Hno.
    apply (Htr transform_meters data df (KeyError "billableTo") Hf Hdf).
    apply transform_meters_raises.
    + apply set_loadDate_not_empty. exact Hrows.
    + unfold set_column_scalar. rewrite set_column_columns.
      intros [[=]|Hin]. exact (Hno Hin).
Qed.

Lemma load_table_absorbs_errors_witness :
  (load_table transform_meters (VTime (Date 2025 1 1))
     (fetch_world
        (Responds 200
           (elements_body (VArr (ICons (VObj (FCons "id" (VNum 7) FNil)) INil))))
        (Fails "unused"))).1
  = Ok (Some empty_frame).
Proof.
  destruct (load_table_absorbs_errors transform_meters (VTime (Date 2025 1 1))
              (fetch_world
                 (Responds 200
                    (elements_body
                       (VArr (ICons (VObj (FCons "id" (VNum 7) FNil)) INil))))
                 (Fails "unused")))
    as (_ & _ & _ & H).
  eapply H.
  - reflexivity.
  - reflexivity.
  - discriminate.
  - apply col_index_None. reflexivity.
Defined.

(** ** Cross-linker: the unguarded key and repeated building ids *)






(** X6: The guard of the cross-linker asks the buildings table for [areaId]
    only: a buildings table without a [buildingId] column passes it, and
    the linking raises [KeyError]. *)
Theorem cross_link_needs_building_key (dfu dfb : DataFrame) :
  empty dfu = false ->
  empty dfb = false ->
  "buildingId" ∈ columns dfu ->
  "areaId" ∈ columns dfb ->
  "buildingId" ∉ columns dfb ->
  cross_link dfu dfb = Raise (KeyError "buildingId").
Proof.
  intros Hu Hb Hcu Ha Hno. unfold cross_link. rewrite Hu, Hb.
  rewrite (proj2 (has_column_true dfu "buildingId") Hcu).
  rewrite (proj2 (has_column_true dfb "areaId") Ha).
  cbn [negb andb]. rewrite (get_column_absent dfb "buildingId" Hno).
  reflexivity.
Qed.

Lemma cross_link_needs_building_key_witness :
  cross_link units_fixture (mkDF [ "id"; "areaId" ] [ [ VStr "B1"; VStr "A1" ] ])
  = Raise (KeyError "buildingId").
Proof.
  apply cross_link_needs_building_key; try reflexivity.
  - apply (bool_decide_unpack _). vm_compute. exact I.
  - apply (bool_decide_unpack _). vm_compute. exact I.
  - apply col_index_None. reflexivity.
Defined.

(** ** Filter stage: rows are only ever removed *)

(** [out] is [df] with some rows left out: same labels, same cells, same
    order. *)
Definition rows_removed (df out : DataFrame) : Prop :=
  columns out = columns df /\ sublist (rows out) (rows df).

Lemma select_mask_sublist {A} (mask : list bool) (xs : list A) :
  sublist (select_mask mask xs) xs.
Proof.
  revert xs. induction mask as [|b mask IH]; intros [|x xs]; simpl;
    try apply sublist_nil_l.
  destruct b; [apply sublist_skip | apply sublist_cons]; apply IH.
Qed.

Lemma rows_removed_refl (df : DataFrame) : rows_removed df df.
Proof. split; reflexivity. Qed.

Lemma apply_data_filters_rows_removed (df out : DataFrame)
    (filter_words : list string) (column_name : string) :
  apply_data_filters df filter_words column_name = Ok out ->
  rows_removed df out.
Proof.
  unfold apply_data_filters.
  destruct (empty df || negb (has_column df column_name)).
  - intros [= <-]. apply rows_removed_refl.
  - intros H. apply bind_Ok in H as (names & _ & H).
    apply bind_Ok in H as (mask & _ & H). injection H as <-.
    split; [reflexivity | apply select_mask_sublist].
Qed.

Lemma filter_by_area_rows_removed (valid : list value) (df out : DataFrame) :
  filter_by_area valid df = Ok out -> rows_removed df out.
Proof.
  unfold filter_by_area.
  destruct (negb (empty df) && has_column df "areaId").
  - intros H. apply bind_Ok in H as (ids & _ & H). injection H as <-.
    split; [reflexivity | apply select_mask_sublist].
  - intros [= <-]. apply rows_removed_refl.
Qed.

(** X7: Whatever the filter words and the tables, a filter stage that returns
    has only left rows out: each of the four tables keeps its labels, and
    its rows are a subsequence of the rows it had, none added, altered or
    reordered. *)
Theorem filter_stage_only_removes_rows (filter_words : list string)
    (t out : Tables) :
  filter_stage filter_words t = Ok out ->
  rows_removed (areas t) (areas out)
  /\ rows_removed (contracts t) (contracts out)
  /\ rows_removed (utility_units t) (utility_units out)
  /\ rows_removed (buildings t) (buildings out).
Proof.
  unfold filter_stage. intros H.
  apply bind_Ok in H as (dfa & Ha & H).
  apply apply_data_filters_rows_removed in Ha.
  destruct (negb (empty dfa)).
  - apply bind_Ok in H as (valid & _ & H).
    apply bind_Ok in H as (dfc & Hc & H).
    apply bind_Ok in H as (dfu & Hu & H).
    apply bind_Ok in H as (dfb & Hb & H).
    injection H as <-. cbn [areas contracts utility_units buildings].
    split; [exact Ha|].
    split; [exact (filter_by_area_rows_removed _ _ _ Hc)|].
    split; [exact (filter_by_area_rows_removed _ _ _ Hu)|].
    exact (filter_by_area_rows_removed _ _ _ Hb).
  - injection H as <-. cbn [areas contracts utility_units buildings].
    split; [exact Ha|]. repeat split; reflexivity.
Qed.

Lemma filter_stage_only_removes_rows_witness :
  rows_removed contracts_fixture
    (mkDF [ "contractId"; "areaId" ] [ [ VStr "C1"; VStr "A1" ] ]).
Proof.
  refine (proj1 (proj2 (filter_stage_only_removes_rows ["delete"]
    (mkTables areas_fixture contracts_fixture empty_frame empty_frame)
    (mkTables
       (mkDF [ "areaId"; "areaName" ] [ [ VStr "A1"; VStr "Main" ] ])
       (mkDF [ "contractId"; "areaId" ] [ [ VStr "C1"; VStr "A1" ] ])
       empty_frame empty_frame) _))).
  vm_compute. reflexivity.
Defined.

Lemma filter_idem {A} (p : A -> bool) (l : list A) :
  List.filter p (List.filter p l) = List.filter p l.
Proof.
  apply filter_all_true. intros x Hx. apply filter_In in Hx. tauto.
Qed.

Lemma Forall_forallb_cells (p : value -> bool) (vs : list value) :
  forallb p vs = true -> Forall (fun v => p v = true) vs.
Proof.
  induction vs as [|v vs IH]; simpl; [constructor|].
  intros H. apply andb_true_iff in H as [Hv Hvs]. constructor; auto.
Qed.

(** X8: Filtering twice is filtering once: the denylist filter returns its own
    output unchanged. *)
Theorem apply_data_filters_idempotent (df out : DataFrame)
    (filter_words : list string) (column_name : string) :
  apply_data_filters df filter_words column_name = Ok out ->
  apply_data_filters out filter_words column_name = Ok out.
Proof.
  intros H. pose proof H as H0. unfold apply_data_filters in H.
  destruct (empty df || negb (has_column df column_name)) eqn:G.
  - injection H as <-. exact H0.
  - apply orb_false_iff in G as [_ Hhas].
    apply negb_false_iff, has_column_true, col_index_elem in Hhas as [i Hi].
    unfold get_column in H. rewrite Hi in H. cbn [mbind result_bind] in H.
    unfold str_contains in H.
    destruct (re_compile (join "|" filter_words)) as [branches|] eqn:Hre;
      [|discriminate].
    destruct (forallb is_str_or_null (map (cell i) (rows df))) eqn:Hcells;
      [|discriminate].
    clear H.
    assert (Hall : Forall (fun r => is_str_or_null (cell i r) = true) (rows df)).
    { apply Forall_forallb_cells in Hcells.
      apply Forall_map in Hcells. exact Hcells. }
    rewrite (apply_data_filters_compiled df filter_words column_name
               branches i Hre Hi Hall) in H0.
    injection H0 as <-.
    set (kept := List.filter _ (rows df)).
    rewrite (apply_data_filters_compiled (mkDF (columns df) kept) filter_words
               column_name branches i Hre Hi).
    + cbn [columns rows]. unfold kept. rewrite filter_idem. reflexivity.
    + cbn [rows]. unfold kept. apply List.Forall_forall. intros r Hr.
      apply filter_In in Hr as [Hr _].
      exact (proj1 (List.Forall_forall _ _) Hall r Hr).
Qed.

Lemma apply_data_filters_idempotent_witness :
  apply_data_filters
    (mkDF [ "areaId"; "areaName" ] [ [ VStr "A1"; VStr "Main" ] ])
    ["delete"; "geloescht"] "areaName"
  = Ok (mkDF [ "areaId"; "areaName" ] [ [ VStr "A1"; VStr "Main" ] ]).
Proof.
  apply (apply_data_filters_idempotent areas_fixture).
  vm_compute. reflexivity.
Defined.

(** ** Transformers: rows kept, contract columns whitelisted *)

Lemma set_column_present_columns (df : DataFrame) (col : string)
    (vs : list value) :
  col ∈ columns df -> columns (set_column df col vs) = columns df.
Proof.
  intros H. apply col_index_elem in H as [i Hi].
  unfold set_column. rewrite Hi. reflexivity.
Qed.

Lemma map_column_shape (f : value -> value) (col : string)
    (df out : DataFrame) :
  map_column f col df = Ok out ->
  columns out = columns df /\ length (rows out) = length (rows df).
Proof.
  unfold map_column. intros H. apply bind_Ok in H as (vs & Hvs & H).
  injection H as <-. split.
  - apply set_column_present_columns. exact (get_column_Ok_elem _ _ _ Hvs).
  - apply set_column_rows_length.
Qed.

Lemma parse_date_columns_shape (date_cols : list string) (df out : DataFrame) :
  parse_date_columns date_cols df = Ok out ->
  columns out = columns df /\ length (rows out) = length (rows df).
Proof.
  revert df. induction date_cols as [|c cs IH]; intros df; cbn [parse_date_columns].
  - intros [= <-]. split; reflexivity.
  - intros H. apply bind_Ok in H as (df' & Hdf' & H).
    apply IH in H as [Hc Hr].
    destruct (has_column df c).
    + apply map_column_shape in Hdf' as [Hc' Hr']. split; congruence.
    + injection Hdf' as <-. split; assumption.
Qed.

Lemma safe_drop_columns_rows_length (df : DataFrame) (l : list string) :
  length (rows (safe_drop_columns df l)) = length (rows df).
Proof.
  unfold safe_drop_columns. destruct (List.filter _ l); [reflexivity|].
  unfold drop. cbn [rows]. apply length_map.
Qed.

Lemma filter_sublist {A} (p : A -> bool) (l : list A) :
  sublist (List.filter p l) l.
Proof.
  induction l as [|x l IH]; simpl; [constructor|].
  destruct (p x); [apply sublist_skip | apply sublist_cons]; exact IH.
Qed.

Lemma contracts_untouched_product : untouched contracts_mapping "productName".
Proof. solve_untouched contracts_mapping. Qed.

(** The label a contracts column has after the renaming. *)
Definition contract_label (c : string) : string :=
  default c (contracts_mapping !! c).

Lemma contracts_prefix_shape (df df3 : DataFrame) :
  ((if has_column df "product" then map_product df
    else Ok (set_column_scalar df "productName" VNull))
     ≫= fun df1 =>
          let df2 := safe_rename_columns df1 contracts_mapping in
          project df2 (available_columns df2 required_columns)) = Ok df3 ->
  length (rows df3) = length (rows df)
  /\ sublist (columns df3) required_columns
  /\ forall c, c ∈ columns df3 <->
       c ∈ required_columns
       /\ (c = "productName"
           \/ exists c0, c0 ∈ columns df /\ contract_label c0 = c).
Proof.
  intros H. apply bind_Ok in H as (df1 & H1 & H).
  assert (Hdf1 : exists xs, df1 = set_column df "productName" xs).
  { destruct (has_column df "product").
    - unfold map_product in H1. apply bind_Ok in H1 as (vs & _ & H1).
      injection H1 as <-. eauto.
    - injection H1 as <-. unfold set_column_scalar. eauto. }
  destruct Hdf1 as [xs ->]. cbv zeta in H.
  set (df2 := safe_rename_columns (set_column df "productName" xs)
                contracts_mapping) in H.
  destruct (project_available df2 required_columns)
    as (p & Hp & Hcols & Hlen & _).
  rewrite Hp in H. injection H as <-.
  split; [|split].
  - rewrite Hlen. unfold df2.
    rewrite safe_rename_columns_rows. apply set_column_rows_length.
  - rewrite Hcols. unfold available_columns.
    apply filter_sublist.
  - intros c. rewrite Hcols, available_columns_elem.
    apply and_iff_compat_l. unfold df2.
    rewrite safe_rename_columns_columns.
    change (map ?f ?l) with (f <$> l). rewrite list_elem_of_fmap.
    split.
    + intros (c0 & -> & Hc0). apply set_column_columns in Hc0 as [->|Hc0].
      * left. rewrite (proj1 contracts_untouched_product). reflexivity.
      * right. exists c0. split; [exact Hc0 | reflexivity].
    + intros [->|(c0 & Hc0 & <-)].
      * exists "productName". split.
        -- rewrite (proj1 contracts_untouched_product). reflexivity.
        -- apply set_column_columns. left. reflexivity.
      * exists c0. split; [reflexivity|].
        apply set_column_columns. right. exact Hc0.
Qed.

Lemma transform_contracts_shape (df out : DataFrame) :
  empty df = false ->
  transform_contracts df = Ok out ->
  length (rows out) = length (rows df)
  /\ sublist (columns out) required_columns
  /\ forall c, c ∈ columns out <->
       c ∈ required_columns
       /\ (c = "productName"
           \/ exists c0, c0 ∈ columns df /\ contract_label c0 = c).
Proof.
  intros Hne H. rewrite (transform_contracts_unfold df Hne) in H.
  apply bind_Ok in H as (df3 & H3 & H).
  apply bind_Ok in H as (df4 & H4 & H).
  apply contracts_prefix_shape in H3 as (Hlen & Hsub & Hcols).
  apply map_column_shape in H4 as [Hc4 Hr4].
  apply parse_date_columns_shape in H as [Hc Hr].
  rewrite Hc, Hc4, Hr, Hr4. auto.
Qed.

Lemma transform_meters_shape (df out : DataFrame) :
  transform_meters df = Ok out -> length (rows out) = length (rows df).
Proof.
  unfold transform_meters. destruct (empty df); [intros [= <-]; reflexivity|].
  intros H. apply bind_Ok in H as (df1 & H1 & H).
  apply map_column_shape in H1 as [_ Hr1].
  apply parse_date_columns_shape in H as [_ Hr].
  rewrite Hr, Hr1. rewrite safe_rename_columns_rows. reflexivity.
Qed.

(** ** Transformers: the records, cell by cell *)

Lemma zip_rows_map (g : list value -> value -> list value)
    (h : list value -> value) (rs : list (list value)) :
  zip_rows g rs (map h rs) = map (fun r => g r (h r)) rs.
Proof. induction rs as [|r rs IH]; simpl; [reflexivity|]. rewrite IH. reflexivity. Qed.

Lemma map_column_rows (f : value -> value) (col : string) (df : DataFrame)
    (i : nat) :
  col_index col (columns df) = Some i ->
  map_column f col df
  = Ok (mkDF (columns df)
          (map (fun r => set_nth i (f (cell i r)) r) (rows df))).
Proof.
  intros Hi. unfold map_column, get_column, set_column. rewrite Hi.
  cbn [mbind result_bind]. rewrite map_map.
  rewrite (zip_rows_map (fun r v => set_nth i v r) (fun r => f (cell i r))).
  reflexivity.
Qed.

Lemma select_cells_all (p : string -> bool) (cols : list string)
    (row : list value) :
  (forall c, In c cols -> p c = true) ->
  length row = length cols ->
  select_cells p cols row = row.
Proof.
  revert row. induction cols as [|c cs IH]; intros row Hp Hlen.
  - destruct row; [reflexivity | discriminate].
  - destruct row as [|v row]; [discriminate|].
    cbn [select_cells tl]. rewrite (Hp c) by (left; reflexivity).
    cbn [cell nth]. f_equal. apply IH.
    + intros c' Hc'. apply Hp. right. exact Hc'.
    + injection Hlen as Hlen. exact Hlen.
Qed.

Lemma safe_drop_columns_rows (df : DataFrame) (l : list string) :
  (forall r, In r (rows df) -> length r = length (columns df)) ->
  rows (safe_drop_columns df l)
  = map (select_cells (fun c => negb (bool_decide (c ∈ l))) (columns df))
        (rows df).
Proof.
  intros Hwf. unfold safe_drop_columns.
  destruct (List.filter _ l) as [|x xs] eqn:Hex.
  - symmetry. rewrite <- (map_id (rows df)) at 2.
    apply map_ext_in. intros r Hr. apply select_cells_all; [|apply Hwf, Hr].
    intros c Hc. apply negb_true_iff, bool_decide_eq_false. intros Hin.
    assert (Hx : In c (List.filter (fun c => bool_decide (c ∈ columns df)) l)).
    { apply filter_In. split; [apply list_elem_of_In; exact Hin|].
      apply bool_decide_eq_true, list_elem_of_In. exact Hc. }
    rewrite Hex in Hx. destruct Hx.
  - rewrite <- Hex. unfold drop. cbn [rows].
    apply map_ext. intros r. apply select_cells_ext. intros c Hc.
    f_equal. apply bool_decide_ext.
    rewrite !list_elem_of_In, filter_In, bool_decide_eq_true, list_elem_of_In.
    tauto.
Qed.

Lemma fmap_map_compose (f g : value -> value) (r : result (list value)) :
  (map g <$> (map f <$> r)) = (map (fun v => g (f v)) <$> r).
Proof. destruct r; simpl; [rewrite map_map|..]; reflexivity. Qed.

Lemma fmap_map_id (r : result (list value)) :
  (map (fun v => v) <$> r) = r.
Proof. destruct r; simpl; [rewrite map_id|..]; reflexivity. Qed.

(** The [productName] column the contracts transformer assigns. *)
Definition product_names (df : DataFrame) : list value :=
  match get_column df "product" with
  | Ok vs => map product_name vs
  | _ => map (fun _ => VNull) (rows df)
  end.

(** The contracts table once [productName] is assigned and the three
    labels are renamed, before the whitelist and the dates. *)
Definition contracts_labelled (df : DataFrame) : DataFrame :=
  safe_rename_columns (set_column df "productName" (product_names df))
    contracts_mapping.

(** What the contracts transformer does to a cell of column [c]. *)
Definition contract_cell (c : string) (v : value) : value :=
  if String.eqb c "endDate" then to_datetime (fillna (VStr sentinel) v)
  else if String.eqb c "startDate" then to_datetime v
  else v.

Lemma transform_contracts_cells (df out : DataFrame) :
  empty df = false ->
  transform_contracts df = Ok out ->
  forall c, c ∈ required_columns ->
    get_column out c
    = (map (contract_cell c) <$> get_column (contracts_labelled df) c).
Proof.
  intros Hne H c Hc. rewrite (transform_contracts_unfold df Hne) in H.
  apply bind_Ok in H as (df3 & H3 & H).
  apply bind_Ok in H3 as (df1 & H1 & H3). cbv zeta in H3.
  assert (Hdf1 : df1 = set_column df "productName" (product_names df)).
  { unfold product_names. destruct (has_column df "product") eqn:Hp.
    - unfold map_product in H1. apply bind_Ok in H1 as (vs & Hvs & H1).
      rewrite Hvs. injection H1 as <-. reflexivity.
    - injection H1 as <-. apply has_column_false, get_column_absent in Hp.
      rewrite Hp. reflexivity. }
  subst df1. fold (contracts_labelled df) in H3.
  destruct (project_available (contracts_labelled df) required_columns)
    as (p & Hp & _ & _ & Hget).
  rewrite Hp in H3. injection H3 as <-.
  apply bind_Ok in H as (df4 & H4 & H).
  destruct (parse_date_columns_get ["startDate"; "endDate"] df4)
    as (out' & Hout' & Hcols).
  { repeat constructor; rewrite ?elem_of_cons, ?elem_of_nil;
      intuition discriminate. }
  rewrite Hout' in H. injection H as <-.
  rewrite Hcols.
  assert (H4c : get_column df4 c
                = if String.eqb c "endDate"
                  then map (fillna (VStr sentinel)) <$> get_column p c
                  else get_column p c).
  { unfold map_column in H4. apply bind_Ok in H4 as (vs & Hvs & H4).
    injection H4 as <-.
    destruct (String.eqb_spec c "endDate") as [->|Hne'].
    - rewrite Hvs. cbn [fmap result_fmap].
      rewrite get_set_column_same; [reflexivity|].
      rewrite length_map. exact (get_column_length _ _ _ Hvs).
    - apply get_set_column_other. exact Hne'. }
  rewrite H4c, (Hget c Hc). unfold contract_cell.
  destruct (String.eqb_spec c "endDate") as [->|Hne1].
  - rewrite bool_decide_eq_true_2
      by (rewrite !elem_of_cons; auto).
    apply fmap_map_compose.
  - destruct (String.eqb_spec c "startDate") as [->|Hne2].
    + rewrite bool_decide_eq_true_2 by (rewrite !elem_of_cons; auto).
      reflexivity.
    + rewrite bool_decide_eq_false_2.
      * symmetry. apply fmap_map_id.
      * rewrite !elem_of_cons, elem_of_nil. tauto.
Qed.

Lemma transform_meters_cells (df out : DataFrame) :
  empty df = false ->
  transform_meters df = Ok out ->
  exists ito,
    col_index "billableTo" (columns df) = Some ito
    /\ forall k r, rows df !! k = Some r ->
         exists r',
           rows out !! k = Some r'
           /\ forall j,
                cell j r'
                = if Nat.eqb j ito
                  then to_datetime (fillna (VStr sentinel) (cell j r))
                  else if bool_decide
                            (col_index "billableFrom" (columns df) = Some j)
                  then to_datetime (cell j r)
                  else cell j r.
Proof.
  intros Hne H. rewrite (transform_meters_unfold df Hne) in H.
  apply bind_Ok in H as (df1 & H1 & H).
  set (df0 := safe_rename_columns df meters_mapping) in *.
  assert (Hto0 : col_index "billableTo" (columns df0)
                 = col_index "billableTo" (columns df))
    by (apply safe_rename_columns_index, meters_untouched_to).
  assert (Hfrom0 : col_index "billableFrom" (columns df0)
                   = col_index "billableFrom" (columns df))
    by (apply safe_rename_columns_index, meters_untouched_from).
  assert (Hrows0 : rows df0 = rows df) by apply safe_rename_columns_rows.
  destruct (col_index "billableTo" (columns df0)) as [ito|] eqn:Hito.
  2:{ unfold map_column in H1. apply bind_Ok in H1 as (vs & Hvs & _).
      unfold get_column in Hvs. rewrite Hito in Hvs. discriminate Hvs. }
  rewrite (map_column_rows _ _ _ ito Hito) in H1. injection H1 as <-.
  exists ito. split; [symmetry; exact Hto0|].
  cbn [parse_date_columns] in H.
  set (g1 := fun r => set_nth ito (fillna (VStr sentinel) (cell ito r)) r) in *.
  set (df1 := mkDF (columns df0) (map g1 (rows df0))) in *.
  assert (Hstep2 : exists g2,
             (forall r j, cell j (g2 r)
                          = if bool_decide
                                 (col_index "billableFrom" (columns df)
                                  = Some j)
                            then to_datetime (cell j r) else cell j r)
             /\ (if has_column df1 "billableFrom"
                 then map_column to_datetime "billableFrom" df1 else Ok df1)
                = Ok (mkDF (columns df0) (map g2 (rows df1)))).
  { destruct (col_index "billableFrom" (columns df0)) as [jf|] eqn:Hjf.
    - exists (fun r => set_nth jf (to_datetime (cell jf r)) r). split.
      + intros r j. rewrite <- Hfrom0.
        destruct (decide (jf = j)) as [->|Hd].
        * rewrite bool_decide_eq_true_2 by reflexivity.
          apply cell_set_nth_same.
        * rewrite bool_decide_eq_false_2 by congruence.
          apply cell_set_nth_other. exact Hd.
      + rewrite (proj2 (has_column_true df1 "billableFrom"))
          by (apply col_index_elem; cbn [columns df1]; eauto).
        exact (map_column_rows _ _ df1 jf Hjf).
    - exists (fun r => r). split.
      + intros r j. rewrite <- Hfrom0.
        rewrite bool_decide_eq_false_2 by discriminate. reflexivity.
      + rewrite (proj2 (has_column_false df1 "billableFrom"))
          by (apply col_index_None; exact Hjf).
        rewrite map_id. reflexivity. }
  destruct Hstep2 as (g2 & Hg2 & Hs2). rewrite Hs2 in H.
  cbn [mbind result_bind] in H.
  set (df2 := mkDF (columns df0) (map g2 (rows df1))) in *.
  rewrite (proj2 (has_column_true df2 "billableTo")) in H
    by (apply col_index_elem; cbn [columns df2]; eauto).
  rewrite (map_column_rows _ _ df2 ito Hito) in H.
  cbn [mbind result_bind] in H. injection H as <-.
  intros k r Hk. cbn [rows df2 df1]. rewrite Hrows0, !map_map.
  change (map ?f ?l) with (f <$> l). rewrite list_lookup_fmap, Hk.
  eexists. split; [reflexivity|]. intros j.
  destruct (Nat.eqb_spec j ito) as [->|Hd].
  - rewrite cell_set_nth_same, Hg2.
    rewrite bool_decide_eq_false_2.
    + unfold g1. rewrite cell_set_nth_same. reflexivity.
    + intros Hc. assert ("billableFrom" = "billableTo"); [|discriminate].
      eapply col_index_inj; [exact Hc | symmetry; exact Hto0].
  - rewrite cell_set_nth_other by congruence. rewrite Hg2.
    unfold g1. rewrite cell_set_nth_other by congruence. reflexivity.
Qed.

(** X9: No transformer drops, adds, reorders or rewrites records other than as
    follows.  The three that only rename return the rows they were given.
    The utility-units transformer returns each row without the cells of
    the two dropped columns.  The meters transformer returns each row with
    [billableTo] defaulted and parsed, [billableFrom] parsed, and every
    other cell as it was.  The contracts transformer returns, under each
    whitelisted label, the column the labelled table has under it, with
    [endDate] defaulted and parsed and [startDate] parsed. *)
Theorem transformers_keep_every_row (df : DataFrame) :
  rows (transform_areas df) = rows df
  /\ rows (transform_buildings df) = rows df
  /\ rows (transform_profiles df) = rows df
  /\ length (rows (transform_utility_units df)) = length (rows df)
  /\ (forall out, transform_meters df = Ok out ->
        length (rows out) = length (rows df))
  /\ (forall out, transform_contracts df = Ok out ->
        length (rows out) = length (rows df))
  /\ ((forall r, In r (rows df) -> length r = length (columns df)) ->
      rows (transform_utility_units df)
      = if empty df then rows df
        else map (select_cells
                    (fun c => negb (bool_decide
                                      (c ∈ ["participations";
                                            "participationObjects"])))
                    (columns df))
                 (rows df))
  /\ (forall out,
        empty df = false ->
        transform_meters df = Ok out ->
        exists ito,
          col_index "billableTo" (columns df) = Some ito
          /\ forall k r, rows df !! k = Some r ->
               exists r',
                 rows out !! k = Some r'
                 /\ forall j,
                      cell j r'
                      = if Nat.eqb j ito
                        then to_datetime (fillna (VStr sentinel) (cell j r))
                        else if bool_decide
                                  (col_index "billableFrom" (columns df)
                                   = Some j)
                        then to_datetime (cell j r)
                        else cell j r)
  /\ (forall out,
        empty df = false ->
        transform_contracts df = Ok out ->
        rows (contracts_labelled df)
        = rows (set_column df "productName" (product_names df))
        /\ forall c, c ∈ columns out ->
             c ∈ required_columns
             /\ get_column out c
                = (map (contract_cell c)
                     <$> get_column (contracts_labelled df) c)).
Proof.
  split; [|split; [|split; [|split; [|split; [|split; [|split; [|split]]]]]]].
  - unfold transform_areas. destruct (empty df); [reflexivity|].
    apply safe_rename_columns_rows.
  - unfold transform_buildings. destruct (empty df); [reflexivity|].
    apply safe_rename_columns_rows.
  - unfold transform_profiles. destruct (empty df); [reflexivity|].
    apply safe_rename_columns_rows.
  - unfold transform_utility_units. destruct (empty df); [reflexivity|].
    rewrite safe_rename_columns_rows. apply safe_drop_columns_rows_length.
  - apply transform_meters_shape.
  - intros out H. destruct (empty df) eqn:He.
    + unfold transform_contracts in H. rewrite He in H.
      injection H as <-. reflexivity.
    + exact (proj1 (transform_contracts_shape df out He H)).
  - intros Hwf. unfold transform_utility_units.
    destruct (empty df); [reflexivity|].
    rewrite safe_rename_columns_rows. apply safe_drop_columns_rows. exact Hwf.
  - intros out Hne H. exact (transform_meters_cells df out Hne H).
  - intros out Hne H. split.
    + unfold contracts_labelled. apply safe_rename_columns_rows.
    + intros c Hc.
      destruct (transform_contracts_shape df out Hne H) as (_ & _ & Hcols).
      apply Hcols in Hc as [Hreq _]. split; [exact Hreq|].
      exact (transform_contracts_cells df out Hne H c Hreq).
Qed.

(** X10: The contracts transformer returns the whitelisted columns only: its
    labels are those of the whitelist, in the order of the whitelist, that
    the renamed table has, [productName] always among them, so that a
    column such as [product] never leaves it. *)
Theorem transform_contracts_whitelist (df out : DataFrame) :
  empty df = false ->
  transform_contracts df = Ok out ->
  sublist (columns out) required_columns
  /\ (forall c, c ∈ columns out <->
        c ∈ required_columns
        /\ (c = "productName"
            \/ exists c0, c0 ∈ columns df /\ contract_label c0 = c))
  /\ "productName" ∈ columns out
  /\ "endDate" ∈ columns out
  /\ "product" ∉ columns out.
Proof.
  intros Hne H.
  destruct (transform_contracts_shape df out Hne H) as (_ & Hsub & Hcols).
  split; [exact Hsub|]. split; [exact Hcols|].
  split; [|split].
  - apply Hcols. split; [|left; reflexivity].
    unfold required_columns. rewrite !elem_of_cons. auto 10.
  - apply Hcols. split.
    + unfold required_columns. rewrite !elem_of_cons. auto 10.
    + right. exists "endDate". split; [|reflexivity].
      destruct (decide ("endDate" ∈ columns df)) as [Hin|Hno]; [exact Hin|].
      rewrite (transform_contracts_raises df Hne Hno) in H. discriminate.
  - intros Hin. apply Hcols in Hin as [Hreq _].
    unfold required_columns in Hreq.
    repeat (apply elem_of_cons in Hreq as [Hreq|Hreq]; [discriminate|]).
    apply elem_of_nil in Hreq. exact Hreq.
Qed.

Definition raw_contracts : DataFrame :=
  mkDF [ "id"; "name"; "product"; "endDate"; "internalNote" ]
       [ [ VStr "C1"; VStr "Haus A";
           VObj (FCons "name" (VStr "ZEV") FNil); VNull; VStr "x" ] ].

Lemma transform_contracts_whitelist_witness :
  exists out,
    transform_contracts raw_contracts = Ok out
    /\ columns out = [ "contractId"; "contractName"; "endDate"; "productName" ]
    /\ "product" ∉ columns out.
Proof.
  destruct (transform_contracts raw_contracts) as [out| |] eqn:H;
    try (vm_compute in H; discriminate).
  exists out. split; [reflexivity|].
  destruct (transform_contracts_whitelist raw_contracts out eq_refl H)
    as (_ & _ & _ & _ & Hno).
  split; [|exact Hno].
  vm_compute in H. injection H as <-. reflexivity.
Defined.

(** ** Exporter: what is on disk after a run *)

Lemma NoDup_names_unique {A} (l : list (string * A)) (n : string) (a b : A) :
  List.NoDup (map fst l) -> In (n, a) l -> In (n, b) l -> a = b.
Proof.
  induction l as [|[n0 d0] l IH]; intros Hnd Ha Hb; [destruct Ha|].
  simpl in Hnd. apply List.NoDup_cons_iff in Hnd as [Hn0 Hnd].
  destruct Ha as [[= -> ->]|Ha], Hb as [[= <-]|Hb]; auto.
  - exfalso. apply Hn0. apply (in_map fst) in Hb. exact Hb.
  - exfalso. apply Hn0. apply (in_map fst) in Ha. exact Ha.
Qed.

(** After the loop the file of a non-empty table holds that table when the
    table is configured and the write does not fail, and is as it was
    otherwise. *)
Lemma export_each_table (base_path : string) (subdirectories : list string)
    (dataframes : list (string * DataFrame)) (results : list (string * bool))
    (w : World) (table_name : string) (df : DataFrame) :
  List.NoDup (map fst dataframes) ->
  In (table_name, df) dataframes ->
  empty df = false ->
  disk (export_each base_path subdirectories dataframes results w).2
    !! csv_path base_path (today w) table_name
  = if bool_decide (table_name ∈ subdirectories)
       && negb (io_fails w (csv_path base_path (today w) table_name))
    then Some df
    else disk w !! csv_path base_path (today w) table_name.
Proof.
  intros Hnd Hin Hne. revert results w.
  induction dataframes as [|[n d] more IH]; intros results w; [destruct Hin|].
  pose proof Hnd as Hnd0.
  simpl in Hnd. apply List.NoDup_cons_iff in Hnd as [Hn Hnd].
  assert (Hrest : forall w1 res,
             today w1 = today w ->
             In (table_name, df) ((n, d) :: more) ->
             n = table_name ->
             disk (export_each base_path subdirectories more res w1).2
               !! csv_path base_path (today w) table_name
             = disk w1 !! csv_path base_path (today w) table_name).
  { intros w1 res Ht _ ->. apply export_each_disk.
    intros n' d' Hin' _ Heq. rewrite Ht in Heq.
    apply csv_path_inj in Heq. subst n'.
    apply Hn. apply (in_map fst) in Hin'. exact Hin'. }
  destruct Hin as [[= -> ->]|Hin]; cbn [export_each].
  - case_bool_decide as Hcfg; cbn [andb].
    + unfold export_dataframe_to_csv. rewrite Hne.
      destruct (io_fails w (csv_path base_path (today w) table_name)) eqn:Hio;
        cbn [negb].
      * rewrite Hrest; [reflexivity | reflexivity | left; reflexivity
                        | reflexivity].
      * rewrite Hrest; [| reflexivity | left; reflexivity | reflexivity].
        cbn [disk emit write_file]. apply lookup_insert_eq.
    + rewrite Hrest; [reflexivity | reflexivity | left; reflexivity
                      | reflexivity].
  - assert (Hdiff : n <> table_name).
    { intros ->. apply Hn. apply (in_map fst) in Hin. exact Hin. }
    destruct (bool_decide (n ∈ subdirectories)).
    + destruct (export_dataframe_to_csv d (csv_path base_path (today w) n) n w)
        as [success w1] eqn:Hex.
      pose proof (export_dataframe_to_csv_frame d
                    (csv_path base_path (today w) n) n w) as Hfr.
      rewrite Hex in Hfr. simpl in Hfr. destruct Hfr as (Ht & Hio & Hd).
      cbv beta iota zeta.
      specialize (IH Hnd Hin (dict_set n success results) w1).
      rewrite Ht, Hio in IH. rewrite IH.
      rewrite Hd; [reflexivity|].
      intros _ Heq. apply csv_path_inj in Heq. congruence.
    + specialize (IH Hnd Hin results (emit (LogNotConfigured n) w)).
      exact IH.
Qed.

(** A table name without a path separator: [Path(base) / name / file] then
    names a file of its own for each table. *)
Definition plain_name (table_name : string) : Prop :=
  string_exists (Ascii.eqb "/") table_name = false.

(** X11: With the base path set and the directories created, a run of the
    exporter completes whatever happens to the single files, and for each
    non-empty table it is given, the names being plain: the file
    [<base>/<table>/<date>_<table>.csv] holds that table when the table is
    configured and its write succeeds, and is left as it was when the table
    is not configured.  The outcome for one table does not depend on the
    others. *)
Theorem export_writes_configured_tables (dataframes : list (string * DataFrame))
    (w : World) (base_path table_name : string) (df : DataFrame) :
  env w !! "EXPORT_BASE_PATH" = Some base_path ->
  base_path <> "" ->
  (forall s, s ∈ configured_subdirectories w ->
             io_fails w (path_join base_path s) = false) ->
  List.NoDup (map fst dataframes) ->
  Forall plain_name (map fst dataframes) ->
  In (table_name, df) dataframes ->
  empty df = false ->
  let file_path := csv_path base_path (today w) table_name in
  exists w',
    export_all_data dataframes w = (Ok tt, w')
    /\ (table_name ∈ configured_subdirectories w ->
        io_fails w file_path = false ->
        disk w' !! file_path = Some df)
    /\ (table_name ∉ configured_subdirectories w ->
        disk w' !! file_path = disk w !! file_path).
Proof.
  intros Henv Hbase Hio Hnd _ Hin Hne file_path.
  unfold export_all_data. rewrite Henv.
  destruct base_path as [|c base_path]; [congruence|].
  set (base := String c base_path) in *.
  destruct (create_export_directories_ok base
              (configured_subdirectories w) w Hio)
    as (w1 & -> & Henv1 & Ht1 & Hio1 & Hd1 & Hl1).
  pose proof (export_each_table base (configured_subdirectories w)
                dataframes [] w1 table_name df Hnd Hin Hne) as Hfile.
  rewrite Ht1, Hio1, Hd1 in Hfile. fold file_path in Hfile.
  destruct (export_each base (configured_subdirectories w) dataframes [] w1)
    as [results w2].
  cbn [snd] in Hfile.
  eexists. split; [reflexivity|].
  assert (Hdisk : forall w3 : World,
             disk (match failed_exports results with
                   | [] => w3
                   | _ :: _ => emit (LogFailedExports (failed_exports results)) w3
                   end) = disk w3).
  { intros w3. destruct (failed_exports results); reflexivity. }
  rewrite Hdisk. cbn [disk emit]. rewrite Hfile.
  split.
  - intros Hcfg Hok. rewrite bool_decide_eq_true_2 by exact Hcfg.
    rewrite Hok. reflexivity.
  - intros Hcfg. rewrite bool_decide_eq_false_2 by exact Hcfg. reflexivity.
Qed.

Lemma export_writes_configured_tables_witness :
  exists w',
    export_all_data
      [ ("areas", mkDF ["areaId"] []);
        ("contracts", mkDF ["contractId"] [[VStr "C1"]]);
        ("audit", mkDF ["id"] [[VNum 1]]) ]
      (export_world (fun _ => false))
    = (Ok tt, w')
    /\ disk w' !! "/data/contracts/20250101_contracts.csv"
       = Some (mkDF ["contractId"] [[VStr "C1"]]).
Proof.
  destruct (export_writes_configured_tables
              [ ("areas", mkDF ["areaId"] []);
                ("contracts", mkDF ["contractId"] [[VStr "C1"]]);
                ("audit", mkDF ["id"] [[VNum 1]]) ]
              (export_world (fun _ => false))
              "/data" "contracts" (mkDF ["contractId"] [[VStr "C1"]]))
    as (w' & Hrun & Hok & _).
  - reflexivity.
  - discriminate.
  - reflexivity.
  - repeat constructor; simpl; intuition discriminate.
  - repeat constructor.
  - right. left. reflexivity.
  - reflexivity.
  - exists w'. split; [exact Hrun|]. apply Hok.
    + apply (bool_decide_unpack _). vm_compute. exact I.
    + reflexivity.
Defined.

Lemma create_export_directories_raises (base_path : string)
    (subdirectories : list string) (w w' : World) (r : result unit) :
  create_export_directories base_path subdirectories w = (r, w') ->
  disk w' = disk w
  /\ match r with
     | Ok _ => True
     | Raise e =>
         exists s, s ∈ subdirectories
                   /\ io_fails w (path_join base_path s) = true
                   /\ e = OSError (path_join base_path s)
     | Unmodelled => False
     end.
Proof.
  revert w. induction subdirectories as [|s more IH]; intros w;
    cbn [create_export_directories].
  - intros [= <- <-]. auto.
  - destruct (io_fails w (path_join base_path s)) eqn:Hio.
    + intros [= <- <-]. split; [reflexivity|].
      exists s. split; [apply list_elem_of_here | auto].
    + intros H. apply IH in H as [Hd Hr]. split; [exact Hd|].
      destruct r as [u|e|]; [exact I | | exact Hr].
      destruct Hr as (s' & Hs' & Hf & ->). exists s'.
      split; [apply list_elem_of_further; exact Hs' | auto].
Qed.

(** X12: A run of the exporter that raises has written no file: it raises
    either [ValueError], the base path being unset or empty, or the
    [OSError] of a directory that could not be created, in both cases
    before the first table is looked at. *)
Theorem export_all_data_raises_before_writing
    (dataframes : list (string * DataFrame)) (w w' : World) (e : exn) :
  export_all_data dataframes w = (Raise e, w') ->
  disk w' = disk w
  /\ ((default "" (env w !! "EXPORT_BASE_PATH") = ""
       /\ e = ValueError "EXPORT_BASE_PATH not set in environment variables")
      \/ exists base_path s,
           env w !! "EXPORT_BASE_PATH" = Some base_path
           /\ s ∈ configured_subdirectories w
           /\ io_fails w (path_join base_path s) = true
           /\ e = OSError (path_join base_path s)).
Proof.
  unfold export_all_data.
  destruct (env w !! "EXPORT_BASE_PATH") as [[|c base_path]|] eqn:Henv.
  - intros [= <- <-]. split; [reflexivity | left; auto].
  - set (base := String c base_path).
    destruct (create_export_directories base (configured_subdirectories w) w)
      as [r w1] eqn:Hdirs.
    apply create_export_directories_raises in Hdirs as [Hd Hr].
    destruct r as [u|e1|]; [| |destruct Hr].
    + destruct (export_each base (configured_subdirectories w) dataframes [] w1).
      discriminate.
    + intros [= <- <-]. split; [exact Hd|].
      destruct Hr as (s & Hs & Hf & ->). right. exists base, s. auto.
  - intros [= <- <-]. split; [reflexivity | left; auto].
Qed.

Lemma export_all_data_raises_before_writing_witness :
  disk (export_all_data [ ("areas", mkDF ["areaId"] [[VStr "A1"]]) ]
          (export_world (String.eqb "/data/areas"))).2
  = ∅.
Proof.
  refine (proj1 (export_all_data_raises_before_writing
                   [ ("areas", mkDF ["areaId"] [[VStr "A1"]]) ]
                   (export_world (String.eqb "/data/areas")) _
                   (OSError "/data/areas") _)).
  vm_compute. reflexivity.
Defined.

(** ** Manager fetcher *)

Definition manager_of (id : Z) (email first_name : string) : value :=
  VObj (FCons "id" (VNum id)
       (FCons "contact" (VObj (FCons "email" (VStr email)
                              (FCons "mobile" VNull FNil)))
       (FCons "address" (VObj (FCons "city" (VStr "Luzern") FNil))
       (FCons "personal" (VObj (FCons "firstName" (VStr first_name) FNil))
       (FCons "isBlocked" (VBool false) FNil))))).

Definition managers_payload : value :=
  VArr (ICons (manager_of 1 "zev@ckw.ch" "Zed")
       (ICons (manager_of 2 "anna@example.org" "Anna") INil)).

Definition one_contract : DataFrame :=
  mkDF [ "contractId"; "contractName"; "contractActiveState"; "productName";
         "areaName" ]
       [ [ VStr "C1"; VStr "Haus A"; VStr "ACTIVE"; VStr "ZEV"; VStr "Main" ] ].

Definition managers_world (answer : http_outcome) : World :=
  mkWorld ∅ "20250101" (Some (Bearer (VStr "abc"))) (fun _ => answer)
          0 [] (fun _ => false) [] ∅ [].

(** X13: The exclusion step removes exactly the rows whose [email] is
    ["zev@ckw.ch"] and keeps every other row, in order; and no table
    [get_managers] returns has a row with that address. *)
Theorem excluded_email_never_returned :
  (forall df i,
     col_index "email" (columns df) = Some i ->
     exists out,
       exclude_email df = Ok out
       /\ columns out = columns df
       /\ forall r, In r (rows out) <->
                    In r (rows df) /\ cell i r <> VStr excluded_email)
  /\ (forall contracts_df w out w',
        get_managers contracts_df w = (Ok out, w') ->
        forall i r, col_index "email" (columns out) = Some i ->
                    In r (rows out) -> cell i r <> VStr excluded_email).
Proof.
  split.
  - intros df i Hi. rewrite (exclude_email_exact df i Hi).
    eexists. split; [reflexivity|]. split; [reflexivity|].
    intros r. simpl. rewrite filter_In, negb_true_iff, bool_decide_eq_false.
    reflexivity.
  - intros contracts_df w out w' H i r Hi Hr.
    exact (get_managers_clean contracts_df out w w' H i r Hi Hr).
Qed.

Example get_managers_drops_placeholder :
  (get_managers one_contract
     (managers_world (Responds 200 (Some managers_payload)))).1
  = Ok (mkDF [ "contractId"; "contractName"; "contractActiveState";
               "productName"; "areaName"; "firstName"; "mobile"; "email";
               "city" ]
             [ [ VStr "C1"; VStr "Haus A"; VStr "ACTIVE"; VStr "ZEV";
                 VStr "Main"; VStr "Anna"; VNull; VStr "anna@example.org";
                 VStr "Luzern" ] ]).
Proof. vm_compute. reflexivity. Qed.

Lemma row_get_present (cols : list string) (row : list value) (c : string) :
  c ∈ cols -> exists v, row_get cols row c = Ok v.
Proof.
  intros H. apply col_index_elem in H as [i Hi].
  unfold row_get. rewrite Hi. eauto.
Qed.

Lemma managers_loop_requests (cols : list string)
    (contract_rows : list (list value)) (managers : list DataFrame)
    (w : World) :
  "contractId" ∈ cols ->
  let r := managers_loop cols contract_rows managers w in
  (forall e, r.1 <> Raise e)
  /\ sent r.2 <= sent w + length contract_rows
  /\ (forall out, r.1 = Ok out -> sent r.2 = sent w + length contract_rows)
  /\ auth_header r.2 = auth_header w
  /\ disk r.2 = disk w
  /\ slept r.2 = slept w.
Proof.
  intros Hc. revert managers w.
  induction contract_rows as [|row more IH]; intros managers w; simpl.
  - repeat split; try discriminate; try lia.
  - destruct (row_get_present cols row "contractId" Hc) as [id ->].
    destruct (fetch_managers cols row (responses w (sent w)))
      as [[df|]| |]; simpl;
      try (match goal with
           | |- context [managers_loop cols more ?ms ?w1] =>
               destruct (IH ms w1) as (H1 & H2 & H3 & H4 & H5 & H6);
               simpl in *;
               repeat split;
               [ exact H1 | lia | intros out Ho; rewrite (H3 out Ho); lia
               | exact H4 | exact H5 | exact H6 ]
           end).
    repeat split; try discriminate; lia.
Qed.

(** X14: [get_managers] sends one request per contract and nothing else: with
    a [contractId] column it never raises (a failing contract is logged and
    skipped), a returned table has cost exactly one request per contract
    row, none for an empty contracts table, and the token and the files on
    disk are left alone. *)
Theorem get_managers_one_request_each (contracts_df : DataFrame) (w : World) :
  "contractId" ∈ columns contracts_df ->
  let r := get_managers contracts_df w in
  (forall e, r.1 <> Raise e)
  /\ (forall out, r.1 = Ok out ->
        sent r.2 = sent w + (if empty contracts_df then 0
                             else length (rows contracts_df)))
  /\ auth_header r.2 = auth_header w
  /\ disk r.2 = disk w.
Proof.
  intros Hc. unfold get_managers.
  destruct (empty contracts_df).
  { cbn [fst snd]. repeat split; try discriminate; try reflexivity.
    intros _ _. simpl. lia. }
  destruct (managers_loop_requests (columns contracts_df) (rows contracts_df)
              [] w Hc) as (H1 & _ & H3 & H4 & H5 & _).
  destruct (managers_loop (columns contracts_df) (rows contracts_df) [] w)
    as [[managers| |] w1] eqn:Hloop; cbn [fst snd] in H1, H3, H4, H5.
  - specialize (H3 managers eq_refl).
    destruct managers as [|m ms].
    + cbn [fst snd]. repeat split; try discriminate; simpl; auto.
    + destruct (project_available (concat_rows (m :: ms)) expected_columns)
        as (p & Hp & _).
      rewrite Hp. cbn [fst snd].
      repeat split; try discriminate; simpl; auto.
  - exfalso. exact (H1 e eq_refl).
  - cbn [fst snd]. repeat split; try discriminate; simpl; auto.
Qed.

Lemma get_managers_one_request_each_witness :
  sent (get_managers one_contract
          (managers_world (Fails "timeout"))).2 = 1
  /\ (get_managers one_contract (managers_world (Fails "timeout"))).1
     = Ok empty_frame.
Proof.
  assert (Hc : "contractId" ∈ columns one_contract)
    by (apply col_index_elem; eexists; reflexivity).
  destruct (get_managers_one_request_each one_contract
              (managers_world (Fails "timeout")) Hc)
    as (_ & Hs & _).
  split; [apply (Hs empty_frame)|]; vm_compute; reflexivity.
Defined.

(** X15: Without a [contractId] column [get_managers] raises [KeyError] at the
    first contract, before any request is sent. *)
Theorem get_managers_needs_contract_id (contracts_df : DataFrame) (w : World) :
  empty contracts_df = false ->
  "contractId" ∉ columns contracts_df ->
  get_managers contracts_df w = (Raise (KeyError "contractId"), w).
Proof.
  intros Hne Hc. unfold get_managers. rewrite Hne.
  apply empty_false in Hne as [_ Hrows].
  destruct (rows contracts_df) as [|row more]; [congruence|].
  apply col_index_None in Hc.
  assert (Hloop : managers_loop (columns contracts_df) (row :: more) [] w
                  = (Raise (KeyError "contractId"), w)).
  { cbn [managers_loop]. unfold row_get. rewrite Hc. reflexivity. }
  rewrite Hloop. reflexivity.
Qed.

Lemma get_managers_needs_contract_id_witness :
  get_managers (mkDF ["id"] [[VStr "C1"]]) (managers_world (Fails "timeout"))
  = (Raise (KeyError "contractId"), managers_world (Fails "timeout")).
Proof.
  apply get_managers_needs_contract_id; [reflexivity|].
  apply col_index_None. reflexivity.
Defined.

(** X16: The managers table has expected columns only, in the expected order:
    its labels are a subsequence of the seventeen expected ones, so that no
    other field of a manager record, flattened or not, is passed on. *)
Theorem get_managers_expected_columns (contracts_df out : DataFrame)
    (w w' : World) :
  get_managers contracts_df w = (Ok out, w') ->
  sublist (columns out) expected_columns
  /\ forall c, c ∈ columns out -> c ∈ expected_columns.
Proof.
  intros H.
  assert (Hsub : sublist (columns out) expected_columns).
  { unfold get_managers in H.
    destruct (empty contracts_df).
    { injection H as <- _. apply sublist_nil_l. }
    destruct (managers_loop (columns contracts_df) (rows contracts_df) [] w)
      as [[[|m ms]| |] w1]; try discriminate.
    - injection H as <- _. apply sublist_nil_l.
    - destruct (project_available (concat_rows (m :: ms)) expected_columns)
        as (p & Hp & Hcols & _).
      rewrite Hp in H. injection H as <- _. rewrite Hcols.
      apply filter_sublist. }
  split; [exact Hsub|].
  intros c Hc. exact (elem_of_sublist _ _ _ Hc Hsub).
Qed.

Lemma get_managers_expected_columns_witness :
  exists out w',
    get_managers one_contract
      (managers_world (Responds 200 (Some managers_payload))) = (Ok out, w')
    /\ sublist (columns out) expected_columns.
Proof.
  destruct (get_managers one_contract
              (managers_world (Responds 200 (Some managers_payload))))
    as [[out| |] w'] eqn:H; try (vm_compute in H; discriminate).
  exists out, w'. split; [reflexivity|].
  exact (proj1 (get_managers_expected_columns one_contract out _ w' H)).
Defined.

(** ** What a run leaves on disk *)

(** [w'] has the environment, the clock, the failing paths and the files
    of [w]. *)
Definition same_files (w w' : World) : Prop :=
  env w' = env w /\ today w' = today w /\ io_fails w' = io_fails w
  /\ disk w' = disk w.

Lemma same_files_refl (w : World) : same_files w w.
Proof. repeat split. Qed.

Lemma same_files_trans (w1 w2 w3 : World) :
  same_files w1 w2 -> same_files w2 w3 -> same_files w1 w3.
Proof.
  intros (H1 & H2 & H3 & H4) (H1' & H2' & H3' & H4').
  repeat split; congruence.
Qed.

Section RetryFrame.
Context {A : Type}.
Variable name : string.
Variables max_retries delay : nat.
Variable func : M A.

Hypothesis func_frame :
  forall w, same_files w (func w).2 /\ sent (func w).2 <= S (sent w).

Lemma retry_loop_frame (remaining : nat) (w : World) :
  let r := retry_loop name max_retries delay func remaining w in
  same_files w r.2 /\ sent r.2 <= sent w + remaining.
Proof.
  revert w. induction remaining as [|remaining' IH]; intros w;
    cbn [retry_loop].
  - cbn [snd]. split; [apply same_files_refl | lia].
  - destruct (func_frame w) as [Hd Hs].
    destruct (func w) as [[a|e|] w0]; cbn [snd] in Hd, Hs.
    + cbn [snd]. split; [exact Hd | lia].
    + destruct (Nat.eqb (max_retries - S remaining') (max_retries - 1)).
      * cbn [snd]. split; [exact Hd | cbn [sent emit]; lia].
      * set (w1 := sleep delay (emit _ w0)).
        destruct (IH w1) as [Hd1 Hs1].
        assert (Hw1 : same_files w0 w1 /\ sent w1 = sent w0)
          by (repeat split; reflexivity).
        destruct Hw1 as [Hdw Hsw].
        split; [|lia].
        exact (same_files_trans _ _ _ Hd (same_files_trans _ _ _ Hdw Hd1)).
    + cbn [snd]. split; [exact Hd | lia].
Qed.
End RetryFrame.

Lemma login_body_frame (w : World) :
  same_files w (login_body w).2 /\ sent (login_body w).2 <= S (sent w).
Proof.
  unfold login_body. cbn [http_request emit responses sent].
  destruct (request_token (responses w (sent w))) as [token|e|].
  - destruct (truthy token); repeat split; cbn; auto.
  - destruct (is_request_exception e); repeat split; cbn; auto.
  - repeat split; cbn; auto.
Qed.

Lemma fetch_data_body_frame (w : World) :
  same_files w (fetch_data_body w).2
  /\ sent (fetch_data_body w).2 <= S (sent w).
Proof.
  unfold fetch_data_body. destruct (auth_header w); repeat split; cbn; auto.
Qed.

Lemma ebp_init_frame (w : World) :
  same_files w (ebp_init w).2 /\ sent (ebp_init w).2 <= sent w + 3.
Proof.
  unfold ebp_init.
  destruct (default_limit_parses w);
    [|cbn; split; [apply same_files_refl | lia]].
  destruct (env_truthy _ _ && env_truthy _ _ && env_truthy _ _);
    [|cbn; split; [repeat split | lia]].
  pose proof (retry_loop_frame "login" 3 2 login_body login_body_frame 3
                (clear_auth_header w)) as H.
  cbv zeta in H. fold (retry_on_failure "login" 3 2 login_body) in H.
  change (retry_on_failure "login" 3 2 login_body) with login in H.
  destruct (login (clear_auth_header w)) as [[r|e|] w1]; exact H.
Qed.

Lemma load_table_frame (transformation : DataFrame -> result DataFrame)
    (now : value) (w : World) :
  let r := load_table transformation now w in
  (forall e, r.1 <> Raise e)
  /\ same_files w r.2 /\ sent r.2 <= sent w + 3.
Proof.
  unfold load_table.
  pose proof (retry_loop_frame "fetch_data" 3 1 fetch_data_body
                fetch_data_body_frame 3 w) as H.
  cbv zeta in H. fold (retry_on_failure "fetch_data" 3 1 fetch_data_body) in H.
  change (retry_on_failure "fetch_data" 3 1 fetch_data_body) with fetch_data in H.
  destruct (fetch_data w) as [[[[data|]|]|e|] w1]; cbn [fst snd] in *;
    try (split; [discriminate | exact H]).
  destruct (frame_of_payload data ≫= _); cbn [fst snd];
    (split; [discriminate | exact H]).
Qed.

Lemma load_tables_frame
    (specs : list (string * (DataFrame -> result DataFrame)))
    (now : string -> value) (w : World) :
  let r := load_tables specs now w in
  (forall e, r.1 <> Raise e)
  /\ (forall loaded, r.1 = Ok loaded -> map fst loaded = map fst specs)
  /\ same_files w r.2
  /\ sent r.2 <= sent w + 3 * length specs.
Proof.
  revert w. induction specs as [|[n tr] more IH]; intros w;
    cbn [load_tables length].
  - cbn [fst snd]. split; [discriminate|]. split.
    + intros loaded [= <-]. reflexivity.
    + split; [apply same_files_refl | lia].
  - destruct (load_table_frame tr (now n) w) as (Hr & Hd & Hs).
    destruct (load_table tr (now n) w) as [[t|e|] w1]; cbn [fst snd] in *.
    + destruct (IH w1) as (Hr1 & Hn1 & Hd1 & Hs1).
      pose proof (same_files_trans _ _ _ Hd Hd1) as Hd2.
      destruct (load_tables more now w1) as [[rest|e|] w2]; cbn [fst snd] in *.
      * split; [discriminate|]. split; [|split; [exact Hd2 | lia]].
        intros loaded [= <-]. cbn [map fst]. f_equal. apply Hn1. reflexivity.
      * exfalso. exact (Hr1 e eq_refl).
      * split; [discriminate|]. split; [discriminate|].
        split; [exact Hd2 | lia].
    + exfalso. exact (Hr e eq_refl).
    + split; [discriminate|]. split; [discriminate|]. split; [exact Hd | lia].
Qed.

Lemma managers_loop_frame (cols : list string)
    (contract_rows : list (list value)) (managers : list DataFrame)
    (w : World) :
  same_files w (managers_loop cols contract_rows managers w).2.
Proof.
  revert managers w.
  induction contract_rows as [|row more IH]; intros managers w;
    cbn [managers_loop]; [apply same_files_refl|].
  destruct (row_get cols row "contractId") as [id|e|];
    try apply same_files_refl.
  cbn [http_request].
  destruct (fetch_managers cols row (responses w (sent w))) as [[df|]|e|];
    try (eapply same_files_trans; [|apply IH]; repeat split).
  repeat split.
Qed.

Lemma get_managers_frame (contracts_df : DataFrame) (w : World) :
  same_files w (get_managers contracts_df w).2.
Proof.
  unfold get_managers. destruct (empty contracts_df); [repeat split|].
  pose proof (managers_loop_frame (columns contracts_df) (rows contracts_df)
                [] w) as H.
  destruct (managers_loop (columns contracts_df) (rows contracts_df) [] w)
    as [[[|m ms]|e|] w1]; cbn [snd] in H; try exact H.
  destruct (project _ _); exact H.
Qed.

Lemma export_all_data_raise_disk (dataframes : list (string * DataFrame))
    (w w' : World) (e : exn) :
  export_all_data dataframes w = (Raise e, w') -> disk w' = disk w.
Proof.
  unfold export_all_data.
  destruct (env w !! "EXPORT_BASE_PATH") as [[|c base_path]|].
  - intros [= _ <-]. reflexivity.
  - destruct (create_export_directories (String c base_path)
                (configured_subdirectories w) w) as [r w1] eqn:Hdirs.
    apply create_export_directories_raises in Hdirs as [Hd _].
    destruct r as [u|e1|]; [| |discriminate].
    + destruct (export_each _ _ dataframes [] w1). discriminate.
    + intros [= _ <-]. exact Hd.
  - intros [= _ <-]. reflexivity.
Qed.

(** X17: The fetch loop of [main] never raises, whatever the server answers and
    whatever the transformations do: each table ends up stored or skipped.
    It sends at most three requests per table and writes no file. *)
Theorem fetch_loop_never_raises
    (specs : list (string * (DataFrame -> result DataFrame)))
    (now : string -> value) (w : World) :
  let r := load_tables specs now w in
  (forall e, r.1 <> Raise e)
  /\ (forall loaded, r.1 = Ok loaded -> map fst loaded = map fst specs)
  /\ sent r.2 <= sent w + 3 * length specs
  /\ disk r.2 = disk w.
Proof.
  destruct (load_tables_frame specs now w) as (H1 & H2 & (_ & _ & _ & H3) & H4).
  repeat split; assumption.
Qed.

(** X18: A run of [main] that raises has written no file: the files appear only
    in the export, which is reached when every stage before it has
    returned, and which itself raises only before its first write. *)
Theorem main_raises_without_writing (now : string -> value) (w w' : World)
    (e : exn) :
  main now w = (Raise e, w') -> disk w' = disk w.
Proof.
  unfold main. intros H.
  destruct (ebp_init_frame w) as [(_ & _ & _ & Hd0) _].
  destruct (ebp_init w) as [[u|e0|] w0]; cbn [snd] in Hd0;
    [| injection H as _ <-; exact Hd0 | discriminate].
  destruct (load_tables_frame ebp_data now w0) as (_ & _ & (_ & _ & _ & Hd1) & _).
  destruct (load_tables ebp_data now w0) as [[loaded|e1|] w1];
    cbn [snd] in Hd1;
    [| injection H as _ <-; congruence | discriminate].
  destruct (link_and_filter (configured_filter_words w1) loaded)
    as [[[t dfm] dfp]|e2|];
    [| injection H as _ <-; congruence | discriminate].
  destruct (get_managers_frame (contracts t) w1) as (_ & _ & _ & Hd2).
  destruct (get_managers (contracts t) w1) as [[dfam|e3|] w2];
    cbn [snd] in Hd2;
    [| injection H as _ <-; congruence | discriminate].
  apply export_all_data_raise_disk in H. congruence.
Qed.

Lemma main_raises_without_writing_witness :
  disk (main (fun _ => VTime (Date 2025 1 1))
          (configured_world (Fails "offline"))).2
  = ∅.
Proof.
  refine (main_raises_without_writing (fun _ => VTime (Date 2025 1 1))
            (configured_world (Fails "offline")) _
            (ConnectionError "offline") _).
  vm_compute. reflexivity.
Defined.

(** ** What a completed run has exported *)

Lemma export_each_file (base_path : string) (subdirectories : list string)
    (dataframes : list (string * DataFrame)) (results : list (string * bool))
    (w : World) (table_name : string) (df : DataFrame) :
  List.NoDup (map fst dataframes) ->
  In (table_name, df) dataframes ->
  disk (export_each base_path subdirectories dataframes results w).2
    !! csv_path base_path (today w) table_name
  = if bool_decide (table_name ∈ subdirectories) && negb (empty df)
       && negb (io_fails w (csv_path base_path (today w) table_name))
    then Some df
    else disk w !! csv_path base_path (today w) table_name.
Proof.
  intros Hnd Hin. destruct (empty df) eqn:He.
  - rewrite andb_false_r. cbn [andb]. apply export_each_disk.
    intros n d Hn Hne Heq. apply csv_path_inj in Heq. subst n.
    rewrite (NoDup_names_unique dataframes table_name d df Hnd Hn Hin) in Hne.
    congruence.
  - rewrite andb_true_r.
    exact (export_each_table base_path subdirectories dataframes results w
             table_name df Hnd Hin He).
Qed.

Lemma create_export_directories_frame (base_path : string)
    (subdirectories : list string) (w w' : World) (r : result unit) :
  create_export_directories base_path subdirectories w = (r, w') ->
  same_files w w'.
Proof.
  revert w. induction subdirectories as [|s more IH]; intros w;
    cbn [create_export_directories].
  - intros [= _ <-]. apply same_files_refl.
  - destruct (io_fails w (path_join base_path s)).
    + intros [= _ <-]. apply same_files_refl.
    + intros H. apply IH in H.
      eapply same_files_trans; [|exact H]. repeat split.
Qed.

(** After a run of the exporter that returns, the file of a table it was
    given holds that table when the table is configured, not empty and
    written without error, and is as it was otherwise. *)
Lemma export_all_data_file (dataframes : list (string * DataFrame))
    (w w' : World) (base_path table_name : string) (df : DataFrame) :
  export_all_data dataframes w = (Ok tt, w') ->
  env w !! "EXPORT_BASE_PATH" = Some base_path ->
  List.NoDup (map fst dataframes) ->
  In (table_name, df) dataframes ->
  disk w' !! csv_path base_path (today w) table_name
  = if bool_decide (table_name ∈ configured_subdirectories w)
       && negb (empty df)
       && negb (io_fails w (csv_path base_path (today w) table_name))
    then Some df
    else disk w !! csv_path base_path (today w) table_name.
Proof.
  intros H Henv Hnd Hin. unfold export_all_data in H. rewrite Henv in H.
  destruct base_path as [|c base_path]; [discriminate|].
  set (base := String c base_path) in *.
  destruct (create_export_directories base (configured_subdirectories w) w)
    as [r w1] eqn:Hdirs.
  apply create_export_directories_frame in Hdirs as (_ & Ht & Hio & Hd).
  destruct r as [u|e|]; [|discriminate|discriminate].
  pose proof (export_each_file base (configured_subdirectories w)
                dataframes [] w1 table_name df Hnd Hin) as Hfile.
  rewrite Ht, Hio, Hd in Hfile.
  destruct (export_each base (configured_subdirectories w) dataframes [] w1)
    as [results w2].
  cbn [snd] in Hfile. injection H as <-.
  rewrite <- Hfile. destruct (failed_exports results); reflexivity.
Qed.

(** The stages a run of [main] that returns has gone through. *)
Lemma main_Ok_stages (now : string -> value) (w w' : World) :
  main now w = (Ok tt, w') ->
  exists loaded w1 t dfm dfp dfam w2,
    same_files w w1
    /\ link_and_filter (configured_filter_words w1) loaded = Ok (t, dfm, dfp)
    /\ get_managers (contracts t) w1 = (Ok dfam, w2)
    /\ same_files w w2
    /\ export_all_data
         [ ("areas", areas t); ("contracts", contracts t);
           ("buildings", buildings t); ("utility_units", utility_units t);
           ("meters", dfm);
           ("managers", set_column_scalar dfam "loadDate" (now "managers"));
           ("profiles", dfp) ] w2
       = (Ok tt, w').
Proof.
  unfold main. intros H.
  destruct (ebp_init_frame w) as [F0 _].
  destruct (ebp_init w) as [[u|e0|] w0]; cbn [snd] in F0; try discriminate.
  destruct (load_tables_frame ebp_data now w0) as (_ & _ & F1 & _).
  destruct (load_tables ebp_data now w0) as [[loaded|e1|] w1];
    cbn [snd] in F1; try discriminate.
  destruct (link_and_filter (configured_filter_words w1) loaded)
    as [[[t dfm] dfp]|e2|] eqn:Hlink; try discriminate.
  pose proof (get_managers_frame (contracts t) w1) as F2.
  destruct (get_managers (contracts t) w1) as [[dfam|e3|] w2] eqn:Hm;
    cbn [snd] in F2; try discriminate.
  pose proof (same_files_trans _ _ _ F0 F1) as F01.
  exists loaded, w1, t, dfm, dfp, dfam, w2.
  split; [exact F01|]. split; [exact Hlink|]. split; [exact Hm|].
  split; [exact (same_files_trans _ _ _ F01 F2) | exact H].
Qed.

Lemma exported_names_NoDup (a c b u m g p : DataFrame) :
  List.NoDup
    (map fst [ ("areas", a); ("contracts", c); ("buildings", b);
               ("utility_units", u); ("meters", m); ("managers", g);
               ("profiles", p) ]).
Proof.
  cbn [map fst].
  repeat (constructor; [cbn [In]; intuition discriminate|]). constructor.
Qed.

Lemma set_loadDate_email_clean (df : DataFrame) (now : value) :
  email_clean df -> email_clean (set_column_scalar df "loadDate" now).
Proof.
  apply email_clean_get.
  - unfold set_column_scalar. apply get_set_column_other. discriminate.
  - unfold set_column_scalar. apply set_column_rows_length.
Qed.

Lemma filter_stage_areas (filter_words : list string) (t out : Tables) :
  filter_stage filter_words t = Ok out ->
  apply_data_filters (areas t) filter_words "areaName" = Ok (areas out).
Proof.
  unfold filter_stage. intros H.
  apply bind_Ok in H as (dfa & Ha & H). rewrite Ha.
  destruct (negb (empty dfa)).
  - apply bind_Ok in H as (valid & _ & H).
    apply bind_Ok in H as (dfc & _ & H).
    apply bind_Ok in H as (dfu & _ & H).
    apply bind_Ok in H as (dfb & _ & H).
    injection H as <-. reflexivity.
  - injection H as <-. reflexivity.
Qed.

Lemma link_and_filter_areas (filter_words : list string)
    (loaded : list (string * option DataFrame)) (t : Tables)
    (dfm dfp : DataFrame) :
  link_and_filter filter_words loaded = Ok (t, dfm, dfp) ->
  exists dfa, apply_data_filters dfa filter_words "areaName" = Ok (areas t).
Proof.
  unfold link_and_filter. intros H.
  apply bind_Ok in H as (dfa & _ & H).
  apply bind_Ok in H as (dfb & _ & H).
  apply bind_Ok in H as (dfc & _ & H).
  apply bind_Ok in H as (dfu & _ & H).
  apply bind_Ok in H as (dfm' & _ & H).
  apply bind_Ok in H as (dfp' & _ & H).
  apply bind_Ok in H as (dfu' & _ & H).
  apply bind_Ok in H as (t' & Ht & H).
  injection H as -> _ _.
  exists dfa. exact (filter_stage_areas _ _ _ Ht).
Qed.

(** No row the denylist filter returns has a name containing a filter
    word. *)
Lemma apply_data_filters_kept (df out : DataFrame) (filter_words : list string)
    (column_name : string) :
  filter_words <> [] ->
  Forall literal_word filter_words ->
  apply_data_filters df filter_words column_name = Ok out ->
  forall i r s word,
    col_index column_name (columns out) = Some i ->
    In r (rows out) ->
    cell i r = VStr s ->
    In word filter_words ->
    contains (lower word) (lower s) = false.
Proof.
  intros Hne Hlit H i r s word Hi Hr Hs Hword.
  pose proof (re_compile_literal filter_words Hne Hlit) as Hre.
  unfold apply_data_filters in H.
  destruct (empty df || negb (has_column df column_name)) eqn:G.
  - injection H as <-.
    assert (Hhas : has_column df column_name = true)
      by (apply has_column_true, col_index_elem; eauto).
    rewrite Hhas, orb_false_r in G. unfold empty in G.
    destruct (columns df); [discriminate|].
    destruct (rows df); [destruct Hr | discriminate].
  - apply orb_false_iff in G as [_ Hhas].
    apply negb_false_iff, has_column_true, col_index_elem in Hhas as [j Hj].
    unfold get_column in H. rewrite Hj in H. cbn [mbind result_bind] in H.
    unfold str_contains in H. rewrite Hre in H.
    destruct (forallb is_str_or_null (map (cell j) (rows df))); [|discriminate].
    cbn [mbind result_bind] in H. injection H as <-.
    cbn [columns] in Hi. rewrite Hj in Hi. injection Hi as ->.
    cbn [rows] in Hr. rewrite !map_map, select_mask_filter in Hr.
    apply filter_In in Hr as [_ Hkeep]. rewrite Hs in Hkeep.
    apply negb_true_iff in Hkeep. cbn [contains_cell] in Hkeep.
    unfold re_search_ignorecase in Hkeep.
    destruct (contains (lower word) (lower s)) eqn:Hc; [|reflexivity].
    assert (Hex : existsb (fun b => contains (lower b) (lower s)) filter_words
                  = true)
      by (apply existsb_exists; eauto).
    congruence.
Qed.

Definition record (id name : string) (more : fields) : value :=
  VObj (FCons "id" (VStr id) (FCons "name" (VStr name) more)).

(** A server that grants a token and then answers the six bulk requests
    and every manager request. *)
Definition full_run_responses (n : nat) : http_outcome :=
  match n with
  | 0 => Responds 200 (token_body (VStr "abc"))
  | 1 => Responds 200 (elements_body (VArr
           (ICons (record "C1" "Haus A"
                     (FCons "activeState" (VStr "ACTIVE")
                     (FCons "endDate" VNull
                     (FCons "areaId" (VStr "A1")
                     (FCons "areaName" (VStr "Main")
                     (FCons "product"
                        (VObj (FCons "name" (VStr "ZEV") FNil)) FNil))))))
            INil)))
  | 2 => Responds 200 (elements_body (VArr
           (ICons (record "A1" "Main" FNil)
           (ICons (record "A2" "Geloescht 2023" FNil) INil))))
  | 3 => Responds 200 (elements_body (VArr
           (ICons (record "B1" "Block 1" (FCons "areaId" (VStr "A1") FNil))
           (ICons (record "B2" "Block 2" (FCons "areaId" (VStr "A2") FNil))
            INil))))
  | 4 => Responds 200 (elements_body (VArr
           (ICons (record "U1" "Unit 1" (FCons "buildingId" (VStr "B1") FNil))
           (ICons (record "U2" "Unit 2" (FCons "buildingId" (VStr "B2") FNil))
            INil))))
  | 5 => Responds 200 (elements_body (VArr
           (ICons (record "M1" "Meter 1" (FCons "billableTo" VNull FNil))
            INil)))
  | 6 => Responds 200 (elements_body (VArr
           (ICons (record "P1" "Profile 1" FNil) INil)))
  | _ => Responds 200 (Some managers_payload)
  end.

Definition full_run_world : World :=
  mkWorld {[ "EBP_USERNAME" := "svc"; "EBP_PASSWORD" := "secret";
             "EBP_BASE_URL" := "https://ebp.example";
             "EXPORT_BASE_PATH" := "/data" ]}
          "20250101" None full_run_responses 0 [] (fun _ => false) [] ∅ [].

Definition full_run_clock (table_name : string) : value :=
  VTime (Date 2025 1 1).

Example main_full_run :
  (main full_run_clock full_run_world).1 = Ok tt
  /\ sent (main full_run_clock full_run_world).2 = 8
  /\ disk (main full_run_clock full_run_world).2
       !! "/data/areas/20250101_areas.csv"
     = Some (mkDF [ "areaId"; "areaName"; "loadDate" ]
                  [ [ VStr "A1"; VStr "Main"; VTime (Date 2025 1 1) ] ])
  /\ disk (main full_run_clock full_run_world).2
       !! "/data/utility_units/20250101_utility_units.csv"
     = Some (mkDF [ "utilityUnitId"; "utilityUnitName"; "buildingId";
                    "loadDate"; "areaId" ]
                  [ [ VStr "U1"; VStr "Unit 1"; VStr "B1";
                      VTime (Date 2025 1 1); VStr "A1" ] ])
  /\ disk (main full_run_clock full_run_world).2
       !! "/data/managers/20250101_managers.csv"
     = Some (mkDF [ "contractId"; "contractName"; "contractActiveState";
                    "productName"; "areaName"; "firstName"; "mobile";
                    "email"; "city"; "loadDate" ]
                  [ [ VStr "C1"; VStr "Haus A"; VStr "ACTIVE"; VStr "ZEV";
                      VStr "Main"; VStr "Anna"; VNull;
                      VStr "anna@example.org"; VStr "Luzern";
                      VTime (Date 2025 1 1) ] ]).
Proof. vm_compute. repeat split. Qed.

(** X19: After a run of [main] that returns, the managers file is either
    the file that was there before, untouched, or a table in which no row
    has the excluded address: the placeholder account is never exported. *)
Theorem main_never_exports_excluded_manager (now : string -> value)
    (w w' : World) (base_path : string) (df : DataFrame) :
  main now w = (Ok tt, w') ->
  env w !! "EXPORT_BASE_PATH" = Some base_path ->
  disk w' !! csv_path base_path (today w) "managers" = Some df ->
  disk w !! csv_path base_path (today w) "managers" = Some df
  \/ (forall i r, col_index "email" (columns df) = Some i ->
                  In r (rows df) -> cell i r <> VStr excluded_email).
Proof.
  intros H Henv Hfile.
  apply main_Ok_stages in H
    as (loaded & w1 & t & dfm & dfp & dfam & w2 & _ & _ & Hm & F & Hexp).
  destruct F as (Fenv & Ftoday & Fio & Fdisk).
  rewrite <- Fenv in Henv. rewrite <- Ftoday, <- Fdisk in *.
  rewrite (export_all_data_file _ w2 w' base_path "managers"
             (set_column_scalar dfam "loadDate" (now "managers"))
             Hexp Henv (exported_names_NoDup _ _ _ _ _ _ _)) in Hfile
    by (cbn [In]; auto 10).
  destruct (_ && _ && _) in Hfile; [|left; exact Hfile].
  injection Hfile as <-. right.
  apply set_loadDate_email_clean.
  exact (get_managers_clean _ _ _ _ Hm).
Qed.

Lemma main_never_exports_excluded_manager_witness :
  exists df,
    disk (main full_run_clock full_run_world).2
      !! "/data/managers/20250101_managers.csv" = Some df
    /\ forall i r, col_index "email" (columns df) = Some i ->
                   In r (rows df) -> cell i r <> VStr excluded_email.
Proof.
  destruct (main full_run_clock full_run_world) as [r w'] eqn:H.
  assert (Hr : r = Ok tt) by (apply (f_equal fst) in H; vm_compute in H; congruence).
  subst r. cbn [snd].
  destruct (disk w' !! "/data/managers/20250101_managers.csv") as [df|] eqn:Hd.
  - exists df. split; [reflexivity|].
    destruct (main_never_exports_excluded_manager full_run_clock
                full_run_world w' "/data" df H eq_refl Hd) as [Hold|Hclean].
    + discriminate.
    + exact Hclean.
  - exfalso. apply (f_equal snd) in H. cbn [snd] in H. subst w'.
    vm_compute in Hd. discriminate.
Defined.

(** X20: After a run of [main] that returns, the filter words being free
    of regular-expression syntax, the areas file is either the file that was
    there before, untouched, or a table in which no area name contains a
    filter word, letter case ignored: a denylisted area is never
    exported. *)
Theorem main_never_exports_denylisted_area (now : string -> value)
    (w w' : World) (base_path : string) (df : DataFrame) :
  main now w = (Ok tt, w') ->
  env w !! "EXPORT_BASE_PATH" = Some base_path ->
  Forall literal_word (configured_filter_words w) ->
  disk w' !! csv_path base_path (today w) "areas" = Some df ->
  disk w !! csv_path base_path (today w) "areas" = Some df
  \/ (forall i r s word,
        col_index "areaName" (columns df) = Some i ->
        In r (rows df) ->
        cell i r = VStr s ->
        In word (configured_filter_words w) ->
        contains (lower word) (lower s) = false).
Proof.
  intros H Henv Hlit Hfile.
  apply main_Ok_stages in H
    as (loaded & w1 & t & dfm & dfp & dfam & w2 & F1 & Hlink & _ & F & Hexp).
  destruct F as (Fenv & Ftoday & Fio & Fdisk).
  assert (Hwords : configured_filter_words w1 = configured_filter_words w).
  { unfold configured_filter_words. destruct F1 as (-> & _). reflexivity. }
  rewrite Hwords in Hlink.
  rewrite <- Fenv in Henv. rewrite <- Ftoday, <- Fdisk in *.
  rewrite (export_all_data_file _ w2 w' base_path "areas" (areas t)
             Hexp Henv (exported_names_NoDup _ _ _ _ _ _ _)) in Hfile
    by (cbn [In]; auto 10).
  destruct (_ && _ && _) in Hfile; [|left; exact Hfile].
  injection Hfile as <-. right.
  apply link_and_filter_areas in Hlink as [dfa Ha].
  apply (apply_data_filters_kept dfa (areas t) (configured_filter_words w)
           "areaName"); [|exact Hlit|exact Ha].
  unfold configured_filter_words. apply split_on_nonempty.
Qed.

Lemma main_never_exports_denylisted_area_witness :
  exists df,
    disk (main full_run_clock full_run_world).2
      !! "/data/areas/20250101_areas.csv" = Some df
    /\ forall i r s,
         col_index "areaName" (columns df) = Some i ->
         In r (rows df) -> cell i r = VStr s ->
         contains (lower "geloescht") (lower s) = false.
Proof.
  destruct (main full_run_clock full_run_world) as [r w'] eqn:H.
  assert (Hr : r = Ok tt) by (apply (f_equal fst) in H; vm_compute in H; congruence).
  subst r.
  assert (Hwords : configured_filter_words full_run_world
                   = [ "delete"; "geloescht"; "loeschen"; "lÃ¶sch"; "ZEV EMD" ])
    by (vm_compute; reflexivity).
  cbn [snd].
  destruct (disk w' !! "/data/areas/20250101_areas.csv") as [df|] eqn:Hd.
  - exists df. split; [reflexivity|].
    destruct (main_never_exports_denylisted_area full_run_clock
                full_run_world w' "/data" df H eq_refl) as [Hold|Hclean].
    + rewrite Hwords. repeat constructor.
    + exact Hd.
    + discriminate.
    + intros i r s Hi Hr Hs. apply (Hclean i r s "geloescht" Hi Hr Hs).
      rewrite Hwords. right. left. reflexivity.
  - exfalso. apply (f_equal snd) in H. cbn [snd] in H. subst w'.
    vm_compute in Hd. discriminate.
Defined.

(** ** Manager fetcher: contracts that cannot be stamped *)

Lemma stamp_contract_raises (cols : list string) (row : list value)
    (labels : list string) (df : DataFrame) (c : string) :
  c ∈ labels -> c ∉ cols ->
  forall out, stamp_contract cols row labels df <> Ok out.
Proof.
  revert df. induction labels as [|l more IH]; intros df Hc Hno out.
  - apply elem_of_nil in Hc. destruct Hc.
  - cbn [stamp_contract]. unfold row_get at 1.
    destruct (col_index l cols) as [i|] eqn:Hi; [|discriminate].
    cbn [mbind result_bind]. apply IH; [|exact Hno].
    apply elem_of_cons in Hc as [->|Hc]; [|exact Hc].
    exfalso. apply Hno. apply col_index_elem. eauto.
Qed.

Lemma fetch_managers_unstamped (cols : list string) (row : list value)
    (outcome : http_outcome) (c : string) :
  c ∈ contract_columns -> c ∉ cols ->
  forall df, fetch_managers cols row outcome <> Ok (Some df).
Proof.
  intros Hc Hno df H. unfold fetch_managers in H.
  destruct outcome as [what|status body]; [discriminate|].
  destruct (Nat.eqb status 200); [|discriminate].
  destruct body as [manager_data|]; [|discriminate].
  destruct (truthy manager_data); [|discriminate].
  destruct (manager_frame cols row manager_data) as [out| |] eqn:Hf;
    try discriminate.
  unfold manager_frame in Hf.
  apply bind_Ok in Hf as (df1 & _ & Hf).
  apply bind_Ok in Hf as (df2 & _ & Hf).
  destruct (bool_decide (NoDup (columns df2))); [|discriminate].
  unfold clean_managers in Hf.
  apply bind_Ok in Hf as (df3 & _ & Hf).
  exact (stamp_contract_raises _ _ _ _ c Hc Hno out Hf).
Qed.

Lemma managers_loop_unstamped (cols : list string)
    (contract_rows : list (list value)) (w : World) (c : string) :
  c ∈ contract_columns -> c ∉ cols ->
  forall managers w',
    managers_loop cols contract_rows [] w = (Ok managers, w') ->
    managers = [].
Proof.
  intros Hc Hno. revert w.
  induction contract_rows as [|row more IH]; intros w managers w';
    cbn [managers_loop].
  - intros [= <- _]. reflexivity.
  - destruct (row_get cols row "contractId") as [id|e|]; try discriminate.
    cbn [http_request].
    pose proof (fetch_managers_unstamped cols row (responses w (sent w)) c
                  Hc Hno) as Hnone.
    destruct (fetch_managers cols row (responses w (sent w)))
      as [[df|]|e|]; try discriminate.
    + exfalso. exact (Hnone df eq_refl).
    + apply IH.
    + apply IH.
Qed.

(** X21: A contracts table that lacks one of the five columns stamped on the
    manager rows yields no manager at all: every contract with managers is
    skipped with a logged [KeyError], and [get_managers], when it returns,
    returns the empty table. *)
Theorem get_managers_empty_without_stamp (contracts_df : DataFrame)
    (w : World) (c : string) :
  c ∈ contract_columns ->
  c ∉ columns contracts_df ->
  forall out, (get_managers contracts_df w).1 = Ok out -> out = empty_frame.
Proof.
  intros Hc Hno out. unfold get_managers.
  destruct (empty contracts_df); [intros [= <-]; reflexivity|].
  pose proof (managers_loop_unstamped (columns contracts_df)
                (rows contracts_df) w c Hc Hno) as Hloop.
  destruct (managers_loop (columns contracts_df) (rows contracts_df) [] w)
    as [[managers|e|] w1]; try discriminate.
  rewrite (Hloop managers w1 eq_refl). intros [= <-]. reflexivity.
Qed.

Lemma get_managers_empty_without_stamp_witness :
  (get_managers (mkDF [ "contractId"; "contractName"; "contractActiveState";
                        "productName" ]
                      [ [ VStr "C1"; VStr "Haus A"; VStr "ACTIVE"; VStr "ZEV" ] ])
     (managers_world (Responds 200 (Some managers_payload)))).1
  = Ok empty_frame.
Proof.
  destruct (get_managers _ _) as [[out|e|] w'] eqn:H;
    try (vm_compute in H; discriminate).
  cbn [fst]. f_equal.
  apply (get_managers_empty_without_stamp
           (mkDF [ "contractId"; "contractName"; "contractActiveState";
                   "productName" ]
                 [ [ VStr "C1"; VStr "Haus A"; VStr "ACTIVE"; VStr "ZEV" ] ])
           (managers_world (Responds 200 (Some managers_payload)))
           "areaName").
  - apply (bool_decide_unpack _). vm_compute. exact I.
  - apply col_index_None. reflexivity.
  - rewrite H. reflexivity.
Defined.
